(** * Cash reconciliation store: balance derivation, ledger and month close

    A shallow embedding of [src/lib/cash-store.ts], of the withdrawal
    handlers of [src/components/back-safe-withdrawal.tsx] and of the SQL
    schema that creates the four tables they work on, followed by the
    properties of the balance-derivation and reconciliation engine.

    Conventions of the embedding.
    - An amount is a JavaScript number, that is a binary64 floating-point
      number: [+], [-], [<], [>] and [Math.abs] of the source are the
      operations of [PrimFloat], and a decimal literal such as [0.01] is the
      nearest binary64 number, as it is in JavaScript.  A row holds, for a
      [DECIMAL(10, 2)] column, the number the client reads from it; a write
      stores the number sent, which is what the database does for the
      amounts of [DECIMAL_10_2] (two decimals, below 10^8).
    - Dates, months, timestamps and identifiers are the strings the client
      sees (["YYYY-MM-DD"], ["YYYY-MM"], ISO timestamps, UUIDs); JavaScript's
      [<] on strings is the lexicographic order of [String.compare].
    - Every [async] function is a state transformer over the database
      ([Async]); [new Date().toISOString()] and [crypto.randomUUID()] are
      passed in by the caller as [now] and as fresh identifiers.  The clock
      of the database, which fills the [created_at] columns ([DEFAULT
      NOW()]), is part of the database.
    - [console.error] has no effect on the database and is not recorded. *)

From Stdlib Require Import ZArith List String Ascii Bool Lia Floats Uint63.
From Stdlib Require Import Permutation Sorted OrdersEx RelationClasses.
Import ListNotations.
Set Warnings "-inexact-float".
Local Open Scope float_scope.
Local Open Scope string_scope.

(* ================================================================= *)
(** ** Base types *)

Definition UUID := string.
(** [number]. *)
Definition Money := float.

(** The literal [0.01]. *)
Definition tolerance : Money := 0.01.

(** [Math.abs]. *)
Definition Math_abs (x : Money) : Money := PrimFloat.abs x.

(** [a > b] and [a < b] on numbers; both are false when one side is [NaN]. *)
Definition greater (a b : Money) : bool := (b <? a)%float.
Definition less (a b : Money) : bool := (a <? b)%float.

(** [x || 0] on a number: [0], [-0] and [NaN] are falsy. *)
Definition or_0 (x : Money) : Money :=
  if PrimFloat.is_nan x || PrimFloat.is_zero x then 0 else x.

(** The number the client reads from a [DECIMAL(10, 2)] value of [c]
    hundredths: the binary64 number nearest to [c / 100]. *)
Definition number_of_hundredths (c : Z) : Money :=
  let magnitude := (PrimFloat.of_uint63 (Uint63.of_Z (Z.abs c)) / 100)%float in
  if (c <? 0)%Z then (- magnitude)%float else magnitude.

(** The amounts of a [DECIMAL(10, 2)] column: at most ten digits, two of
    them decimals.  Such a number sent to the column is stored as it is
    and read back unchanged. *)
Definition DECIMAL_10_2 (x : Money) : Prop :=
  exists c : Z, (Z.abs c < 10 ^ 10)%Z /\ x = number_of_hundredths c.

(** [s.startsWith(p)]. *)
Definition startsWith (s p : string) : bool := String.prefix p s.

(** [iso.split("T")[0]]. *)
Fixpoint split_T_0 (iso : string) : string :=
  match iso with
  | EmptyString => EmptyString
  | String c rest =>
      if Ascii.eqb c "T"%char then EmptyString else String c (split_T_0 rest)
  end.

(** [.order(col, { ascending: false })] and [sort((a, b) =>
    b.col.localeCompare(a.col))]: rows by decreasing key.  Rows with equal
    keys keep their relative order. *)
Section Ordering.
Context {A : Type} (key : A -> string).

Fixpoint place (x : A) (l : list A) : list A :=
  match l with
  | [] => [x]
  | y :: l' =>
      if String.ltb (key x) (key y) then y :: place x l' else x :: l
  end.

Definition order_desc (l : list A) : list A := fold_right place [] l.
End Ordering.

(* ================================================================= *)
(** ** The schema *)

Module DailyEntryRow.
Record row := {
  id : UUID;
  user_id : UUID;
  date : string;
  cash_in : Money;
  deposited : Money;
  to_back_safe : Money;
  actual_left_in_front : Money;
  left_in_front : Money;
  difference : Money;
  discrepancy_reason : option string;
  manually_approved : bool;
  approval_note : option string;
  approved_at : option string;
  created_at : string;
  updated_at : string
}.
End DailyEntryRow.

Module WithdrawalRow.
Record row := {
  id : UUID;
  user_id : UUID;
  date : string;
  amount : Money;
  reason : string;
  created_at : string;
  updated_at : string
}.
End WithdrawalRow.

(** [type TEXT NOT NULL CHECK (type IN ('deposit', 'withdrawal'))]. *)
Module TransactionType.
Inductive t := deposit | withdrawal.
End TransactionType.

Module TransactionRow.
Record row := {
  id : UUID;
  user_id : UUID;
  date : string;
  type : TransactionType.t;
  amount : Money;
  reason : option string;
  entry_id : option UUID;       (* REFERENCES daily_entries(id) ON DELETE SET NULL *)
  withdrawal_id : option UUID;  (* REFERENCES back_safe_withdrawals(id) ON DELETE SET NULL *)
  created_at : string
}.
End TransactionRow.

Module ArchiveRow.
Record row := {
  id : UUID;
  user_id : UUID;
  month : string;
  starting_front_safe : Money;
  starting_back_safe : Money;
  ending_front_safe : Money;
  ending_back_safe : Money;
  is_closed : bool;
  closed_at : option string;
  created_at : string;
  updated_at : string
}.
End ArchiveRow.

(** Row level security is enabled on the four tables; a command is allowed
    on a row only when a policy for that command exists, and every policy
    of the schema has the condition [auth.uid() = user_id]. *)
Record Policy := {
  for_select : bool;
  for_insert : bool;
  for_update : bool;
  for_delete : bool
}.

Definition policy_daily_entries : Policy :=
  {| for_select := true; for_insert := true; for_update := true; for_delete := true |}.
Definition policy_back_safe_withdrawals : Policy :=
  {| for_select := true; for_insert := true; for_update := true; for_delete := true |}.
Definition policy_back_safe_transactions : Policy :=
  {| for_select := true; for_insert := true; for_update := false; for_delete := false |}.
Definition policy_monthly_archives : Policy :=
  {| for_select := true; for_insert := true; for_update := true; for_delete := false |}.

Inductive PgError :=
| unique_violation
| foreign_key_violation
| row_security_violation.

(** The database together with the signed-in user of the client
    ([supabase.auth.getUser()], which is also [auth.uid()]).  [clock] is
    what [NOW()] returns to the next statement, as the client reads a
    [TIMESTAMP] column; time passes from outside, as a sign-in does. *)
Record Store := {
  session : option UUID;
  clock : string;
  daily_entries : list DailyEntryRow.row;
  back_safe_withdrawals : list WithdrawalRow.row;
  back_safe_transactions : list TransactionRow.row;
  monthly_archives : list ArchiveRow.row
}.

Definition with_daily_entries (s : Store) (t : list DailyEntryRow.row) : Store :=
  {| session := session s; clock := clock s; daily_entries := t;
     back_safe_withdrawals := back_safe_withdrawals s;
     back_safe_transactions := back_safe_transactions s;
     monthly_archives := monthly_archives s |}.

Definition with_back_safe_withdrawals (s : Store) (t : list WithdrawalRow.row) : Store :=
  {| session := session s; clock := clock s; daily_entries := daily_entries s;
     back_safe_withdrawals := t;
     back_safe_transactions := back_safe_transactions s;
     monthly_archives := monthly_archives s |}.

Definition with_back_safe_transactions (s : Store) (t : list TransactionRow.row) : Store :=
  {| session := session s; clock := clock s; daily_entries := daily_entries s;
     back_safe_withdrawals := back_safe_withdrawals s;
     back_safe_transactions := t;
     monthly_archives := monthly_archives s |}.

Definition with_monthly_archives (s : Store) (t : list ArchiveRow.row) : Store :=
  {| session := session s; clock := clock s; daily_entries := daily_entries s;
     back_safe_withdrawals := back_safe_withdrawals s;
     back_safe_transactions := back_safe_transactions s;
     monthly_archives := t |}.

(* ================================================================= *)
(** ** Asynchronous functions as state transformers *)

Definition Async (A : Type) : Type := Store -> A * Store.

Definition ret {A : Type} (a : A) : Async A := fun s => (a, s).

Definition bind {A B : Type} (m : Async A) (k : A -> Async B) : Async B :=
  fun s => let (a, s') := m s in k a s'.

Notation "'await' x <- m ;; k" := (bind m (fun x => k))
  (at level 61, x name, m at next level, right associativity).
Notation "'run' m ;; k" := (bind m (fun _ => k))
  (at level 61, m at next level, right associativity).

(** The value an action returns and the database it leaves. *)
Definition result {A : Type} (m : Async A) (s : Store) : A := fst (m s).
Definition after {A : Type} (m : Async A) (s : Store) : Store := snd (m s).

(** [if (error) console.error(...)]. *)
Definition console_error (e : option PgError) : Async unit := ret tt.

(* ================================================================= *)
(** ** Queries of the client library *)

Module Db.

(** A row passes a policy when the policy exists and the row belongs to
    the signed-in user. *)
Definition allowed (exists_policy : bool) (uid owner : UUID) : bool :=
  exists_policy && String.eqb owner uid.

Definition mem (i : UUID) (l : list UUID) : bool := existsb (String.eqb i) l.

Definition refers (link : option UUID) (gone : list UUID) : bool :=
  match link with
  | Some i => mem i gone
  | None => false
  end.

(** *** daily_entries *)

(** [.from("daily_entries").select("*").eq("user_id", u).order("date", desc)] *)
Definition select_daily_entries (u : UUID) : Async (list DailyEntryRow.row) :=
  fun s =>
    match session s with
    | None => ([], s)
    | Some uid =>
        (order_desc DailyEntryRow.date
           (filter (fun r => allowed (for_select policy_daily_entries) uid (DailyEntryRow.user_id r)
                             && String.eqb (DailyEntryRow.user_id r) u)
                   (daily_entries s)), s)
    end.

(** [UNIQUE(user_id, date)], checked against the other rows. *)
Definition date_taken (r : DailyEntryRow.row) (rows : list DailyEntryRow.row) : bool :=
  existsb (fun o => negb (String.eqb (DailyEntryRow.id o) (DailyEntryRow.id r))
                    && String.eqb (DailyEntryRow.user_id o) (DailyEntryRow.user_id r)
                    && String.eqb (DailyEntryRow.date o) (DailyEntryRow.date r)) rows.

(** [.from("daily_entries").upsert(payload)]: insert, or on a conflict on
    the primary key update the columns given.  The payload of the client
    has no [created_at]: [payload] is the row as a function of that column,
    which a new row takes from its default, [NOW()], and an updated row
    keeps. *)
Definition upsert_daily_entries (payload : string -> DailyEntryRow.row)
    : Async (option PgError) :=
  fun s =>
    let r := payload (clock s) in
    match session s with
    | None => (Some row_security_violation, s)
    | Some uid =>
        if negb (allowed (for_insert policy_daily_entries) uid (DailyEntryRow.user_id r))
        then (Some row_security_violation, s)
        else if date_taken r (daily_entries s) then (Some unique_violation, s)
        else
          match find (fun o => String.eqb (DailyEntryRow.id o) (DailyEntryRow.id r)) (daily_entries s) with
          | None => (None, with_daily_entries s (daily_entries s ++ [r]))
          | Some old =>
              if allowed (for_update policy_daily_entries) uid (DailyEntryRow.user_id old)
              then
                let r' := {| DailyEntryRow.id := DailyEntryRow.id r;
                             DailyEntryRow.user_id := DailyEntryRow.user_id r;
                             DailyEntryRow.date := DailyEntryRow.date r;
                             DailyEntryRow.cash_in := DailyEntryRow.cash_in r;
                             DailyEntryRow.deposited := DailyEntryRow.deposited r;
                             DailyEntryRow.to_back_safe := DailyEntryRow.to_back_safe r;
                             DailyEntryRow.actual_left_in_front := DailyEntryRow.actual_left_in_front r;
                             DailyEntryRow.left_in_front := DailyEntryRow.left_in_front r;
                             DailyEntryRow.difference := DailyEntryRow.difference r;
                             DailyEntryRow.discrepancy_reason := DailyEntryRow.discrepancy_reason r;
                             DailyEntryRow.manually_approved := DailyEntryRow.manually_approved r;
                             DailyEntryRow.approval_note := DailyEntryRow.approval_note r;
                             DailyEntryRow.approved_at := DailyEntryRow.approved_at r;
                             DailyEntryRow.created_at := DailyEntryRow.created_at old;
                             DailyEntryRow.updated_at := DailyEntryRow.updated_at r |} in
                (None, with_daily_entries s
                         (map (fun o => if String.eqb (DailyEntryRow.id o) (DailyEntryRow.id r)
                                        then r' else o) (daily_entries s)))
              else (Some row_security_violation, s)
          end
    end.

(** [.from("daily_entries").update(f).eq("id", i).eq("user_id", u)] *)
Definition update_daily_entries (f : DailyEntryRow.row -> DailyEntryRow.row)
    (i u : UUID) : Async (option PgError) :=
  fun s =>
    match session s with
    | None => (None, s)
    | Some uid =>
        (None, with_daily_entries s
                 (map (fun r =>
                         if allowed (for_update policy_daily_entries) uid (DailyEntryRow.user_id r)
                            && String.eqb (DailyEntryRow.id r) i
                            && String.eqb (DailyEntryRow.user_id r) u
                         then f r else r) (daily_entries s)))
    end.

(** [ON DELETE SET NULL] of [back_safe_transactions.entry_id]. *)
Definition entry_id_set_null (gone : list UUID) (t : TransactionRow.row) : TransactionRow.row :=
  if refers (TransactionRow.entry_id t) gone then
    {| TransactionRow.id := TransactionRow.id t;
       TransactionRow.user_id := TransactionRow.user_id t;
       TransactionRow.date := TransactionRow.date t;
       TransactionRow.type := TransactionRow.type t;
       TransactionRow.amount := TransactionRow.amount t;
       TransactionRow.reason := TransactionRow.reason t;
       TransactionRow.entry_id := None;
       TransactionRow.withdrawal_id := TransactionRow.withdrawal_id t;
       TransactionRow.created_at := TransactionRow.created_at t |}
  else t.

(** [.from("daily_entries").delete().eq("id", i).eq("user_id", u)];
    the foreign key of the ledger then clears the links to the rows
    deleted. *)
Definition delete_daily_entries (i u : UUID) : Async (option PgError) :=
  fun s =>
    match session s with
    | None => (None, s)
    | Some uid =>
        let hit r := allowed (for_delete policy_daily_entries) uid (DailyEntryRow.user_id r)
                     && String.eqb (DailyEntryRow.id r) i
                     && String.eqb (DailyEntryRow.user_id r) u in
        let gone := map DailyEntryRow.id (filter hit (daily_entries s)) in
        (None,
         {| session := session s;
            clock := clock s;
            daily_entries := filter (fun r => negb (hit r)) (daily_entries s);
            back_safe_withdrawals := back_safe_withdrawals s;
            back_safe_transactions := map (entry_id_set_null gone) (back_safe_transactions s);
            monthly_archives := monthly_archives s |})
    end.

(** *** back_safe_withdrawals *)

(** [.from("back_safe_withdrawals").select("*").eq("user_id", u).order("date", desc)] *)
Definition select_back_safe_withdrawals (u : UUID) : Async (list WithdrawalRow.row) :=
  fun s =>
    match session s with
    | None => ([], s)
    | Some uid =>
        (order_desc WithdrawalRow.date
           (filter (fun r => allowed (for_select policy_back_safe_withdrawals) uid (WithdrawalRow.user_id r)
                             && String.eqb (WithdrawalRow.user_id r) u)
                   (back_safe_withdrawals s)), s)
    end.

(** [.from("back_safe_withdrawals").upsert(payload)]; [created_at] as for
    [daily_entries]. *)
Definition upsert_back_safe_withdrawals (payload : string -> WithdrawalRow.row)
    : Async (option PgError) :=
  fun s =>
    let r := payload (clock s) in
    match session s with
    | None => (Some row_security_violation, s)
    | Some uid =>
        if negb (allowed (for_insert policy_back_safe_withdrawals) uid (WithdrawalRow.user_id r))
        then (Some row_security_violation, s)
        else
          match find (fun o => String.eqb (WithdrawalRow.id o) (WithdrawalRow.id r)) (back_safe_withdrawals s) with
          | None => (None, with_back_safe_withdrawals s (back_safe_withdrawals s ++ [r]))
          | Some old =>
              if allowed (for_update policy_back_safe_withdrawals) uid (WithdrawalRow.user_id old)
              then
                let r' := {| WithdrawalRow.id := WithdrawalRow.id r;
                             WithdrawalRow.user_id := WithdrawalRow.user_id r;
                             WithdrawalRow.date := WithdrawalRow.date r;
                             WithdrawalRow.amount := WithdrawalRow.amount r;
                             WithdrawalRow.reason := WithdrawalRow.reason r;
                             WithdrawalRow.created_at := WithdrawalRow.created_at old;
                             WithdrawalRow.updated_at := WithdrawalRow.updated_at r |} in
                (None, with_back_safe_withdrawals s
                         (map (fun o => if String.eqb (WithdrawalRow.id o) (WithdrawalRow.id r)
                                        then r' else o) (back_safe_withdrawals s)))
              else (Some row_security_violation, s)
          end
    end.

(** [.from("back_safe_withdrawals").update(f).eq("id", i).eq("user_id", u)] *)
Definition update_back_safe_withdrawals (f : WithdrawalRow.row -> WithdrawalRow.row)
    (i u : UUID) : Async (option PgError) :=
  fun s =>
    match session s with
    | None => (None, s)
    | Some uid =>
        (None, with_back_safe_withdrawals s
                 (map (fun r =>
                         if allowed (for_update policy_back_safe_withdrawals) uid (WithdrawalRow.user_id r)
                            && String.eqb (WithdrawalRow.id r) i
                            && String.eqb (WithdrawalRow.user_id r) u
                         then f r else r) (back_safe_withdrawals s)))
    end.

(** [ON DELETE SET NULL] of [back_safe_transactions.withdrawal_id]. *)
Definition withdrawal_id_set_null (gone : list UUID) (t : TransactionRow.row) : TransactionRow.row :=
  if refers (TransactionRow.withdrawal_id t) gone then
    {| TransactionRow.id := TransactionRow.id t;
       TransactionRow.user_id := TransactionRow.user_id t;
       TransactionRow.date := TransactionRow.date t;
       TransactionRow.type := TransactionRow.type t;
       TransactionRow.amount := TransactionRow.amount t;
       TransactionRow.reason := TransactionRow.reason t;
       TransactionRow.entry_id := TransactionRow.entry_id t;
       TransactionRow.withdrawal_id := None;
       TransactionRow.created_at := TransactionRow.created_at t |}
  else t.

(** [.from("back_safe_withdrawals").delete().eq("id", i).eq("user_id", u)] *)
Definition delete_back_safe_withdrawals (i u : UUID) : Async (option PgError) :=
  fun s =>
    match session s with
    | None => (None, s)
    | Some uid =>
        let hit r := allowed (for_delete policy_back_safe_withdrawals) uid (WithdrawalRow.user_id r)
                     && String.eqb (WithdrawalRow.id r) i
                     && String.eqb (WithdrawalRow.user_id r) u in
        let gone := map WithdrawalRow.id (filter hit (back_safe_withdrawals s)) in
        (None,
         {| session := session s;
            clock := clock s;
            daily_entries := daily_entries s;
            back_safe_withdrawals := filter (fun r => negb (hit r)) (back_safe_withdrawals s);
            back_safe_transactions := map (withdrawal_id_set_null gone) (back_safe_transactions s);
            monthly_archives := monthly_archives s |})
    end.

(** *** back_safe_transactions *)

(** [.from("back_safe_transactions").select("*").eq("user_id", u).order("date", desc)] *)
Definition select_back_safe_transactions (u : UUID) : Async (list TransactionRow.row) :=
  fun s =>
    match session s with
    | None => ([], s)
    | Some uid =>
        (order_desc TransactionRow.date
           (filter (fun r => allowed (for_select policy_back_safe_transactions) uid (TransactionRow.user_id r)
                             && String.eqb (TransactionRow.user_id r) u)
                   (back_safe_transactions s)), s)
    end.

(** The row referenced by a foreign key must exist. *)
Definition link_ok (link : option UUID) (ids : list UUID) : bool :=
  match link with
  | Some i => mem i ids
  | None => true
  end.

(** [.from("back_safe_transactions").insert(payload)]; [created_at] takes
    its default, [NOW()]. *)
Definition insert_back_safe_transactions (payload : string -> TransactionRow.row)
    : Async (option PgError) :=
  fun s =>
    let r := payload (clock s) in
    match session s with
    | None => (Some row_security_violation, s)
    | Some uid =>
        if negb (allowed (for_insert policy_back_safe_transactions) uid (TransactionRow.user_id r))
        then (Some row_security_violation, s)
        else if mem (TransactionRow.id r) (map TransactionRow.id (back_safe_transactions s))
        then (Some unique_violation, s)
        else if negb (link_ok (TransactionRow.entry_id r) (map DailyEntryRow.id (daily_entries s))
                      && link_ok (TransactionRow.withdrawal_id r)
                                 (map WithdrawalRow.id (back_safe_withdrawals s)))
        then (Some foreign_key_violation, s)
        else (None, with_back_safe_transactions s (back_safe_transactions s ++ [r]))
    end.

(** [.from("back_safe_transactions").delete().eq("withdrawal_id", i)] *)
Definition delete_back_safe_transactions (i : UUID) : Async (option PgError) :=
  fun s =>
    match session s with
    | None => (None, s)
    | Some uid =>
        let hit r := allowed (for_delete policy_back_safe_transactions) uid (TransactionRow.user_id r)
                     && match TransactionRow.withdrawal_id r with
                        | Some w => String.eqb w i
                        | None => false
                        end in
        (None, with_back_safe_transactions s
                 (filter (fun r => negb (hit r)) (back_safe_transactions s)))
    end.

(** *** monthly_archives *)

(** [.from("monthly_archives").select("*").eq("user_id", u).order("month", desc)] *)
Definition select_monthly_archives (u : UUID) : Async (list ArchiveRow.row) :=
  fun s =>
    match session s with
    | None => ([], s)
    | Some uid =>
        (order_desc ArchiveRow.month
           (filter (fun r => allowed (for_select policy_monthly_archives) uid (ArchiveRow.user_id r)
                             && String.eqb (ArchiveRow.user_id r) u)
                   (monthly_archives s)), s)
    end.

(** [.from("monthly_archives").upsert(payload)]: the payload has no [id],
    so the row gets a generated one and the conflict target (the primary
    key) is never hit; [UNIQUE(user_id, month)] rejects a second row of a
    month.  [created_at] takes its default, [NOW()]. *)
Definition upsert_monthly_archives (payload : string -> ArchiveRow.row)
    : Async (option PgError) :=
  fun s =>
    let r := payload (clock s) in
    match session s with
    | None => (Some row_security_violation, s)
    | Some uid =>
        if negb (allowed (for_insert policy_monthly_archives) uid (ArchiveRow.user_id r))
        then (Some row_security_violation, s)
        else if existsb (fun o => String.eqb (ArchiveRow.id o) (ArchiveRow.id r)
                                  || (String.eqb (ArchiveRow.user_id o) (ArchiveRow.user_id r)
                                      && String.eqb (ArchiveRow.month o) (ArchiveRow.month r)))
                        (monthly_archives s)
        then (Some unique_violation, s)
        else (None, with_monthly_archives s (monthly_archives s ++ [r]))
    end.

End Db.

(* ================================================================= *)
(** ** The types of [lib/types] as the store builds them *)

Module DailyEntry.
Record t := {
  id : UUID;
  date : string;
  cashIn : Money;
  deposited : Money;
  toBackSafe : Money;
  leftInFront : Money;
  expectedFrontSafe : Money;
  difference : Money;
  isBalanced : bool;
  notes : option string;
  manuallyApproved : bool;
  approvalNote : option string;
  approvedAt : option string;
  createdAt : string;
  updatedAt : string
}.
End DailyEntry.

Module BackSafeWithdrawal.
Record t := {
  id : UUID;
  date : string;
  amount : Money;
  reason : string;
  createdAt : string
}.
End BackSafeWithdrawal.

Module BackSafeTransaction.
Record t := {
  id : UUID;
  date : string;
  type : TransactionType.t;
  amount : Money;
  reason : option string;
  fromEntryId : option UUID;
  withdrawalId : option UUID;
  createdAt : string
}.
End BackSafeTransaction.

Module SafeBalances.
Record t := {
  frontSafe : Money;
  backSafe : Money;
  lastUpdated : string
}.
End SafeBalances.

Module MonthlyArchive.
Record t := {
  month : string;
  startingFrontSafe : Money;
  startingBackSafe : Money;
  endingFrontSafe : Money;
  endingBackSafe : Money;
  entries : list DailyEntry.t;
  withdrawals : list BackSafeWithdrawal.t;
  isClosed : bool;
  closedAt : option string
}.
End MonthlyArchive.

(* ================================================================= *)
(** ** [src/lib/cash-store.ts] *)

Definition getCurrentUser : Async (option UUID) := fun s => (session s, s).

(** The object [getEntries] builds from a row.  The numeric columns hold
    numbers: [saveEntry] is the only writer and supplies all of them. *)
Definition entry_of_row (row : DailyEntryRow.row) : DailyEntry.t :=
  {| DailyEntry.id := DailyEntryRow.id row;
     DailyEntry.date := DailyEntryRow.date row;
     DailyEntry.cashIn := DailyEntryRow.cash_in row;
     DailyEntry.deposited := DailyEntryRow.deposited row;
     DailyEntry.toBackSafe := DailyEntryRow.to_back_safe row;
     DailyEntry.leftInFront := DailyEntryRow.actual_left_in_front row;
     DailyEntry.expectedFrontSafe := or_0 (DailyEntryRow.left_in_front row);
     DailyEntry.difference := DailyEntryRow.difference row;
     DailyEntry.isBalanced := less (Math_abs (DailyEntryRow.difference row)) tolerance;
     DailyEntry.notes := DailyEntryRow.discrepancy_reason row;
     DailyEntry.manuallyApproved := DailyEntryRow.manually_approved row;
     DailyEntry.approvalNote := DailyEntryRow.approval_note row;
     DailyEntry.approvedAt := DailyEntryRow.approved_at row;
     DailyEntry.createdAt := DailyEntryRow.created_at row;
     DailyEntry.updatedAt := DailyEntryRow.updated_at row |}.

Definition getEntries : Async (list DailyEntry.t) :=
  await user <- getCurrentUser ;;
  match user with
  | None => ret []
  | Some u =>
      await data <- Db.select_daily_entries u ;;
      ret (map entry_of_row data)
  end.

Definition saveEntry (entry : DailyEntry.t) (now : string) : Async unit :=
  await user <- getCurrentUser ;;
  match user with
  | None => ret tt
  | Some u =>
      await error <- Db.upsert_daily_entries (fun created_at =>
        {| DailyEntryRow.id := DailyEntry.id entry;
           DailyEntryRow.user_id := u;
           DailyEntryRow.date := DailyEntry.date entry;
           DailyEntryRow.cash_in := DailyEntry.cashIn entry;
           DailyEntryRow.deposited := DailyEntry.deposited entry;
           DailyEntryRow.to_back_safe := DailyEntry.toBackSafe entry;
           DailyEntryRow.actual_left_in_front := DailyEntry.leftInFront entry;
           DailyEntryRow.left_in_front := DailyEntry.expectedFrontSafe entry;
           DailyEntryRow.difference := DailyEntry.difference entry;
           DailyEntryRow.discrepancy_reason := DailyEntry.notes entry;
           DailyEntryRow.manually_approved := DailyEntry.manuallyApproved entry || false;
           DailyEntryRow.approval_note := DailyEntry.approvalNote entry;
           DailyEntryRow.approved_at := DailyEntry.approvedAt entry;
           DailyEntryRow.created_at := created_at;
           DailyEntryRow.updated_at := now |}) ;;
      console_error error
  end.

Definition deleteEntry (id : UUID) : Async unit :=
  await user <- getCurrentUser ;;
  match user with
  | None => ret tt
  | Some u =>
      await error <- Db.delete_daily_entries id u ;;
      console_error error
  end.

Definition set_approval (approved : bool) (note at_ : option string) (now : string)
    (r : DailyEntryRow.row) : DailyEntryRow.row :=
  {| DailyEntryRow.id := DailyEntryRow.id r;
     DailyEntryRow.user_id := DailyEntryRow.user_id r;
     DailyEntryRow.date := DailyEntryRow.date r;
     DailyEntryRow.cash_in := DailyEntryRow.cash_in r;
     DailyEntryRow.deposited := DailyEntryRow.deposited r;
     DailyEntryRow.to_back_safe := DailyEntryRow.to_back_safe r;
     DailyEntryRow.actual_left_in_front := DailyEntryRow.actual_left_in_front r;
     DailyEntryRow.left_in_front := DailyEntryRow.left_in_front r;
     DailyEntryRow.difference := DailyEntryRow.difference r;
     DailyEntryRow.discrepancy_reason := DailyEntryRow.discrepancy_reason r;
     DailyEntryRow.manually_approved := approved;
     DailyEntryRow.approval_note := note;
     DailyEntryRow.approved_at := at_;
     DailyEntryRow.created_at := DailyEntryRow.created_at r;
     DailyEntryRow.updated_at := now |}.

Definition approveEntry (id : UUID) (approvalNote : string) (now : string) : Async unit :=
  await user <- getCurrentUser ;;
  match user with
  | None => ret tt
  | Some u =>
      await error <- Db.update_daily_entries
                       (set_approval true (Some approvalNote) (Some now) now) id u ;;
      console_error error
  end.

Definition removeApproval (id : UUID) (now : string) : Async unit :=
  await user <- getCurrentUser ;;
  match user with
  | None => ret tt
  | Some u =>
      await error <- Db.update_daily_entries (set_approval false None None now) id u ;;
      console_error error
  end.

Definition withdrawal_of_row (row : WithdrawalRow.row) : BackSafeWithdrawal.t :=
  {| BackSafeWithdrawal.id := WithdrawalRow.id row;
     BackSafeWithdrawal.date := WithdrawalRow.date row;
     BackSafeWithdrawal.amount := WithdrawalRow.amount row;
     BackSafeWithdrawal.reason := WithdrawalRow.reason row;
     BackSafeWithdrawal.createdAt := WithdrawalRow.created_at row |}.

Definition getWithdrawals : Async (list BackSafeWithdrawal.t) :=
  await user <- getCurrentUser ;;
  match user with
  | None => ret []
  | Some u =>
      await data <- Db.select_back_safe_withdrawals u ;;
      ret (map withdrawal_of_row data)
  end.

Definition transaction_of_row (row : TransactionRow.row) : BackSafeTransaction.t :=
  {| BackSafeTransaction.id := TransactionRow.id row;
     BackSafeTransaction.date := TransactionRow.date row;
     BackSafeTransaction.type := TransactionRow.type row;
     BackSafeTransaction.amount := TransactionRow.amount row;
     BackSafeTransaction.reason := TransactionRow.reason row;
     BackSafeTransaction.fromEntryId := TransactionRow.entry_id row;
     BackSafeTransaction.withdrawalId := TransactionRow.withdrawal_id row;
     BackSafeTransaction.createdAt := TransactionRow.created_at row |}.

Definition getBackSafeTransactions : Async (list BackSafeTransaction.t) :=
  await user <- getCurrentUser ;;
  match user with
  | None => ret []
  | Some u =>
      await data <- Db.select_back_safe_transactions u ;;
      ret (map transaction_of_row data)
  end.

Definition saveBackSafeTransaction (transaction : BackSafeTransaction.t) : Async unit :=
  await user <- getCurrentUser ;;
  match user with
  | None => ret tt
  | Some u =>
      await error <- Db.insert_back_safe_transactions (fun created_at =>
        {| TransactionRow.id := BackSafeTransaction.id transaction;
           TransactionRow.user_id := u;
           TransactionRow.date := BackSafeTransaction.date transaction;
           TransactionRow.type := BackSafeTransaction.type transaction;
           TransactionRow.amount := BackSafeTransaction.amount transaction;
           TransactionRow.reason := BackSafeTransaction.reason transaction;
           TransactionRow.entry_id := BackSafeTransaction.fromEntryId transaction;
           TransactionRow.withdrawal_id := BackSafeTransaction.withdrawalId transaction;
           TransactionRow.created_at := created_at |}) ;;
      console_error error
  end.

(** [randomUUID] is the value of [crypto.randomUUID()]. *)
Definition saveWithdrawal (withdrawal : BackSafeWithdrawal.t) (randomUUID : UUID)
    (now : string) : Async unit :=
  await user <- getCurrentUser ;;
  match user with
  | None => ret tt
  | Some u =>
      await error <- Db.upsert_back_safe_withdrawals (fun created_at =>
        {| WithdrawalRow.id := BackSafeWithdrawal.id withdrawal;
           WithdrawalRow.user_id := u;
           WithdrawalRow.date := BackSafeWithdrawal.date withdrawal;
           WithdrawalRow.amount := BackSafeWithdrawal.amount withdrawal;
           WithdrawalRow.reason := BackSafeWithdrawal.reason withdrawal;
           WithdrawalRow.created_at := created_at;
           WithdrawalRow.updated_at := now |}) ;;
      run console_error error ;;
      (* Also save as a transaction *)
      saveBackSafeTransaction
        {| BackSafeTransaction.id := randomUUID;
           BackSafeTransaction.date := BackSafeWithdrawal.date withdrawal;
           BackSafeTransaction.type := TransactionType.withdrawal;
           BackSafeTransaction.amount := BackSafeWithdrawal.amount withdrawal;
           BackSafeTransaction.reason := Some (BackSafeWithdrawal.reason withdrawal);
           BackSafeTransaction.fromEntryId := None;
           BackSafeTransaction.withdrawalId := Some (BackSafeWithdrawal.id withdrawal);
           BackSafeTransaction.createdAt := now |}
  end.

Definition deleteWithdrawal (id : UUID) : Async unit :=
  await user <- getCurrentUser ;;
  match user with
  | None => ret tt
  | Some u =>
      await error <- Db.delete_back_safe_withdrawals id u ;;
      run console_error error ;;
      (* Delete associated transaction *)
      run Db.delete_back_safe_transactions id ;;
      ret tt
  end.

Definition updateWithdrawal (id : UUID) (amount : Money) (reason : string) (now : string)
    : Async unit :=
  await user <- getCurrentUser ;;
  match user with
  | None => ret tt
  | Some u =>
      await error <- Db.update_back_safe_withdrawals
        (fun r => {| WithdrawalRow.id := WithdrawalRow.id r;
                     WithdrawalRow.user_id := WithdrawalRow.user_id r;
                     WithdrawalRow.date := WithdrawalRow.date r;
                     WithdrawalRow.amount := amount;
                     WithdrawalRow.reason := reason;
                     WithdrawalRow.created_at := WithdrawalRow.created_at r;
                     WithdrawalRow.updated_at := now |}) id u ;;
      console_error error
  end.

(** One round of the [forEach] of [getBalances]. *)
Definition backSafe_step (backSafe : Money) (t : BackSafeTransaction.t) : Money :=
  let backSafe :=
    match BackSafeTransaction.type t with
    | TransactionType.deposit => backSafe + BackSafeTransaction.amount t
    | TransactionType.withdrawal => backSafe
    end in
  match BackSafeTransaction.type t with
  | TransactionType.withdrawal => backSafe - BackSafeTransaction.amount t
  | TransactionType.deposit => backSafe
  end.

Definition getBalances (now : string) : Async SafeBalances.t :=
  await user <- getCurrentUser ;;
  match user with
  | None =>
      ret {| SafeBalances.frontSafe := 0; SafeBalances.backSafe := 0;
             SafeBalances.lastUpdated := now |}
  | Some _ =>
      await entriesData <- getEntries ;;
      await withdrawalsData <- getWithdrawals ;;
      await transactionsData <- getBackSafeTransactions ;;
      (* Calculate front safe from latest entry *)
      let latestEntry := hd_error entriesData in
      let frontSafe :=
        match latestEntry with
        | Some e => DailyEntry.leftInFront e
        | None => 0
        end in
      (* Calculate back safe from transactions *)
      let backSafe := fold_left backSafe_step transactionsData 0 in
      ret {| SafeBalances.frontSafe := frontSafe; SafeBalances.backSafe := backSafe;
             SafeBalances.lastUpdated := now |}
  end.

Definition calculateExpectedFrontSafe (previousBalance cashIn deposited toBackSafe : Money)
    : Async Money :=
  ret (previousBalance + cashIn - deposited - toBackSafe).

Definition getLastEntryForDate (date : string) : Async (option DailyEntry.t) :=
  await entries <- getEntries ;;
  ret (find (fun e => String.eqb (DailyEntry.date e) date) entries).

Definition getPreviousDayBalance (now : string) : Async Money :=
  await entries <- getEntries ;;
  match entries with
  | [] =>
      await balances <- getBalances now ;;
      ret (SafeBalances.frontSafe balances)
  | e :: _ => ret (DailyEntry.leftInFront e)
  end.

Definition getBackSafeTransactionsForMonth (month : string) : Async (list BackSafeTransaction.t) :=
  await transactions <- getBackSafeTransactions ;;
  ret (filter (fun t => startsWith (BackSafeTransaction.date t) month) transactions).

Definition archive_of_row (row : ArchiveRow.row) : MonthlyArchive.t :=
  {| MonthlyArchive.month := ArchiveRow.month row;
     MonthlyArchive.startingFrontSafe := ArchiveRow.starting_front_safe row;
     MonthlyArchive.startingBackSafe := ArchiveRow.starting_back_safe row;
     MonthlyArchive.endingFrontSafe := ArchiveRow.ending_front_safe row;
     MonthlyArchive.endingBackSafe := ArchiveRow.ending_back_safe row;
     MonthlyArchive.entries := [];
     MonthlyArchive.withdrawals := [];
     MonthlyArchive.isClosed := ArchiveRow.is_closed row;
     MonthlyArchive.closedAt := ArchiveRow.closed_at row |}.

Definition getArchives : Async (list MonthlyArchive.t) :=
  await user <- getCurrentUser ;;
  match user with
  | None => ret []
  | Some u =>
      await data <- Db.select_monthly_archives u ;;
      ret (map archive_of_row data)
  end.

(** [generatedId] is the [gen_random_uuid()] default of the [id] column,
    which the payload leaves out. *)
Definition saveArchive (archive : MonthlyArchive.t) (generatedId : UUID) (now : string)
    : Async unit :=
  await user <- getCurrentUser ;;
  match user with
  | None => ret tt
  | Some u =>
      await error <- Db.upsert_monthly_archives (fun created_at =>
        {| ArchiveRow.id := generatedId;
           ArchiveRow.user_id := u;
           ArchiveRow.month := MonthlyArchive.month archive;
           ArchiveRow.starting_front_safe := MonthlyArchive.startingFrontSafe archive;
           ArchiveRow.starting_back_safe := MonthlyArchive.startingBackSafe archive;
           ArchiveRow.ending_front_safe := MonthlyArchive.endingFrontSafe archive;
           ArchiveRow.ending_back_safe := MonthlyArchive.endingBackSafe archive;
           ArchiveRow.is_closed := MonthlyArchive.isClosed archive;
           ArchiveRow.closed_at := MonthlyArchive.closedAt archive;
           ArchiveRow.created_at := created_at;
           ArchiveRow.updated_at := now |}) ;;
      console_error error
  end.

Definition getEntriesForMonth (month : string) : Async (list DailyEntry.t) :=
  await entries <- getEntries ;;
  ret (filter (fun e => startsWith (DailyEntry.date e) month) entries).

Definition getWithdrawalsForMonth (month : string) : Async (list BackSafeWithdrawal.t) :=
  await withdrawals <- getWithdrawals ;;
  ret (filter (fun w => startsWith (BackSafeWithdrawal.date w) month) withdrawals).

(** [a.month < month && a.isClosed] *)
Definition closed_before (month : string) (a : MonthlyArchive.t) : bool :=
  String.ltb (MonthlyArchive.month a) month && MonthlyArchive.isClosed a.

Definition closeMonth (month : string) (generatedId : UUID) (now : string)
    : Async (option MonthlyArchive.t) :=
  await user <- getCurrentUser ;;
  match user with
  | None => ret None
  | Some _ =>
      await balances <- getBalances now ;;
      await entries <- getEntriesForMonth month ;;
      await withdrawals <- getWithdrawalsForMonth month ;;
      await archives <- getArchives ;;
      match entries with
      | [] => ret None
      | _ :: _ =>
          let previousArchive := find (closed_before month) archives in
          let startingFrontSafe :=
            match previousArchive with
            | Some p => MonthlyArchive.endingFrontSafe p
            | None => 0
            end in
          let startingBackSafe :=
            match previousArchive with
            | Some p => MonthlyArchive.endingBackSafe p
            | None => 0
            end in
          let archive :=
            {| MonthlyArchive.month := month;
               MonthlyArchive.startingFrontSafe := startingFrontSafe;
               MonthlyArchive.startingBackSafe := startingBackSafe;
               MonthlyArchive.endingFrontSafe := SafeBalances.frontSafe balances;
               MonthlyArchive.endingBackSafe := SafeBalances.backSafe balances;
               MonthlyArchive.entries := entries;
               MonthlyArchive.withdrawals := withdrawals;
               MonthlyArchive.isClosed := true;
               MonthlyArchive.closedAt := Some now |} in
          run saveArchive archive generatedId now ;;
          ret (Some archive)
      end
  end.

Definition getMonthStartingBalances (month : string) : Async (Money * Money) :=
  await archives <- getArchives ;;
  let previousArchive :=
    hd_error (order_desc MonthlyArchive.month (filter (closed_before month) archives)) in
  match previousArchive with
  | Some p => ret (MonthlyArchive.endingFrontSafe p, MonthlyArchive.endingBackSafe p)
  | None => ret (0, 0)
  end.

(* ================================================================= *)
(** ** [src/components/back-safe-withdrawal.tsx]: the handlers *)

Module BackSafeWithdrawalSection.

(** What the user sees of a handler: the [alert], the [onWithdrawal()]
    callback after a save, or nothing. *)
Inductive Effect :=
| alert (message : string)
| onWithdrawal
| silent.

(** The [useEffect] that loads [currentBackSafe]. *)
Definition loadCurrentBackSafe (now : string) : Async Money :=
  await latestBalances <- getBalances now ;;
  ret (SafeBalances.backSafe latestBalances).

(** [currentBackSafe] is the state of the component, loaded by
    [loadCurrentBackSafe] when the component was last refreshed;
    [amountNum] is [Number.parseFloat(amount) || 0]; [id] and [txId] are the
    two [crypto.randomUUID()] of the save. *)
Definition handleSubmit (currentBackSafe amountNum : Money) (reason : string)
    (id txId : UUID) (now : string) : Async Effect :=
  if greater amountNum currentBackSafe then
    ret (alert "Cannot withdraw more than the current back safe balance")
  else
    let withdrawal :=
      {| BackSafeWithdrawal.id := id;
         BackSafeWithdrawal.date := split_T_0 now;
         BackSafeWithdrawal.amount := amountNum;
         BackSafeWithdrawal.reason := reason;
         BackSafeWithdrawal.createdAt := now |} in
    run saveWithdrawal withdrawal txId now ;;
    ret onWithdrawal.

Definition handleEditSubmit (currentBackSafe originalAmount : Money)
    (editingWithdrawal : option BackSafeWithdrawal.t)
    (newAmount : Money) (editReason : string) (now : string) : Async Effect :=
  match editingWithdrawal with
  | None => ret silent
  | Some editing =>
      let amountDifference := newAmount - originalAmount in
      if greater amountDifference currentBackSafe then
        ret (alert "Cannot withdraw more than the current back safe balance")
      else
        run updateWithdrawal (BackSafeWithdrawal.id editing) newAmount editReason now ;;
        ret onWithdrawal
  end.

Definition handleDelete (deleteId : option UUID) : Async Effect :=
  match deleteId with
  | None => ret silent
  | Some id =>
      run deleteWithdrawal id ;;
      ret onWithdrawal
  end.

End BackSafeWithdrawalSection.

(* ================================================================= *)
(** ** What the specification asks for, in its own words *)

(** The most recent entry strictly before [date]: among the entries dated
    before [date], one of the greatest date, in whatever order the entries
    are listed. *)
Fixpoint latest_before (date : string) (entries : list DailyEntry.t) : option DailyEntry.t :=
  match entries with
  | [] => None
  | e :: rest =>
      let among_rest := latest_before date rest in
      if String.ltb (DailyEntry.date e) date then
        match among_rest with
        | Some e' =>
            if String.ltb (DailyEntry.date e) (DailyEntry.date e') then Some e' else Some e
        | None => Some e
        end
      else among_rest
  end.

(** The front-safe balance as of the most recent entry strictly before
    [date], or 0 if there is none. *)
Definition frontSafeBefore (date : string) (entries : list DailyEntry.t) : Money :=
  match latest_before date entries with
  | Some e => DailyEntry.leftInFront e
  | None => 0
  end.

(** The ledger of an account: its rows of [back_safe_transactions]. *)
Definition ledger (u : UUID) (s : Store) : list TransactionRow.row :=
  filter (fun r => String.eqb (TransactionRow.user_id r) u) (back_safe_transactions s).

(** The signed sum of ledger rows taken in the order of the list:
    starting from 0, the amount of every deposit added and the amount of
    every withdrawal subtracted. *)
Definition add_signed (balance : Money) (r : TransactionRow.row) : Money :=
  match TransactionRow.type r with
  | TransactionType.deposit => balance + TransactionRow.amount r
  | TransactionType.withdrawal => balance - TransactionRow.amount r
  end.

Definition signed_sum (rows : list TransactionRow.row) : Money :=
  fold_left add_signed rows 0.

(** Modelled from the spec: the form that submits a daily entry
    ([components/daily-entry-form]) is not part of the sources; section 4.2
    step 4 gives [difference = actualLeftInFront - expectedFrontSafe]. *)
Definition difference_of (actualLeftInFront expectedFrontSafe : Money) : Money :=
  actualLeftInFront - expectedFrontSafe.

(** The rows of [monthly_archives] of an account. *)
Definition archives_of (u : UUID) (s : Store) : list ArchiveRow.row :=
  filter (fun r => String.eqb (ArchiveRow.user_id r) u) (monthly_archives s).

(** [p] is a closed archive of a month before [month], and no closed
    archive of the account lies between the two. *)
Definition latest_closed_before (month : string) (rows : list ArchiveRow.row)
    (p : ArchiveRow.row) : Prop :=
  In p rows /\ ArchiveRow.is_closed p = true
  /\ String.ltb (ArchiveRow.month p) month = true
  /\ forall q, In q rows -> ArchiveRow.is_closed q = true ->
               String.ltb (ArchiveRow.month q) month = true ->
               String.leb (ArchiveRow.month q) (ArchiveRow.month p) = true.

Definition none_closed_before (month : string) (rows : list ArchiveRow.row) : Prop :=
  forall q, In q rows ->
            ~ (ArchiveRow.is_closed q = true /\ String.ltb (ArchiveRow.month q) month = true).

(** What the history shows of the reconciliation of an entry. *)
Definition reconciliation (e : DailyEntry.t) : UUID * Money * bool :=
  (DailyEntry.id e, DailyEntry.difference e, DailyEntry.isBalanced e).

(* ================================================================= *)
(** ** Sample databases *)

Module Sample.

Definition user : UUID := "7f0c-user-a".
Definition t0 : string := "2024-03-12T09:30:00.000Z".

Definition empty : Store :=
  {| session := Some user; clock := "2024-03-12T09:30:00.412613";
     daily_entries := []; back_safe_withdrawals := [];
     back_safe_transactions := []; monthly_archives := [] |}.

Definition entry (id date : string) (previous cashIn deposited toBackSafe left : Money)
    : DailyEntry.t :=
  let expected := result (calculateExpectedFrontSafe previous cashIn deposited toBackSafe) empty in
  {| DailyEntry.id := id; DailyEntry.date := date;
     DailyEntry.cashIn := cashIn; DailyEntry.deposited := deposited;
     DailyEntry.toBackSafe := toBackSafe; DailyEntry.leftInFront := left;
     DailyEntry.expectedFrontSafe := expected;
     DailyEntry.difference := difference_of left expected;
     DailyEntry.isBalanced := less (Math_abs (difference_of left expected)) tolerance;
     DailyEntry.notes := None; DailyEntry.manuallyApproved := false;
     DailyEntry.approvalNote := None; DailyEntry.approvedAt := None;
     DailyEntry.createdAt := t0; DailyEntry.updatedAt := t0 |}.

Definition transfer (id date : string) (amount : Money) (fromEntryId : option UUID)
    : BackSafeTransaction.t :=
  {| BackSafeTransaction.id := id; BackSafeTransaction.date := date;
     BackSafeTransaction.type := TransactionType.deposit;
     BackSafeTransaction.amount := amount;
     BackSafeTransaction.reason := Some "Transfer from front safe";
     BackSafeTransaction.fromEntryId := fromEntryId;
     BackSafeTransaction.withdrawalId := None;
     BackSafeTransaction.createdAt := t0 |}.

(** Two entries, of 1 March (100.00 left in front) and of 10 March
    (300.00 left in front). *)
Definition two_entries : Store :=
  after (run saveEntry (entry "e-0301" "2024-03-01" 0 500 400 0 100) t0 ;;
         saveEntry (entry "e-0310" "2024-03-10" 100 600 400 0 300) t0) empty.

(** One entry of 1 March that moved 50.00 to the back safe, with its
    linked deposit. *)
Definition entry_with_transfer : Store :=
  after (run saveEntry (entry "e-0301" "2024-03-01" 100 500 400 50 150) t0 ;;
         saveBackSafeTransaction (transfer "t-0301" "2024-03-01" 50 (Some "e-0301")))
        empty.


Definition withdrawn (id date : string) (amount : Money) : BackSafeTransaction.t :=
  {| BackSafeTransaction.id := id; BackSafeTransaction.date := date;
     BackSafeTransaction.type := TransactionType.withdrawal;
     BackSafeTransaction.amount := amount;
     BackSafeTransaction.reason := Some "bank drop";
     BackSafeTransaction.fromEntryId := None;
     BackSafeTransaction.withdrawalId := None;
     BackSafeTransaction.createdAt := t0 |}.

(** A ledger of a withdrawal of 0.30 on 1 March and deposits of 0.20 on
    2 March and of 0.10 on 3 March. *)
Definition small_change : Store :=
  after (run saveBackSafeTransaction (withdrawn "t-0301" "2024-03-01" 0.30) ;;
         run saveBackSafeTransaction (transfer "t-0302" "2024-03-02" 0.20 None) ;;
         saveBackSafeTransaction (transfer "t-0303" "2024-03-03" 0.10 None)) empty.

(** A back safe that holds 200.00. *)
Definition back_safe_200 : Store :=
  after (saveBackSafeTransaction (transfer "t-0305" "2024-03-05" 200 None)) empty.

(** The same after a withdrawal of 100.00 ("bank drop"). *)
Definition after_withdrawal_100 : Store :=
  after (BackSafeWithdrawalSection.handleSubmit 200 100 "bank drop" "w-1" "t-w-1" t0)
        back_safe_200.

Definition archive_row (id month : string) (endFront endBack : Money) (closed : bool)
    : ArchiveRow.row :=
  {| ArchiveRow.id := id; ArchiveRow.user_id := user; ArchiveRow.month := month;
     ArchiveRow.starting_front_safe := 0; ArchiveRow.starting_back_safe := 0;
     ArchiveRow.ending_front_safe := endFront; ArchiveRow.ending_back_safe := endBack;
     ArchiveRow.is_closed := closed; ArchiveRow.closed_at := Some t0;
     ArchiveRow.created_at := t0; ArchiveRow.updated_at := t0 |}.

(** March has entries; January and February are closed, April is closed
    too and December of the year before is not. *)
Definition with_archives : Store :=
  with_monthly_archives two_entries
    [ archive_row "a-02" "2024-02" 300 400 true;
      archive_row "a-04" "2024-04" 700 800 true;
      archive_row "a-12" "2023-12" 500 600 false;
      archive_row "a-01" "2024-01" 100 200 true ].

End Sample.

(* ================================================================= *)
(** ** Vocabulary of the statements *)

(** [a] may stand before [b] in a list by decreasing key: its key is not
    smaller. *)
Definition not_smaller {A : Type} (key : A -> string) (a b : A) : Prop :=
  String.leb (key b) (key a) = true.

(** The rows of the signed-in account. *)
Definition account_entries (s : Store) : list DailyEntryRow.row :=
  match session s with
  | Some u => filter (fun r => String.eqb (DailyEntryRow.user_id r) u) (daily_entries s)
  | None => []
  end.

Definition account_ledger (s : Store) : list TransactionRow.row :=
  match session s with
  | Some u => ledger u s
  | None => []
  end.

Definition account_archives (s : Store) : list ArchiveRow.row :=
  match session s with
  | Some u => archives_of u s
  | None => []
  end.

(** The archive [closeMonth] and [getMonthStartingBalances] start from. *)
Definition previous_archive (month : string) (s : Store) : option MonthlyArchive.t :=
  find (closed_before month) (result getArchives s).

(** The amounts of an archive. *)
Definition archive_balances (a : MonthlyArchive.t) : string * Money * Money * Money * Money :=
  (MonthlyArchive.month a, MonthlyArchive.startingFrontSafe a,
   MonthlyArchive.startingBackSafe a, MonthlyArchive.endingFrontSafe a,
   MonthlyArchive.endingBackSafe a).

(** An archive whose amounts the columns of [monthly_archives] store as
    they are. *)
Definition archive_amounts_fit (a : MonthlyArchive.t) : Prop :=
  DECIMAL_10_2 (MonthlyArchive.startingFrontSafe a)
  /\ DECIMAL_10_2 (MonthlyArchive.startingBackSafe a)
  /\ DECIMAL_10_2 (MonthlyArchive.endingFrontSafe a)
  /\ DECIMAL_10_2 (MonthlyArchive.endingBackSafe a).

(** What the ledger view shows of a transaction. *)
Definition ledger_line (t : BackSafeTransaction.t)
    : UUID * TransactionType.t * Money * option UUID * option UUID :=
  (BackSafeTransaction.id t, BackSafeTransaction.type t, BackSafeTransaction.amount t,
   BackSafeTransaction.fromEntryId t, BackSafeTransaction.withdrawalId t).

Definition backSafe_now (s : Store) : Money :=
  SafeBalances.backSafe (result (getBalances Sample.t0) s).

(* ================================================================= *)
(** ** [src/lib/cash-store.ts]: the list of months *)

(** [s.slice(0, 7)] *)
Definition slice_0_7 (s : string) : string := String.substring 0 7 s.

(** [now] is [new Date().toISOString()]. *)
Definition getCurrentMonth (now : string) : string := slice_0_7 now.

(** [months.add(m)] on a [Set<string>] kept in insertion order. *)
Definition Set_add (months : list string) (m : string) : list string :=
  if Db.mem m months then months else months ++ [m].

Definition getAvailableMonths (now : string) : Async (list string) :=
  await entries <- getEntries ;;
  await archives <- getArchives ;;
  let months := Set_add [] (getCurrentMonth now) in
  let months := fold_left (fun ms e => Set_add ms (slice_0_7 (DailyEntry.date e))) entries months in
  let months := fold_left (fun ms a => Set_add ms (MonthlyArchive.month a)) archives months in
  ret (order_desc (fun m => m) months).

(* ================================================================= *)
(** ** [src/components/back-safe-withdrawal.tsx]: the ledger view *)

Module LedgerView.







End LedgerView.

(* ================================================================= *)
(** ** The reconciliation history of [src/components/back-safe-withdrawal.tsx] *)

Module ReconciliationHistory.

(** [entry.isBalanced || entry.manuallyApproved] *)
Definition isEntryOk (entry : DailyEntry.t) : bool :=
  DailyEntry.isBalanced entry || DailyEntry.manuallyApproved entry.

(** The badge of the status column. *)
Inductive Badge := OK | Approved | Off.

Definition badge (entry : DailyEntry.t) : Badge :=
  if DailyEntry.isBalanced entry then OK
  else if DailyEntry.manuallyApproved entry then Approved
  else Off.

(** The approve button: [!entry.isBalanced && !entry.manuallyApproved]. *)
Definition canApprove (entry : DailyEntry.t) : bool :=
  negb (DailyEntry.isBalanced entry) && negb (DailyEntry.manuallyApproved entry).

(** [confirmed] is the answer to [confirm(...)]; the handler returns the
    entries it reloads. *)
Definition handleDelete (confirmed : bool) (id : UUID) : Async (option (list DailyEntry.t)) :=
  if confirmed then
    run deleteEntry id ;;
    await updated <- getEntries ;;
    ret (Some updated)
  else ret None.

End ReconciliationHistory.

(* ================================================================= *)
(** ** More vocabulary *)

Definition account_withdrawals (s : Store) : list WithdrawalRow.row :=
  match session s with
  | Some u => filter (fun r => String.eqb (WithdrawalRow.user_id r) u) (back_safe_withdrawals s)
  | None => []
  end.

(** The same database seen by the client of another signed-in user. *)
Definition as_user (u : UUID) (s : Store) : Store :=
  {| session := Some u; clock := clock s; daily_entries := daily_entries s;
     back_safe_withdrawals := back_safe_withdrawals s;
     back_safe_transactions := back_safe_transactions s;
     monthly_archives := monthly_archives s |}.

(** What an account reads: its entries, withdrawals, archives and balances. *)
Definition reads (now : string) (s : Store)
    : list DailyEntry.t * list BackSafeWithdrawal.t * list MonthlyArchive.t * SafeBalances.t :=
  (result getEntries s, result getWithdrawals s, result getArchives s,
   result (getBalances now) s).

(** A withdrawal as [updateWithdrawal(id, amount, reason)] leaves it. *)
Definition edited (id : UUID) (amount : Money) (reason : string) (w : BackSafeWithdrawal.t)
    : BackSafeWithdrawal.t :=
  if String.eqb (BackSafeWithdrawal.id w) id then
    {| BackSafeWithdrawal.id := BackSafeWithdrawal.id w;
       BackSafeWithdrawal.date := BackSafeWithdrawal.date w;
       BackSafeWithdrawal.amount := amount;
       BackSafeWithdrawal.reason := reason;
       BackSafeWithdrawal.createdAt := BackSafeWithdrawal.createdAt w |}
  else w.

(** The value of a decimal digit and of a string of decimal digits. *)
Definition digit (c : ascii) : option nat :=
  let n := nat_of_ascii c in
  if ((48 <=? n) && (n <=? 57))%nat then Some (n - 48)%nat else None.

Definition decimal_value (digits : list ascii) : option nat :=
  fold_left (fun n c =>
               match n, digit c with
               | Some n, Some d => Some (10 * n + d)%nat
               | _, _ => None
               end) digits (Some 0%nat).

Definition leap_year (year : nat) : bool :=
  ((year mod 4 =? 0) && negb (year mod 100 =? 0) || (year mod 400 =? 0))%nat.

Definition days_in_month (year month : nat) : nat :=
  match month with
  | 2 => if leap_year year then 29 else 28
  | 4 | 6 | 9 | 11 => 30
  | _ => 31
  end%nat.

(** The dates of a [DATE] column as the client reads them: a day of the
    calendar written ["YYYY-MM-DD"].  Such a string sent to the column is
    stored as it is. *)
Definition DATE (date : string) : bool :=
  match list_ascii_of_string date with
  | [y1; y2; y3; y4; dash; m1; m2; dash'; d1; d2] =>
      Ascii.eqb dash "-" && Ascii.eqb dash' "-"
      && match decimal_value [y1; y2; y3; y4], decimal_value [m1; m2],
               decimal_value [d1; d2] with
         | Some year, Some month, Some day =>
             ((1 <=? year) && (1 <=? month) && (month <=? 12)
              && (1 <=? day) && (day <=? days_in_month year month))%nat
         | _, _, _ => false
         end
  | _ => false
  end.

(** An entry whose date and amounts the columns of [daily_entries] store
    as they are. *)
Definition storable (entry : DailyEntry.t) : Prop :=
  DATE (DailyEntry.date entry) = true
  /\ DECIMAL_10_2 (DailyEntry.cashIn entry)
  /\ DECIMAL_10_2 (DailyEntry.deposited entry)
  /\ DECIMAL_10_2 (DailyEntry.toBackSafe entry)
  /\ DECIMAL_10_2 (DailyEntry.leftInFront entry)
  /\ DECIMAL_10_2 (DailyEntry.expectedFrontSafe entry)
  /\ DECIMAL_10_2 (DailyEntry.difference entry).

(** An entry as [getEntries] returns it after [saveEntry(entry)] at [now]
    created its row, at the time [created] of the database. *)
Definition saved (entry : DailyEntry.t) (now created : string) : DailyEntry.t :=
  {| DailyEntry.id := DailyEntry.id entry;
     DailyEntry.date := DailyEntry.date entry;
     DailyEntry.cashIn := DailyEntry.cashIn entry;
     DailyEntry.deposited := DailyEntry.deposited entry;
     DailyEntry.toBackSafe := DailyEntry.toBackSafe entry;
     DailyEntry.leftInFront := DailyEntry.leftInFront entry;
     DailyEntry.expectedFrontSafe := or_0 (DailyEntry.expectedFrontSafe entry);
     DailyEntry.difference := DailyEntry.difference entry;
     DailyEntry.isBalanced := less (Math_abs (DailyEntry.difference entry)) tolerance;
     DailyEntry.notes := DailyEntry.notes entry;
     DailyEntry.manuallyApproved := DailyEntry.manuallyApproved entry;
     DailyEntry.approvalNote := DailyEntry.approvalNote entry;
     DailyEntry.approvedAt := DailyEntry.approvedAt entry;
     DailyEntry.createdAt := created;
     DailyEntry.updatedAt := now |}.

(** What an entry records of the day: everything but the approval and the
    timestamps. *)
Definition figures (e : DailyEntry.t)
    : UUID * string * Money * Money * Money * Money * Money * Money * bool * option string :=
  (DailyEntry.id e, DailyEntry.date e, DailyEntry.cashIn e, DailyEntry.deposited e,
   DailyEntry.toBackSafe e, DailyEntry.leftInFront e, DailyEntry.expectedFrontSafe e,
   DailyEntry.difference e, DailyEntry.isBalanced e, DailyEntry.notes e).

(** What a withdrawal and a transaction record, timestamps apart. *)
Definition withdrawal_figures (r : WithdrawalRow.row) : UUID * UUID * string * Money * string :=
  (WithdrawalRow.id r, WithdrawalRow.user_id r, WithdrawalRow.date r, WithdrawalRow.amount r,
   WithdrawalRow.reason r).

Definition transaction_figures (r : TransactionRow.row)
    : UUID * UUID * string * TransactionType.t * Money * option string
      * option UUID * option UUID :=
  (TransactionRow.id r, TransactionRow.user_id r, TransactionRow.date r,
   TransactionRow.type r, TransactionRow.amount r, TransactionRow.reason r,
   TransactionRow.entry_id r, TransactionRow.withdrawal_id r).

(** The account and the amounts of an archive row. *)
Definition archive_row_balances (r : ArchiveRow.row)
    : UUID * string * Money * Money * Money * Money * bool :=
  (ArchiveRow.user_id r, ArchiveRow.month r, ArchiveRow.starting_front_safe r,
   ArchiveRow.starting_back_safe r, ArchiveRow.ending_front_safe r,
   ArchiveRow.ending_back_safe r, ArchiveRow.is_closed r).

(** The approval columns of an entry. *)
Definition approval (e : DailyEntry.t) : bool * option string * option string :=
  (DailyEntry.manuallyApproved e, DailyEntry.approvalNote e, DailyEntry.approvedAt e).

(** An entry with the approval columns and [updatedAt] set. *)
Definition with_approval (approved : bool) (note at_ : option string) (now : string)
    (e : DailyEntry.t) : DailyEntry.t :=
  {| DailyEntry.id := DailyEntry.id e;
     DailyEntry.date := DailyEntry.date e;
     DailyEntry.cashIn := DailyEntry.cashIn e;
     DailyEntry.deposited := DailyEntry.deposited e;
     DailyEntry.toBackSafe := DailyEntry.toBackSafe e;
     DailyEntry.leftInFront := DailyEntry.leftInFront e;
     DailyEntry.expectedFrontSafe := DailyEntry.expectedFrontSafe e;
     DailyEntry.difference := DailyEntry.difference e;
     DailyEntry.isBalanced := DailyEntry.isBalanced e;
     DailyEntry.notes := DailyEntry.notes e;
     DailyEntry.manuallyApproved := approved;
     DailyEntry.approvalNote := note;
     DailyEntry.approvedAt := at_;
     DailyEntry.createdAt := DailyEntry.createdAt e;
     DailyEntry.updatedAt := now |}.

(** The same, for the entries of one identifier only. *)
Definition approval_set (id : UUID) (approved : bool) (note at_ : option string)
    (now : string) (e : DailyEntry.t) : DailyEntry.t :=
  if String.eqb (DailyEntry.id e) id then with_approval approved note at_ now e else e.

(** The row [saveEntry(entry)] inserts for the account [u] at [now], at the
    time [created] of the database. *)
Definition row_of_entry (u : UUID) (entry : DailyEntry.t) (now created : string)
    : DailyEntryRow.row :=
  {| DailyEntryRow.id := DailyEntry.id entry;
     DailyEntryRow.user_id := u;
     DailyEntryRow.date := DailyEntry.date entry;
     DailyEntryRow.cash_in := DailyEntry.cashIn entry;
     DailyEntryRow.deposited := DailyEntry.deposited entry;
     DailyEntryRow.to_back_safe := DailyEntry.toBackSafe entry;
     DailyEntryRow.actual_left_in_front := DailyEntry.leftInFront entry;
     DailyEntryRow.left_in_front := DailyEntry.expectedFrontSafe entry;
     DailyEntryRow.difference := DailyEntry.difference entry;
     DailyEntryRow.discrepancy_reason := DailyEntry.notes entry;
     DailyEntryRow.manually_approved := DailyEntry.manuallyApproved entry || false;
     DailyEntryRow.approval_note := DailyEntry.approvalNote entry;
     DailyEntryRow.approved_at := DailyEntry.approvedAt entry;
     DailyEntryRow.created_at := created;
     DailyEntryRow.updated_at := now |}.

(** The ledger row [saveWithdrawal(withdrawal)] adds for the account [u],
    at the time [created] of the database. *)
Definition withdrawal_transaction (u : UUID) (w : BackSafeWithdrawal.t) (txId created : string)
    : TransactionRow.row :=
  {| TransactionRow.id := txId;
     TransactionRow.user_id := u;
     TransactionRow.date := BackSafeWithdrawal.date w;
     TransactionRow.type := TransactionType.withdrawal;
     TransactionRow.amount := BackSafeWithdrawal.amount w;
     TransactionRow.reason := Some (BackSafeWithdrawal.reason w);
     TransactionRow.entry_id := None;
     TransactionRow.withdrawal_id := Some (BackSafeWithdrawal.id w);
     TransactionRow.created_at := created |}.

(** The same database at another time. *)
Definition at_time (time : string) (s : Store) : Store :=
  {| session := session s; clock := time; daily_entries := daily_entries s;
     back_safe_withdrawals := back_safe_withdrawals s;
     back_safe_transactions := back_safe_transactions s;
     monthly_archives := monthly_archives s |}.

(** Nobody is signed in. *)
Definition signed_out (s : Store) : Store :=
  {| session := None; clock := clock s; daily_entries := daily_entries s;
     back_safe_withdrawals := back_safe_withdrawals s;
     back_safe_transactions := back_safe_transactions s;
     monthly_archives := monthly_archives s |}.

(** The archive [closeMonth(month)] builds at [now] from what it reads. *)
Definition closing_archive (month now : string) (s : Store) : MonthlyArchive.t :=
  {| MonthlyArchive.month := month;
     MonthlyArchive.startingFrontSafe :=
       match previous_archive month s with
       | Some p => MonthlyArchive.endingFrontSafe p
       | None => 0
       end;
     MonthlyArchive.startingBackSafe :=
       match previous_archive month s with
       | Some p => MonthlyArchive.endingBackSafe p
       | None => 0
       end;
     MonthlyArchive.endingFrontSafe := SafeBalances.frontSafe (result (getBalances now) s);
     MonthlyArchive.endingBackSafe := SafeBalances.backSafe (result (getBalances now) s);
     MonthlyArchive.entries := result (getEntriesForMonth month) s;
     MonthlyArchive.withdrawals := result (getWithdrawalsForMonth month) s;
     MonthlyArchive.isClosed := true;
     MonthlyArchive.closedAt := Some now |}.

(** The row [saveArchive(archive)] inserts for the account [u] at [now], at
    the time [created] of the database. *)
Definition row_of_archive (u : UUID) (archive : MonthlyArchive.t)
    (generatedId now created : string) : ArchiveRow.row :=
  {| ArchiveRow.id := generatedId;
     ArchiveRow.user_id := u;
     ArchiveRow.month := MonthlyArchive.month archive;
     ArchiveRow.starting_front_safe := MonthlyArchive.startingFrontSafe archive;
     ArchiveRow.starting_back_safe := MonthlyArchive.startingBackSafe archive;
     ArchiveRow.ending_front_safe := MonthlyArchive.endingFrontSafe archive;
     ArchiveRow.ending_back_safe := MonthlyArchive.endingBackSafe archive;
     ArchiveRow.is_closed := MonthlyArchive.isClosed archive;
     ArchiveRow.closed_at := MonthlyArchive.closedAt archive;
     ArchiveRow.created_at := created;
     ArchiveRow.updated_at := now |}.

(** The writes the store offers to the components. *)
Inductive Write :=
| SaveEntry (entry : DailyEntry.t) (now : string)
| DeleteEntry (id : UUID)
| ApproveEntry (id : UUID) (approvalNote now : string)
| RemoveApproval (id : UUID) (now : string)
| SaveWithdrawal (withdrawal : BackSafeWithdrawal.t) (randomUUID now : string)
| DeleteWithdrawal (id : UUID)
| UpdateWithdrawal (id : UUID) (amount : Money) (reason now : string)
| SaveBackSafeTransaction (transaction : BackSafeTransaction.t)
| SaveArchive (archive : MonthlyArchive.t) (generatedId now : string)
| CloseMonth (month generatedId now : string).

Definition perform (w : Write) : Async unit :=
  match w with
  | SaveEntry entry now => saveEntry entry now
  | DeleteEntry id => deleteEntry id
  | ApproveEntry id approvalNote now => approveEntry id approvalNote now
  | RemoveApproval id now => removeApproval id now
  | SaveWithdrawal withdrawal randomUUID now => saveWithdrawal withdrawal randomUUID now
  | DeleteWithdrawal id => deleteWithdrawal id
  | UpdateWithdrawal id amount reason now => updateWithdrawal id amount reason now
  | SaveBackSafeTransaction transaction => saveBackSafeTransaction transaction
  | SaveArchive archive generatedId now => saveArchive archive generatedId now
  | CloseMonth month generatedId now => run closeMonth month generatedId now ;; ret tt
  end.

(** What a ledger row records of a movement: everything but its links. *)
Definition movement (r : TransactionRow.row)
    : UUID * UUID * string * TransactionType.t * Money * option string * string :=
  (TransactionRow.id r, TransactionRow.user_id r, TransactionRow.date r,
   TransactionRow.type r, TransactionRow.amount r, TransactionRow.reason r,
   TransactionRow.created_at r).

(** The movements of an account in the order [getBalances] folds them: by
    decreasing date. *)
Definition movement_date
    (m : UUID * UUID * string * TransactionType.t * Money * option string * string) : string :=
  let '(_, _, date, _, _, _, _) := m in date.

Definition add_movement (balance : Money)
    (m : UUID * UUID * string * TransactionType.t * Money * option string * string) : Money :=
  let '(_, _, _, type, amount, _, _) := m in
  match type with
  | TransactionType.deposit => balance + amount
  | TransactionType.withdrawal => balance - amount
  end.

(** The rows of the account [v] are the same in two databases, up to the
    links of its ledger rows. *)
Definition same_for (v : UUID) (s s' : Store) : Prop :=
  filter (fun r => String.eqb (DailyEntryRow.user_id r) v) (daily_entries s')
  = filter (fun r => String.eqb (DailyEntryRow.user_id r) v) (daily_entries s)
  /\ filter (fun r => String.eqb (WithdrawalRow.user_id r) v) (back_safe_withdrawals s')
     = filter (fun r => String.eqb (WithdrawalRow.user_id r) v) (back_safe_withdrawals s)
  /\ archives_of v s' = archives_of v s
  /\ map movement (ledger v s') = map movement (ledger v s).

(** The primary keys of the two tables that are written by upsert. *)
Definition keyed (s : Store) : Prop :=
  NoDup (map DailyEntryRow.id (daily_entries s))
  /\ NoDup (map WithdrawalRow.id (back_safe_withdrawals s)).

(** [UNIQUE(user_id, date)] of [daily_entries]. *)
Definition one_entry_per_day (rows : list DailyEntryRow.row) : Prop :=
  forall a b, In a rows -> In b rows ->
    DailyEntryRow.user_id a = DailyEntryRow.user_id b ->
    DailyEntryRow.date a = DailyEntryRow.date b ->
    DailyEntryRow.id a = DailyEntryRow.id b.

(** [UNIQUE(user_id, month)] of [monthly_archives]. *)
Definition one_archive_per_month (rows : list ArchiveRow.row) : Prop :=
  forall a b, In a rows -> In b rows ->
    ArchiveRow.user_id a = ArchiveRow.user_id b ->
    ArchiveRow.month a = ArchiveRow.month b ->
    ArchiveRow.id a = ArchiveRow.id b.

(** The two foreign keys of [back_safe_transactions]. *)
Definition entry_links (ids : list UUID) (ledger_rows : list TransactionRow.row) : Prop :=
  forall t i, In t ledger_rows -> TransactionRow.entry_id t = Some i -> In i ids.

Definition withdrawal_links (ids : list UUID) (ledger_rows : list TransactionRow.row) : Prop :=
  forall t i, In t ledger_rows -> TransactionRow.withdrawal_id t = Some i -> In i ids.

(** The constraints of the schema: primary keys, unique keys and foreign
    keys. *)
Record constraints (s : Store) : Prop := {
  pk_daily_entries : NoDup (map DailyEntryRow.id (daily_entries s));
  pk_back_safe_withdrawals : NoDup (map WithdrawalRow.id (back_safe_withdrawals s));
  pk_back_safe_transactions : NoDup (map TransactionRow.id (back_safe_transactions s));
  pk_monthly_archives : NoDup (map ArchiveRow.id (monthly_archives s));
  unique_user_date : one_entry_per_day (daily_entries s);
  unique_user_month : one_archive_per_month (monthly_archives s);
  fk_entry_id : entry_links (map DailyEntryRow.id (daily_entries s)) (back_safe_transactions s);
  fk_withdrawal_id :
    withdrawal_links (map WithdrawalRow.id (back_safe_withdrawals s)) (back_safe_transactions s)
}.

(** The databases the store can be in: empty tables at the start, then
    any sign-in or sign-out and any write. *)
Inductive reachable : Store -> Prop :=
| reachable_empty (user : option UUID) (time : string) :
    reachable {| session := user; clock := time;
                 daily_entries := []; back_safe_withdrawals := [];
                 back_safe_transactions := []; monthly_archives := [] |}
| reachable_sign_in (s : Store) (u : UUID) : reachable s -> reachable (as_user u s)
| reachable_sign_out (s : Store) : reachable s -> reachable (signed_out s)
| reachable_later (s : Store) (time : string) : reachable s -> reachable (at_time time s)
| reachable_write (s : Store) (w : Write) : reachable s -> reachable (after (perform w) s).

(** Two accounts in one database: the account of [Sample] with its
    withdrawal, and a second account with one entry and one transfer. *)
Module TwoAccounts.

Definition other_user : UUID := "91aa-user-b".

Definition store : Store :=
  as_user Sample.user
    (after (run saveEntry (Sample.entry "e-b-0302" "2024-03-02" 0 900 200 70 630)
                          Sample.t0 ;;
            saveBackSafeTransaction (Sample.transfer "t-b-0302" "2024-03-02" 70 (Some "e-b-0302")))
           (as_user other_user Sample.after_withdrawal_100)).

End TwoAccounts.


(* ================================================================= *)
(** * Properties *)

(* ================================================================= *)
(** ** The order of strings *)

Section StringOrder.

Lemma compare_as_OT (a b : string) : String.compare a b = String_as_OT.compare a b.
Proof. revert b; induction a as [|c a IH]; intros [|d b]; reflexivity. Qed.

Lemma leb_ltb (a b : string) : String.leb a b = negb (String.ltb b a).
Proof.
  unfold String.leb, String.ltb.
  rewrite (String.compare_antisym b a).
  destruct (String.compare a b); reflexivity.
Qed.

Lemma ltb_lt (a b : string) : String.ltb a b = true <-> String_as_OT.lt a b.
Proof.
  unfold String.ltb, String_as_OT.lt. rewrite compare_as_OT.
  destruct (String_as_OT.compare a b); split; congruence.
Qed.

Lemma leb_le (a b : string) : String.leb a b = true <-> a = b \/ String_as_OT.lt a b.
Proof.
  unfold String.leb. rewrite compare_as_OT.
  destruct (String_as_OT.compare_spec a b) as [E | L | G]; split; intro H; auto; try discriminate.
  exfalso. destruct H as [H | H].
  - subst b. exact (StrictOrder_Irreflexive _ G).
  - exact (StrictOrder_Irreflexive _ (StrictOrder_Transitive _ _ _ H G)).
Qed.

Lemma leb_refl (a : string) : String.leb a a = true.
Proof. apply leb_le; now left. Qed.

Lemma leb_trans (a b c : string) :
  String.leb a b = true -> String.leb b c = true -> String.leb a c = true.
Proof.
  rewrite !leb_le. intros [-> | Hab] [-> | Hbc]; auto.
  right. exact (StrictOrder_Transitive _ _ _ Hab Hbc).
Qed.

Lemma ltb_leb (a b : string) : String.ltb a b = true -> String.leb a b = true.
Proof. rewrite ltb_lt, leb_le; auto. Qed.

Lemma ltb_false_leb (a b : string) : String.ltb a b = false <-> String.leb b a = true.
Proof. rewrite leb_ltb. destruct (String.ltb a b); simpl; split; congruence. Qed.

End StringOrder.

(* ================================================================= *)
(** ** Rows by decreasing key *)

Section OrderingFacts.
Context {A : Type} (key : A -> string).

Lemma place_Permutation (x : A) (l : list A) : Permutation (place key x l) (x :: l).
Proof.
  induction l as [|y l IH]; simpl; [reflexivity|].
  destruct (String.ltb (key x) (key y)); [|reflexivity].
  rewrite IH. apply perm_swap.
Qed.

Lemma order_desc_Permutation (l : list A) : Permutation (order_desc key l) l.
Proof.
  induction l as [|x l IH]; simpl; [constructor|].
  rewrite place_Permutation. now constructor.
Qed.

Lemma order_desc_In (l : list A) (x : A) : In x (order_desc key l) <-> In x l.
Proof.
  split; apply Permutation_in;
    [apply order_desc_Permutation | symmetry; apply order_desc_Permutation].
Qed.

Lemma place_sorted (x : A) (l : list A) :
  StronglySorted (not_smaller key) l -> StronglySorted (not_smaller key) (place key x l).
Proof.
  induction 1 as [|y l Hl IH Hy]; simpl.
  - repeat constructor.
  - destruct (String.ltb (key x) (key y)) eqn:E.
    + constructor; [exact IH|].
      rewrite (Forall_forall ((not_smaller key) y)). intros z Hz.
      apply (Permutation_in _ (place_Permutation x l)) in Hz.
      destruct Hz as [<- | Hz].
      * now apply ltb_leb.
      * rewrite Forall_forall in Hy. now apply Hy.
    + apply ltb_false_leb in E.
      constructor; [now constructor|].
      constructor; [exact E|].
      revert Hy. apply Forall_impl. intros z Hz.
      unfold not_smaller in *. now apply leb_trans with (key y).
Qed.

Lemma order_desc_sorted (l : list A) : StronglySorted (not_smaller key) (order_desc key l).
Proof.
  induction l as [|x l IH]; simpl; [constructor | now apply place_sorted].
Qed.

Lemma place_front (x : A) (l : list A) :
  Forall ((not_smaller key) x) l -> place key x l = x :: l.
Proof.
  destruct 1 as [|y l Hy _]; simpl; [reflexivity|].
  apply ltb_false_leb in Hy. now rewrite Hy.
Qed.

Lemma order_desc_of_sorted (l : list A) :
  StronglySorted (not_smaller key) l -> order_desc key l = l.
Proof.
  induction 1 as [|x l Hl IH Hx]; simpl; [reflexivity|].
  rewrite IH. now apply place_front.
Qed.

Lemma filter_keeps_sorted (p : A -> bool) (l : list A) :
  StronglySorted (not_smaller key) l -> StronglySorted (not_smaller key) (filter p l).
Proof.
  induction 1 as [|x l Hl IH Hx]; simpl; [constructor|].
  destruct (p x); [|exact IH].
  constructor; [exact IH|].
  rewrite Forall_forall in *. intros z Hz.
  apply filter_In in Hz. now apply Hx.
Qed.

(** In a list by decreasing key, [find] returns a row of greatest key
    among those that satisfy the test. *)
Lemma find_greatest (p : A -> bool) (l : list A) (a : A) :
  StronglySorted (not_smaller key) l -> find p l = Some a ->
  forall q, In q l -> p q = true -> (not_smaller key) a q.
Proof.
  induction 1 as [|x l Hl IH Hx]; simpl; [discriminate|].
  destruct (p x) eqn:Px.
  - intros [= <-] q [<- | Hq] _.
    + apply leb_refl.
    + rewrite Forall_forall in Hx. now apply Hx.
  - intros Hf q [<- | Hq] Pq; [congruence | now apply IH].
Qed.

Lemma hd_filter_find (p : A -> bool) (l : list A) : hd_error (filter p l) = find p l.
Proof.
  induction l as [|x l IH]; simpl; [reflexivity|].
  now destruct (p x).
Qed.

End OrderingFacts.

Section OrderingMap.
Context {A B : Type} (keyA : A -> string) (keyB : B -> string) (f : A -> B).
Hypothesis key_f : forall x, keyB (f x) = keyA x.

Lemma place_map (x : A) (l : list A) :
  place keyB (f x) (map f l) = map f (place keyA x l).
Proof.
  induction l as [|y l IH]; simpl; [reflexivity|].
  rewrite !key_f. destruct (String.ltb (keyA x) (keyA y)); simpl; [now rewrite IH | reflexivity].
Qed.

Lemma order_desc_map (l : list A) :
  order_desc keyB (map f l) = map f (order_desc keyA l).
Proof.
  induction l as [|x l IH]; simpl; [reflexivity|].
  rewrite IH. apply place_map.
Qed.

Lemma map_keeps_sorted (l : list A) :
  StronglySorted (not_smaller keyA) l -> StronglySorted (not_smaller keyB) (map f l).
Proof.
  induction 1 as [|x l Hl IH Hx]; simpl; constructor; [exact IH|].
  rewrite Forall_forall in *. intros z Hz.
  apply in_map_iff in Hz. destruct Hz as [y [<- Hy]].
  unfold not_smaller. rewrite !key_f. now apply Hx.
Qed.

End OrderingMap.

Section ListFacts.
Context {A B : Type}.

Lemma find_map (p : B -> bool) (f : A -> B) (l : list A) :
  find p (map f l) = option_map f (find (fun x => p (f x)) l).
Proof.
  induction l as [|x l IH]; simpl; [reflexivity|].
  now destruct (p (f x)).
Qed.

Lemma filter_map_swap (p : B -> bool) (f : A -> B) (l : list A) :
  filter p (map f l) = map f (filter (fun x => p (f x)) l).
Proof.
  induction l as [|x l IH]; simpl; [reflexivity|].
  destruct (p (f x)); simpl; now rewrite IH.
Qed.

Lemma filter_all (p : A -> bool) (l : list A) :
  (forall x, In x l -> p x = true) -> filter p l = l.
Proof.
  induction l as [|x l IH]; simpl; intros H; [reflexivity|].
  rewrite (H x (or_introl eq_refl)), IH; auto.
Qed.

End ListFacts.

(* ================================================================= *)
(** ** What the queries return *)

Lemma allowed_own (u owner : UUID) :
  Db.allowed true u owner && String.eqb owner u = String.eqb owner u.
Proof. unfold Db.allowed. simpl. now destruct (String.eqb owner u). Qed.

Lemma getEntries_eq (s : Store) :
  getEntries s = (map entry_of_row (order_desc DailyEntryRow.date (account_entries s)), s).
Proof.
  unfold getEntries, account_entries, bind, getCurrentUser, Db.select_daily_entries, ret.
  cbv beta iota. destruct (session s) as [u|] eqn:E; [|reflexivity].
  cbv beta iota. rewrite E.
  simpl. do 3 f_equal. apply filter_ext. intros r. apply allowed_own.
Qed.

Lemma getBackSafeTransactions_eq (s : Store) :
  getBackSafeTransactions s =
  (map transaction_of_row (order_desc TransactionRow.date (account_ledger s)), s).
Proof.
  unfold getBackSafeTransactions, account_ledger, ledger, bind, getCurrentUser,
    Db.select_back_safe_transactions, ret.
  cbv beta iota. destruct (session s) as [u|] eqn:E; [|reflexivity].
  cbv beta iota. rewrite E.
  simpl. do 3 f_equal. apply filter_ext. intros r. apply allowed_own.
Qed.

Lemma getArchives_eq (s : Store) :
  getArchives s = (map archive_of_row (order_desc ArchiveRow.month (account_archives s)), s).
Proof.
  unfold getArchives, account_archives, archives_of, bind, getCurrentUser,
    Db.select_monthly_archives, ret.
  cbv beta iota. destruct (session s) as [u|] eqn:E; [|reflexivity].
  cbv beta iota. rewrite E.
  simpl. do 3 f_equal. apply filter_ext. intros r. apply allowed_own.
Qed.

Lemma getWithdrawals_reads (s : Store) : snd (getWithdrawals s) = s.
Proof.
  unfold getWithdrawals, bind, getCurrentUser, Db.select_back_safe_withdrawals, ret.
  cbv beta iota. destruct (session s) eqn:E; [|reflexivity].
  cbv beta iota. now rewrite E.
Qed.

Lemma getBalances_eq (now : string) (s : Store) :
  getBalances now s =
  ({| SafeBalances.frontSafe :=
        match result getEntries s with
        | e :: _ => DailyEntry.leftInFront e
        | [] => 0
        end;
      SafeBalances.backSafe := fold_left backSafe_step (result getBackSafeTransactions s) 0;
      SafeBalances.lastUpdated := now |}, s).
Proof.
  unfold result. rewrite getEntries_eq, getBackSafeTransactions_eq.
  unfold getBalances, bind at 1, getCurrentUser.
  unfold account_entries, account_ledger.
  destruct (session s) as [u|] eqn:E; [|reflexivity].
  unfold bind. rewrite getEntries_eq.
  pose proof (getWithdrawals_reads s) as W.
  destruct (getWithdrawals s) as [ws s1]. simpl in W. subst s1.
  rewrite getBackSafeTransactions_eq. unfold account_entries, account_ledger. rewrite E.
  simpl. unfold ret. do 2 f_equal.
  now destruct (map entry_of_row _).
Qed.

Lemma getPreviousDayBalance_eq (now : string) (s : Store) :
  getPreviousDayBalance now s =
  (match result getEntries s with
   | e :: _ => DailyEntry.leftInFront e
   | [] => 0
   end, s).
Proof.
  unfold getPreviousDayBalance, bind, result.
  destruct (getEntries s) as [es s1] eqn:E.
  pose proof (getEntries_eq s) as E'. rewrite E in E'. injection E' as Hes Hs. subst s1.
  simpl. destruct es as [|e es']; [|reflexivity].
  rewrite getBalances_eq. unfold result. rewrite E. reflexivity.
Qed.

(* ================================================================= *)
(** ** The fold of the ledger *)

Lemma fold_transactions (rows : list TransactionRow.row) (start : Money) :
  fold_left backSafe_step (map transaction_of_row rows) start = fold_left add_signed rows start.
Proof.
  revert start. induction rows as [|r rows IH]; intros start; simpl; [reflexivity|].
  rewrite IH. f_equal. unfold backSafe_step, add_signed. simpl.
  now destruct (TransactionRow.type r).
Qed.

Lemma fold_movements (rows : list TransactionRow.row) (start : Money) :
  fold_left add_signed rows start = fold_left add_movement (map movement rows) start.
Proof.
  revert start. induction rows as [|r rows IH]; intros start; simpl; [reflexivity|].
  now rewrite IH.
Qed.

Lemma backSafe_eq (now : string) (s : Store) :
  SafeBalances.backSafe (result (getBalances now) s)
  = signed_sum (order_desc TransactionRow.date (account_ledger s)).
Proof.
  unfold result at 1. rewrite getBalances_eq. simpl.
  unfold result. rewrite getBackSafeTransactions_eq. simpl.
  apply fold_transactions.
Qed.

(** The balance is determined by the movements of the account: the links
    of the ledger rows do not enter it. *)
Lemma backSafe_movements (now : string) (s : Store) :
  SafeBalances.backSafe (result (getBalances now) s)
  = fold_left add_movement (order_desc movement_date (map movement (account_ledger s))) 0.
Proof.
  rewrite backSafe_eq. unfold signed_sum. rewrite fold_movements. f_equal.
  symmetry. now apply order_desc_map.
Qed.

Lemma order_desc_head {A : Type} (key : A -> string) (l : list A) (x : A) (rest : list A) :
  order_desc key l = x :: rest ->
  In x l /\ forall y, In y l -> String.leb (key y) (key x) = true.
Proof.
  intros H. split.
  - apply (order_desc_In key). rewrite H. now left.
  - intros y Hy. apply (order_desc_In key) in Hy.
    pose proof (order_desc_sorted key l) as S. rewrite H in S, Hy.
    apply StronglySorted_inv in S. destruct S as [_ F].
    destruct Hy as [<- | Hy]; [apply leb_refl|].
    rewrite Forall_forall in F. now apply F.
Qed.

(* ================================================================= *)
(** ** Front-safe balance and the previous balance of a submission *)

(** C10.  In every state of the store, signed in or not,
    [getPreviousDayBalance()] returns the [frontSafe] of [getBalances()]:
    the [leftInFront] of an entry of the account whose date no other entry
    of the account exceeds, or 0 when the account has no entry.  The
    function takes no date, so the date of the entry about to be submitted
    cannot change the result. *)
Theorem getPreviousDayBalance_eq_frontSafe (s : Store) (now : string) :
  result (getPreviousDayBalance now) s = SafeBalances.frontSafe (result (getBalances now) s)
  /\ match result getEntries s with
     | [] => account_entries s = [] /\ result (getPreviousDayBalance now) s = 0
     | e :: _ =>
         In e (map entry_of_row (account_entries s))
         /\ (forall r, In r (account_entries s) ->
                       String.leb (DailyEntryRow.date r) (DailyEntry.date e) = true)
         /\ result (getPreviousDayBalance now) s = DailyEntry.leftInFront e
     end.
Proof.
  unfold result at 1 2 4 5. rewrite getPreviousDayBalance_eq, getBalances_eq. simpl.
  split; [reflexivity|].
  unfold result. rewrite getEntries_eq. simpl.
  destruct (order_desc DailyEntryRow.date (account_entries s)) as [|r rs] eqn:E; simpl.
  - split; [|reflexivity].
    apply Permutation_nil. rewrite <- E. apply order_desc_Permutation.
  - apply order_desc_head in E. destruct E as [Hin Hmax].
    repeat split; [now apply in_map | exact Hmax].
Qed.

(** *** The most recent entry before a date *)

Lemma ltb_irrefl (a : string) : String.ltb a a = false.
Proof.
  destruct (String.ltb a a) eqn:E; [|reflexivity].
  apply ltb_lt in E. now destruct (StrictOrder_Irreflexive _ E).
Qed.

Lemma ltb_trans (a b c : string) :
  String.ltb a b = true -> String.ltb b c = true -> String.ltb a c = true.
Proof. rewrite !ltb_lt. apply StrictOrder_Transitive. Qed.

Lemma ltb_asym (a b : string) : String.ltb a b = true -> String.ltb b a = false.
Proof.
  intros H. destruct (String.ltb b a) eqn:E; [|reflexivity].
  pose proof (ltb_trans _ _ _ H E) as K. now rewrite ltb_irrefl in K.
Qed.

Lemma ltb_total (a b : string) :
  String.ltb a b = false -> String.ltb b a = false -> a = b.
Proof.
  intros H K. apply ltb_false_leb in H, K. now apply String.leb_antisym.
Qed.

(** [latest_before] returns nothing only when no entry of the list is
    dated before [date]. *)
Lemma latest_before_None (date : string) (entries : list DailyEntry.t) :
  latest_before date entries = None ->
  forall e, In e entries -> String.ltb (DailyEntry.date e) date = false.
Proof.
  induction entries as [|x entries IH]; simpl; [intros _ e []|].
  destruct (String.ltb (DailyEntry.date x) date) eqn:X.
  - destruct (latest_before date entries) as [w|];
      [destruct (String.ltb (DailyEntry.date x) (DailyEntry.date w))|]; discriminate.
  - intros L e [<- | He]; [exact X | now apply IH].
Qed.

(** What [latest_before] returns is an entry of the list dated before
    [date], and no entry of the list dated before [date] is later. *)
Lemma latest_before_Some (date : string) (entries : list DailyEntry.t) (e : DailyEntry.t) :
  latest_before date entries = Some e ->
  In e entries
  /\ String.ltb (DailyEntry.date e) date = true
  /\ forall e', In e' entries -> String.ltb (DailyEntry.date e') date = true ->
                String.leb (DailyEntry.date e') (DailyEntry.date e) = true.
Proof.
  revert e. induction entries as [|x entries IH]; intros e; simpl; [discriminate|].
  destruct (String.ltb (DailyEntry.date x) date) eqn:X.
  - destruct (latest_before date entries) as [e'|] eqn:L.
    + destruct (IH e' eq_refl) as [Hin [Hlt Hmax]].
      destruct (String.ltb (DailyEntry.date x) (DailyEntry.date e')) eqn:C; intros [= <-].
      * split; [now right|]. split; [exact Hlt|].
        intros y [<- | Hy] Ly; [now apply ltb_leb | now apply Hmax].
      * split; [now left|]. split; [exact X|].
        intros y [<- | Hy] Ly; [apply leb_refl|].
        apply leb_trans with (DailyEntry.date e'); [now apply Hmax | now apply ltb_false_leb].
    + intros [= <-]. split; [now left|]. split; [exact X|].
      intros y [<- | Hy] Ly; [apply leb_refl|].
      rewrite (latest_before_None date entries L y Hy) in Ly. discriminate.
  - intros L. destruct (IH e L) as [Hin [Hlt Hmax]].
    split; [now right|]. split; [exact Hlt|].
    intros y [<- | Hy] Ly; [congruence | now apply Hmax].
Qed.

(** On a list by decreasing date it is the first entry dated before
    [date]. *)
Lemma latest_before_sorted (date : string) (entries : list DailyEntry.t) :
  StronglySorted (not_smaller DailyEntry.date) entries ->
  latest_before date entries = find (fun e => String.ltb (DailyEntry.date e) date) entries.
Proof.
  induction 1 as [|x entries Hs IH Hx]; simpl; [reflexivity|].
  rewrite IH. destruct (String.ltb (DailyEntry.date x) date); [|reflexivity].
  destruct (find _ entries) as [e'|] eqn:F; [|reflexivity].
  apply find_some in F. destruct F as [Hin _].
  rewrite Forall_forall in Hx. specialize (Hx e' Hin). unfold not_smaller in Hx.
  apply ltb_false_leb in Hx. now rewrite Hx.
Qed.

(** Two entries of different dates may change places. *)
Lemma latest_before_swap (date : string) (x y : DailyEntry.t) (entries : list DailyEntry.t) :
  String.ltb (DailyEntry.date x) (DailyEntry.date y) = true ->
  latest_before date (x :: y :: entries) = latest_before date (y :: x :: entries).
Proof.
  intros XY. simpl.
  pose proof (ltb_asym _ _ XY) as YX.
  destruct (String.ltb (DailyEntry.date x) date) eqn:X,
           (String.ltb (DailyEntry.date y) date) eqn:Y; try reflexivity.
  destruct (latest_before date entries) as [e|]; [|now rewrite XY, YX].
  destruct (String.ltb (DailyEntry.date y) (DailyEntry.date e)) eqn:YE.
  - rewrite (ltb_trans _ _ _ XY YE). now rewrite YE.
  - rewrite XY.
    destruct (String.ltb (DailyEntry.date x) (DailyEntry.date e)) eqn:XE.
    + now rewrite YE.
    + now rewrite YX.
Qed.

Lemma latest_before_place (date : string) (x : DailyEntry.t) (entries : list DailyEntry.t) :
  latest_before date (place DailyEntry.date x entries) = latest_before date (x :: entries).
Proof.
  induction entries as [|y entries IH]; [reflexivity|].
  cbn [place]. destruct (String.ltb (DailyEntry.date x) (DailyEntry.date y)) eqn:XY;
    [|reflexivity].
  rewrite (latest_before_swap date x y entries XY).
  change (latest_before date (y :: place DailyEntry.date x entries))
    with (let among_rest := latest_before date (place DailyEntry.date x entries) in
          if String.ltb (DailyEntry.date y) date then
            match among_rest with
            | Some e' =>
                if String.ltb (DailyEntry.date y) (DailyEntry.date e') then Some e' else Some y
            | None => Some y
            end
          else among_rest).
  now rewrite IH.
Qed.

(** The order in which the entries are listed does not matter to
    [latest_before]: listing them by decreasing date, as [getEntries] does,
    gives the same entry. *)
Lemma latest_before_order_desc (date : string) (entries : list DailyEntry.t) :
  latest_before date (order_desc DailyEntry.date entries) = latest_before date entries.
Proof.
  induction entries as [|x entries IH]; [reflexivity|].
  cbn [order_desc fold_right]. fold (order_desc DailyEntry.date entries).
  rewrite latest_before_place. simpl. now rewrite IH.
Qed.

Lemma getEntries_sorted (s : Store) :
  StronglySorted (not_smaller DailyEntry.date) (result getEntries s).
Proof.
  unfold result. rewrite getEntries_eq. simpl.
  apply (map_keeps_sorted DailyEntryRow.date); [reflexivity | apply order_desc_sorted].
Qed.

Lemma getEntries_order_desc (s : Store) :
  result getEntries s = order_desc DailyEntry.date (map entry_of_row (account_entries s)).
Proof.
  unfold result. rewrite getEntries_eq. simpl. symmetry. now apply order_desc_map.
Qed.

(** C1, as the store computes it.  The previous balance of a submission is
    the [leftInFront] of the entry with the latest date in the store (an
    entry of the account whose date no other entry of the account exceeds),
    or 0 when the account has no entry, whatever the date of the new entry.
    It is the balance as of the most recent entry strictly before the new
    date whenever every existing entry is dated strictly before the new
    entry. *)
Theorem getPreviousDayBalance_latest_entry (s : Store) (now date : string) :
  match result getEntries s with
  | [] => account_entries s = [] /\ result (getPreviousDayBalance now) s = 0
  | e :: _ =>
      In e (map entry_of_row (account_entries s))
      /\ (forall r, In r (account_entries s) ->
                    String.leb (DailyEntryRow.date r) (DailyEntry.date e) = true)
      /\ result (getPreviousDayBalance now) s = DailyEntry.leftInFront e
  end
  /\ ((forall r, In r (account_entries s) ->
                 String.ltb (DailyEntryRow.date r) date = true) ->
      result (getPreviousDayBalance now) s
      = frontSafeBefore date (map entry_of_row (account_entries s))).
Proof.
  split.
  - unfold result at 2 3. rewrite getPreviousDayBalance_eq. simpl.
    unfold result. rewrite getEntries_eq. simpl.
    destruct (order_desc DailyEntryRow.date (account_entries s)) as [|r rs] eqn:E; simpl.
    + split; [|reflexivity].
      apply Permutation_nil. rewrite <- E. apply order_desc_Permutation.
    + apply order_desc_head in E. destruct E as [Hin Hmax].
      repeat split; [now apply in_map | exact Hmax].
  - intros later.
    unfold frontSafeBefore.
    rewrite <- latest_before_order_desc, <- getEntries_order_desc.
    rewrite latest_before_sorted by apply getEntries_sorted.
    unfold result at 1. rewrite getPreviousDayBalance_eq. simpl.
    pose proof (getEntries_order_desc s) as G.
    destruct (result getEntries s) as [|e es]; simpl; [reflexivity|].
    assert (In e (map entry_of_row (account_entries s))) as He.
    { apply (order_desc_In DailyEntry.date). rewrite <- G. now left. }
    apply in_map_iff in He. destruct He as [r [<- Hr]]. simpl.
    now rewrite (later r Hr).
Qed.

Lemma getPreviousDayBalance_latest_entry_witness :
  (forall r, In r (account_entries Sample.two_entries) ->
             String.ltb (DailyEntryRow.date r) "2024-03-11" = true)
  /\ result (getPreviousDayBalance Sample.t0) Sample.two_entries = 300
  /\ frontSafeBefore "2024-03-11" (map entry_of_row (account_entries Sample.two_entries)) = 300.
Proof.
  assert (H : forall r, In r (account_entries Sample.two_entries) ->
                        String.ltb (DailyEntryRow.date r) "2024-03-11" = true).
  { intros r [<- | [<- | []]]; reflexivity. }
  split; [exact H|].
  pose proof (proj2 (getPreviousDayBalance_latest_entry Sample.two_entries Sample.t0
                       "2024-03-11") H) as Hb.
  split; [reflexivity|].
  rewrite <- Hb. reflexivity.
Defined.

(** C1 as stated fails on a backdated entry: with entries of 1 March
    (100.00 left) and 10 March (300.00 left), a submission for 5 March has
    the chronological predecessor's 100.00 as previous balance in the
    specification, and the latest entry's 300.00 in the store. *)
Lemma getPreviousDayBalance_backdated_counterexample :
  result (getPreviousDayBalance Sample.t0) Sample.two_entries = 300
  /\ frontSafeBefore "2024-03-05" (result getEntries Sample.two_entries) = 100
  /\ result (getPreviousDayBalance Sample.t0) Sample.two_entries
     <> frontSafeBefore "2024-03-05" (result getEntries Sample.two_entries).
Proof.
  repeat split; try reflexivity.
  intros H. apply (f_equal (fun x => (x =? 300)%float)) in H. vm_compute in H. discriminate H.
Qed.

(* ================================================================= *)
(** ** The back-safe balance is a fold of the ledger *)

(** C2, as the store computes it.  For a signed-in account the [backSafe]
    of [getBalances()] is the result of one pass over all the ledger rows
    of the account, each row once, in the order of
    [getBackSafeTransactions()], the latest date first: starting from 0,
    the amount of a deposit is added and the amount of a withdrawal is
    subtracted, in the arithmetic of JavaScript numbers. *)
Theorem getBalances_backSafe_folds_ledger (s : Store) (now : string) (u : UUID) :
  session s = Some u ->
  exists folded,
    Permutation folded (ledger u s)
    /\ StronglySorted (not_smaller TransactionRow.date) folded
    /\ result getBackSafeTransactions s = map transaction_of_row folded
    /\ SafeBalances.backSafe (result (getBalances now) s) = signed_sum folded.
Proof.
  intros Hu. exists (order_desc TransactionRow.date (ledger u s)).
  split; [apply order_desc_Permutation|].
  split; [apply order_desc_sorted|].
  rewrite backSafe_eq. unfold result. rewrite getBackSafeTransactions_eq.
  unfold account_ledger. rewrite Hu. split; reflexivity.
Qed.

Lemma getBalances_backSafe_folds_ledger_witness :
  session Sample.after_withdrawal_100 = Some Sample.user
  /\ exists folded,
       Permutation folded (ledger Sample.user Sample.after_withdrawal_100)
       /\ map TransactionRow.id folded = ["t-w-1"; "t-0305"]
       /\ SafeBalances.backSafe (result (getBalances Sample.t0) Sample.after_withdrawal_100)
          = signed_sum folded
       /\ signed_sum folded = 100.
Proof.
  split; [reflexivity|].
  destruct (getBalances_backSafe_folds_ledger Sample.after_withdrawal_100 Sample.t0
              Sample.user eq_refl) as [folded [P [_ [G B]]]].
  exists folded. split; [exact P|].
  assert (I : map BackSafeTransaction.id (result getBackSafeTransactions
                                            Sample.after_withdrawal_100)
              = map TransactionRow.id folded) by (rewrite G, map_map; reflexivity).
  split; [rewrite <- I; reflexivity|].
  split; [exact B|].
  rewrite <- B. reflexivity.
Defined.

(** C2 as stated fails: the fold is not the same in every order, and it is
    not the signed sum.  With a withdrawal of 0.30 and deposits of 0.20 and
    0.10, whose signed sum is 0, [getBalances()] adds the latest first and
    returns 2^-54 (5.55e-17); the same rows taken the other way round give
    2^-55 (2.78e-17). *)
Lemma getBalances_backSafe_order_counterexample :
  let s := Sample.small_change in
  let rows := ledger Sample.user s in
  map (fun r => (TransactionRow.type r, TransactionRow.amount r)) rows
  = [(TransactionType.withdrawal, number_of_hundredths 30);
     (TransactionType.deposit, number_of_hundredths 20);
     (TransactionType.deposit, number_of_hundredths 10)]
  /\ (- 30 + 20 + 10 = 0)%Z
  /\ SafeBalances.backSafe (result (getBalances Sample.t0) s) = 0x1p-54
  /\ Permutation rows (ledger Sample.user s)
  /\ signed_sum rows = 0x1p-55
  /\ SafeBalances.backSafe (result (getBalances Sample.t0) s) <> signed_sum rows
  /\ SafeBalances.backSafe (result (getBalances Sample.t0) s) <> 0.
Proof.
  intros s rows.
  split; [reflexivity|]. split; [reflexivity|]. split; [reflexivity|].
  split; [reflexivity|]. split; [reflexivity|].
  split; intros H; apply (f_equal (fun x => (x =? 0x1p-54)%float)) in H;
    vm_compute in H; discriminate H.
Qed.

(* ================================================================= *)
(** ** The expected front-safe remainder *)

(** C3.  [calculateExpectedFrontSafe] returns [previousBalance + cashIn -
    deposited - toBackSafe] and touches nothing.  With 100.00, 500.00,
    400.00, 50.00 and 150.00 counted, the expected remainder is 150.00, the
    difference 0, and the entry saved with these values reads back as
    balanced. *)
Theorem calculateExpectedFrontSafe_formula (s : Store)
    (previousBalance cashIn deposited toBackSafe : Money) :
  calculateExpectedFrontSafe previousBalance cashIn deposited toBackSafe s
  = (previousBalance + cashIn - deposited - toBackSafe, s)
  /\ result (calculateExpectedFrontSafe 100 500 400 50) s = 150
  /\ difference_of 150 (result (calculateExpectedFrontSafe 100 500 400 50) s) = 0
  /\ map (fun e => (DailyEntry.expectedFrontSafe e, DailyEntry.difference e,
                    DailyEntry.isBalanced e))
         (result getEntries Sample.entry_with_transfer)
     = [(150, 0, true)].
Proof. repeat split. Qed.

(* ================================================================= *)
(** ** Approval does not touch the reconciliation *)

Lemma patched_entries_reconciliation (approved : bool) (note at_ : option string)
    (now : string) (g : DailyEntryRow.row -> DailyEntryRow.row) (s : Store) :
  (forall r, g r = r \/ g r = set_approval approved note at_ now r) ->
  map reconciliation (result getEntries (with_daily_entries s (map g (daily_entries s))))
  = map reconciliation (result getEntries s).
Proof.
  intros G. unfold result. rewrite !getEntries_eq. simpl.
  unfold account_entries. simpl.
  destruct (session s) as [uid|]; [|reflexivity].
  rewrite filter_map_swap.
  rewrite (filter_ext (fun r => String.eqb (DailyEntryRow.user_id (g r)) uid)
                      (fun r => String.eqb (DailyEntryRow.user_id r) uid));
    [|intros r; destruct (G r) as [-> | ->]; reflexivity].
  rewrite (order_desc_map DailyEntryRow.date DailyEntryRow.date g);
    [|intros r; destruct (G r) as [-> | ->]; reflexivity].
  rewrite !map_map. apply map_ext.
  intros r. destruct (G r) as [-> | ->]; reflexivity.
Qed.

Lemma approval_keeps_reconciliation (approved : bool) (note at_ : option string)
    (now id u : string) (s : Store) :
  map reconciliation
      (result getEntries (snd (Db.update_daily_entries (set_approval approved note at_ now) id u s)))
  = map reconciliation (result getEntries s).
Proof.
  unfold Db.update_daily_entries.
  destruct (session s) as [uid|]; [|reflexivity].
  simpl. apply patched_entries_reconciliation with approved note at_ now.
  intros r. destruct (_ && _); auto.
Qed.

(** C7.  Every entry that [getEntries] returns has [isBalanced] true
    exactly when [|difference| < 0.01]; approving an entry and removing an
    approval leave the identifier, the [difference] and the [isBalanced] of
    every entry as they were. *)
Theorem isBalanced_function_of_difference (s : Store) :
  (forall e, In e (result getEntries s) ->
     DailyEntry.isBalanced e = true
     <-> less (Math_abs (DailyEntry.difference e)) tolerance = true)
  /\ (forall id approvalNote now,
        map reconciliation (result getEntries (after (approveEntry id approvalNote now) s))
        = map reconciliation (result getEntries s))
  /\ (forall id now,
        map reconciliation (result getEntries (after (removeApproval id now) s))
        = map reconciliation (result getEntries s)).
Proof.
  split; [|split].
  - intros e He. unfold result in He. rewrite getEntries_eq in He. simpl in He.
    apply in_map_iff in He. destruct He as [r [<- _]]. simpl. reflexivity.
  - intros id approvalNote now.
    unfold after, approveEntry, bind, getCurrentUser, console_error, ret. cbv beta iota.
    destruct (session s) as [u|] eqn:E; [|reflexivity].
    pose proof (approval_keeps_reconciliation true (Some approvalNote) (Some now) now id u s) as K.
    destruct (Db.update_daily_entries _ id u s) as [err s']. exact K.
  - intros id now.
    unfold after, removeApproval, bind, getCurrentUser, console_error, ret. cbv beta iota.
    destruct (session s) as [u|] eqn:E; [|reflexivity].
    pose proof (approval_keeps_reconciliation false None None now id u s) as K.
    destruct (Db.update_daily_entries _ id u s) as [err s']. exact K.
Qed.

(* ================================================================= *)
(** ** Withdrawals *)

(** C6, as the form computes it.  A withdrawal of more than the back-safe
    balance the form holds is refused with the alert "Cannot withdraw more
    than the current back safe balance" before anything is saved: the store
    after the attempt is the store before it, with no withdrawal, no
    transaction and the same balance.  The balance the form holds is the one
    it loaded last. *)
Theorem handleSubmit_refuses_above_displayed_balance (s : Store)
    (currentBackSafe amountNum : Money) (reason id txId now : string) :
  greater amountNum currentBackSafe = true ->
  let attempt :=
    BackSafeWithdrawalSection.handleSubmit currentBackSafe amountNum reason id txId now in
  result attempt s
  = BackSafeWithdrawalSection.alert "Cannot withdraw more than the current back safe balance"
  /\ after attempt s = s
  /\ back_safe_withdrawals (after attempt s) = back_safe_withdrawals s
  /\ back_safe_transactions (after attempt s) = back_safe_transactions s
  /\ SafeBalances.backSafe (result (getBalances now) (after attempt s))
     = SafeBalances.backSafe (result (getBalances now) s).
Proof.
  intros Hgt attempt.
  assert (A : attempt s
              = (BackSafeWithdrawalSection.alert
                   "Cannot withdraw more than the current back safe balance", s)).
  { unfold attempt, BackSafeWithdrawalSection.handleSubmit. now rewrite Hgt. }
  unfold result at 1, after. rewrite A. simpl. repeat split.
Qed.

Lemma handleSubmit_refuses_above_displayed_balance_witness :
  let displayed :=
    result (BackSafeWithdrawalSection.loadCurrentBackSafe Sample.t0) Sample.back_safe_200 in
  displayed = 200
  /\ greater 250 displayed = true
  /\ BackSafeWithdrawalSection.handleSubmit displayed 250 "bank drop" "w-2" "t-w-2" Sample.t0
       Sample.back_safe_200
     = (BackSafeWithdrawalSection.alert
          "Cannot withdraw more than the current back safe balance", Sample.back_safe_200).
Proof.
  intros displayed.
  assert (H : greater 250 displayed = true) by reflexivity.
  split; [reflexivity|]. split; [exact H|].
  destruct (handleSubmit_refuses_above_displayed_balance Sample.back_safe_200 displayed 250
              "bank drop" "w-2" "t-w-2" Sample.t0 H) as [R [A _]].
  unfold result in R. unfold after in A.
  destruct (BackSafeWithdrawalSection.handleSubmit displayed 250 "bank drop" "w-2" "t-w-2"
              Sample.t0 Sample.back_safe_200) as [e s'].
  simpl in R, A. now rewrite R, A.
Defined.

(** C6 as stated fails: the refusal is the form's, against the balance it
    holds, and [saveWithdrawal] checks nothing.  A form that loaded 200.00
    before a withdrawal of 100.00 was recorded elsewhere still holds 200.00:
    the day after it accepts 150.00 against a balance of 100.00, the
    withdrawal and its transaction are saved, and the balance is -50.00.
    [saveWithdrawal] called with 250.00 on a balance of 200.00 saves as
    well. *)
Lemma handleSubmit_stale_balance_counterexample :
  let s := Sample.after_withdrawal_100 in
  let attempt :=
    BackSafeWithdrawalSection.handleSubmit 200 150 "second drop" "w-2" "t-w-2"
      "2024-03-13T08:15:00.000Z" in
  let overdraw :=
    {| BackSafeWithdrawal.id := "w-3"; BackSafeWithdrawal.date := "2024-03-12";
       BackSafeWithdrawal.amount := 250; BackSafeWithdrawal.reason := "bank drop";
       BackSafeWithdrawal.createdAt := Sample.t0 |} in
  backSafe_now s = 100
  /\ greater 150 (backSafe_now s) = true
  /\ result attempt s = BackSafeWithdrawalSection.onWithdrawal
  /\ map (fun w => (BackSafeWithdrawal.id w, BackSafeWithdrawal.amount w))
         (result getWithdrawals (after attempt s))
     = [("w-2", 150); ("w-1", 100)]
  /\ map ledger_line (result getBackSafeTransactions (after attempt s))
     = [("t-w-2", TransactionType.withdrawal, 150, None, Some "w-2");
        ("t-w-1", TransactionType.withdrawal, 100, None, Some "w-1");
        ("t-0305", TransactionType.deposit, 200, None, None)]
  /\ backSafe_now (after attempt s) = -50
  /\ backSafe_now Sample.back_safe_200 = 200
  /\ backSafe_now (after (saveWithdrawal overdraw "t-w-3" Sample.t0) Sample.back_safe_200) = -50.
Proof. repeat split. Qed.

(* ================================================================= *)
(** ** Month close *)

Lemma getArchives_sorted (s : Store) :
  StronglySorted (not_smaller MonthlyArchive.month) (result getArchives s).
Proof.
  unfold result. rewrite getArchives_eq. simpl.
  apply (map_keeps_sorted ArchiveRow.month); [reflexivity | apply order_desc_sorted].
Qed.

Lemma closeMonth_starting (s : Store) (month generatedId now : string)
    (archive : MonthlyArchive.t) :
  result (closeMonth month generatedId now) s = Some archive ->
  MonthlyArchive.startingFrontSafe archive
  = match previous_archive month s with
    | Some p => MonthlyArchive.endingFrontSafe p
    | None => 0
    end
  /\ MonthlyArchive.startingBackSafe archive
     = match previous_archive month s with
       | Some p => MonthlyArchive.endingBackSafe p
       | None => 0
       end.
Proof.
  unfold previous_archive, result, closeMonth, bind at 1, getCurrentUser.
  destruct (session s) as [u|] eqn:E; [|discriminate].
  unfold bind at 1. rewrite getBalances_eq.
  unfold bind at 1, getEntriesForMonth, bind at 1. rewrite getEntries_eq. unfold ret at 1.
  unfold bind at 1, getWithdrawalsForMonth, bind at 1.
  pose proof (getWithdrawals_reads s) as W.
  destruct (getWithdrawals s) as [ws s1]. simpl in W. subst s1. unfold ret at 1.
  unfold bind at 1.
  destruct (getArchives s) as [archives s1] eqn:A.
  pose proof (getArchives_eq s) as A'. rewrite A in A'. injection A' as _ Hs. subst s1.
  simpl fst.
  destruct (filter _ (map entry_of_row _)) as [|e es]; [discriminate|].
  unfold bind. destruct (saveArchive _ generatedId now s) as [[] s2].
  unfold ret. simpl. intros [= <-]. simpl. split; reflexivity.
Qed.

Lemma previous_archive_row (month : string) (s : Store) :
  match previous_archive month s with
  | Some p => exists r, p = archive_of_row r /\ latest_closed_before month (account_archives s) r
  | None => none_closed_before month (account_archives s)
  end.
Proof.
  unfold previous_archive.
  pose proof (getArchives_sorted s) as S.
  unfold result in *. rewrite getArchives_eq in *. simpl in *.
  destruct (find _ _) as [p|] eqn:F.
  - pose proof (find_greatest MonthlyArchive.month _ _ _ S F) as Hmax.
    apply find_some in F. destruct F as [Hin Hp].
    apply in_map_iff in Hin. destruct Hin as [r [<- Hr]].
    apply order_desc_In in Hr.
    unfold closed_before in Hp. simpl in Hp. apply andb_true_iff in Hp.
    exists r. split; [reflexivity|].
    repeat split; try tauto.
    intros q Hq Hc Hlt.
    apply (Hmax (archive_of_row q)).
    + apply in_map, order_desc_In, Hq.
    + unfold closed_before. simpl. now rewrite Hc, Hlt.
  - intros q Hq [Hc Hlt].
    assert (N : closed_before month (archive_of_row q) = false).
    { apply (find_none _ _ F). apply in_map, order_desc_In, Hq. }
    unfold closed_before in N. simpl in N. rewrite Hc, Hlt in N. discriminate.
Qed.

Lemma getMonthStartingBalances_eq (month : string) (s : Store) :
  result (getMonthStartingBalances month) s
  = match previous_archive month s with
    | Some p => (MonthlyArchive.endingFrontSafe p, MonthlyArchive.endingBackSafe p)
    | None => (0, 0)
    end.
Proof.
  unfold previous_archive.
  pose proof (getArchives_sorted s) as S.
  unfold result in *. unfold getMonthStartingBalances, bind.
  destruct (getArchives s) as [archives s1]. simpl in S |- *.
  rewrite order_desc_of_sorted by now apply filter_keeps_sorted.
  rewrite hd_filter_find.
  now destruct (find _ archives).
Qed.

(** What [closeMonth(M)] returns: an archive whose starting balances are
    the ending balances of a closed archive of the account whose month is
    below [M] in the order of strings and is the greatest such month, or
    both 0 when the account has no closed archive below [M];
    [getMonthStartingBalances(M)] returns the same pair. *)
Lemma closeMonth_returns_starting_balances (s : Store) (month generatedId now : string)
    (archive : MonthlyArchive.t) :
  result (closeMonth month generatedId now) s = Some archive ->
  ((exists p, latest_closed_before month (account_archives s) p
              /\ MonthlyArchive.startingFrontSafe archive = ArchiveRow.ending_front_safe p
              /\ MonthlyArchive.startingBackSafe archive = ArchiveRow.ending_back_safe p)
   \/ (none_closed_before month (account_archives s)
       /\ MonthlyArchive.startingFrontSafe archive = 0
       /\ MonthlyArchive.startingBackSafe archive = 0))
  /\ result (getMonthStartingBalances month) s
     = (MonthlyArchive.startingFrontSafe archive, MonthlyArchive.startingBackSafe archive).
Proof.
  intros H. apply closeMonth_starting in H. destruct H as [Hf Hb].
  rewrite getMonthStartingBalances_eq, Hf, Hb.
  pose proof (previous_archive_row month s) as P.
  destruct (previous_archive month s) as [p|].
  - destruct P as [r [-> L]]. split; [|reflexivity].
    left. exists r. repeat split; solve [apply L | reflexivity].
  - split; [|reflexivity]. right. repeat split. exact P.
Qed.


(* ================================================================= *)
(** ** Deleting and editing: what happens to the linked transaction *)

(** Clearing links leaves the movements of an account as they were. *)
Lemma relinked_movements (g : TransactionRow.row -> TransactionRow.row) (u : UUID)
    (rows : list TransactionRow.row) :
  (forall r, movement (g r) = movement r) ->
  map movement (filter (fun r => String.eqb (TransactionRow.user_id r) u) (map g rows))
  = map movement (filter (fun r => String.eqb (TransactionRow.user_id r) u) rows).
Proof.
  intros G. rewrite filter_map_swap, map_map.
  rewrite (filter_ext (fun r => String.eqb (TransactionRow.user_id (g r)) u)
                      (fun r => String.eqb (TransactionRow.user_id r) u)).
  - apply map_ext. exact G.
  - intros r. specialize (G r). unfold movement in G. now injection G as _ -> _ _ _ _ _.
Qed.

Lemma entry_id_set_null_keeps (gone : list UUID) (r : TransactionRow.row) :
  movement (Db.entry_id_set_null gone r) = movement r.
Proof. unfold Db.entry_id_set_null. now destruct (Db.refers _ gone). Qed.

Lemma withdrawal_id_set_null_keeps (gone : list UUID) (r : TransactionRow.row) :
  movement (Db.withdrawal_id_set_null gone r) = movement r.
Proof. unfold Db.withdrawal_id_set_null. now destruct (Db.refers _ gone). Qed.

(** [deleteEntry] never changes the back-safe balance: the deposit linked
    to the entry stays in the ledger with its link cleared. *)
Lemma deleteEntry_keeps_backSafe (s : Store) (id now : string) :
  SafeBalances.backSafe (result (getBalances now) (after (deleteEntry id) s))
  = SafeBalances.backSafe (result (getBalances now) s).
Proof.
  rewrite !backSafe_movements. do 2 f_equal.
  unfold after, deleteEntry, bind, getCurrentUser, Db.delete_daily_entries, console_error, ret.
  cbv beta iota. destruct (session s) as [u|] eqn:E; [|reflexivity].
  cbv beta iota. rewrite E. unfold account_ledger, ledger. simpl. rewrite ?E.
  apply relinked_movements. intros r. apply entry_id_set_null_keeps.
Qed.

(** [deleteWithdrawal] never changes the back-safe balance either: the
    foreign key has cleared the link when the second delete looks for it,
    and the ledger has no policy for deletes. *)
Lemma deleteWithdrawal_keeps_backSafe (s : Store) (id now : string) :
  SafeBalances.backSafe (result (getBalances now) (after (deleteWithdrawal id) s))
  = SafeBalances.backSafe (result (getBalances now) s).
Proof.
  rewrite !backSafe_movements. do 2 f_equal.
  unfold after, deleteWithdrawal, bind, getCurrentUser, Db.delete_back_safe_withdrawals,
    Db.delete_back_safe_transactions, console_error, ret.
  cbv beta iota. destruct (session s) as [u|] eqn:E; [|reflexivity].
  cbv beta iota. rewrite E. simpl. rewrite ?E.
  unfold account_ledger, ledger. simpl. rewrite ?E.
  rewrite (filter_all (fun _ => true)) by reflexivity.
  apply relinked_movements. intros r. apply withdrawal_id_set_null_keeps.
Qed.

(** [updateWithdrawal] writes to [back_safe_withdrawals] only. *)
Lemma updateWithdrawal_keeps_ledger (s : Store) (id : UUID) (amount : Money)
    (reason now : string) :
  back_safe_transactions (after (updateWithdrawal id amount reason now) s)
  = back_safe_transactions s.
Proof.
  unfold after, updateWithdrawal, bind, getCurrentUser, Db.update_back_safe_withdrawals,
    console_error, ret.
  cbv beta iota. destruct (session s) as [u|] eqn:E; [|reflexivity].
  cbv beta iota. now rewrite E.
Qed.

(** C4 at a store with one entry that moved 50.00 to the back safe.
    After [deleteEntry] the entry is gone, its deposit is still in the
    ledger with the link cleared, and the back-safe balance still counts
    the 50.00. *)
Theorem deleteEntry_leaves_linked_deposit :
  let s := Sample.entry_with_transfer in
  let s' := after (deleteEntry "e-0301") s in
  map ledger_line (result getBackSafeTransactions s)
  = [("t-0301", TransactionType.deposit, 50, Some "e-0301", None)]
  /\ backSafe_now s = 50
  /\ result getEntries s' = []
  /\ map ledger_line (result getBackSafeTransactions s')
     = [("t-0301", TransactionType.deposit, 50, None, None)]
  /\ backSafe_now s' = 50.
Proof. repeat split. Qed.

(** C5 at a store with a withdrawal of 100.00.  After the edit to 150.00
    the withdrawal record carries 150.00, its ledger transaction still
    carries 100.00, and the back-safe balance has not moved. *)
Theorem updateWithdrawal_leaves_linked_transaction :
  let s := Sample.after_withdrawal_100 in
  let s' :=
    after (BackSafeWithdrawalSection.handleEditSubmit
             (result (BackSafeWithdrawalSection.loadCurrentBackSafe Sample.t0) s) 100
             (hd_error (result getWithdrawals s)) 150 "bank drop" Sample.t0) s in
  map (fun w => (BackSafeWithdrawal.id w, BackSafeWithdrawal.amount w)) (result getWithdrawals s')
  = [("w-1", 150)]
  /\ map ledger_line (result getBackSafeTransactions s')
     = [("t-w-1", TransactionType.withdrawal, 100, None, Some "w-1");
        ("t-0305", TransactionType.deposit, 200, None, None)]
  /\ backSafe_now s = 100
  /\ backSafe_now s' = 100.
Proof. repeat split. Qed.

(** C9 at a back safe of 200.00: a withdrawal of 100.00 ("bank drop")
    brings the balance to 100.00; deleting the withdrawal removes the
    withdrawal record, but its ledger transaction stays, unlinked, and the
    balance stays at 100.00 instead of returning to 200.00. *)
Theorem deleteWithdrawal_does_not_restore_backSafe :
  let s0 := Sample.back_safe_200 in
  let s1 := Sample.after_withdrawal_100 in
  let s2 := after (BackSafeWithdrawalSection.handleDelete (Some "w-1")) s1 in
  backSafe_now s0 = 200
  /\ backSafe_now s1 = 100
  /\ result getWithdrawals s2 = []
  /\ map ledger_line (result getBackSafeTransactions s2)
     = [("t-w-1", TransactionType.withdrawal, 100, None, None);
        ("t-0305", TransactionType.deposit, 200, None, None)]
  /\ backSafe_now s2 = 100.
Proof. repeat split. Qed.

(* ================================================================= *)
(** * Further properties of the store *)

(** ** Stepping through a store function *)

Lemma snd_then_unit {A : Type} (p : A * Store) :
  snd (let (_, s') := p in (tt, s')) = snd p.
Proof. now destruct p. Qed.

(** Enters a function of the store whose signed-in user is known by [E],
    down to its query. *)
Ltac enter_api E :=
  unfold after, bind, getCurrentUser, console_error, ret;
  cbv beta iota; rewrite E; cbv beta iota; rewrite ?snd_then_unit.

(** The same when the function returns at once. *)
Ltac leave_api E :=
  unfold after, bind, getCurrentUser, console_error, ret;
  cbv beta iota; rewrite E; cbv beta iota.

(** Splits along every [match] and [if] of the goal. *)
Ltac split_cases :=
  repeat match goal with
         | |- context [match ?x with _ => _ end] => destruct x
         end.

(** ** Lists by decreasing key, continued *)

Section OrderingFilter.
Context {A : Type} (key : A -> string).

Lemma place_filter (p : A -> bool) (x : A) (l : list A) :
  StronglySorted (not_smaller key) l ->
  filter p (place key x l) = if p x then place key x (filter p l) else filter p l.
Proof.
  induction 1 as [|y l Hl IH Hy]; simpl.
  - now destruct (p x).
  - destruct (String.ltb (key x) (key y)) eqn:E; simpl.
    + rewrite IH. destruct (p y), (p x); simpl; now rewrite ?E.
    + destruct (p x) eqn:Px; [|reflexivity].
      destruct (p y); simpl; [now rewrite E|].
      symmetry. apply place_front.
      apply ltb_false_leb in E.
      rewrite Forall_forall in *. intros z Hz. apply filter_In in Hz.
      unfold not_smaller in *. apply leb_trans with (key y); [now apply Hy | exact E].
Qed.

Lemma order_desc_filter (p : A -> bool) (l : list A) :
  order_desc key (filter p l) = filter p (order_desc key l).
Proof.
  induction l as [|x l IH]; simpl; [reflexivity|].
  rewrite place_filter by apply order_desc_sorted.
  destruct (p x); simpl; now rewrite IH.
Qed.

(** A row of a key above all others goes first, wherever it was stored. *)
Lemma order_desc_newest (l : list A) (x : A) :
  (forall y, In y l -> String.ltb (key y) (key x) = true) ->
  order_desc key (l ++ [x]) = x :: order_desc key l.
Proof.
  induction l as [|y l IH]; intros H; simpl; [reflexivity|].
  rewrite IH by (intros z Hz; apply H; now right).
  simpl. now rewrite (H y (or_introl eq_refl)).
Qed.

Lemma hd_place (x : A) (l : list A) :
  hd_error (place key x l)
  = match hd_error l with
    | Some y => if String.ltb (key x) (key y) then Some y else Some x
    | None => Some x
    end.
Proof. destruct l as [|y l]; simpl; [reflexivity|]. now destruct (String.ltb _ _). Qed.

(** A row of a key below some other row never becomes the first. *)
Lemma order_desc_older (l : list A) (x : A) :
  (exists y, In y l /\ String.ltb (key x) (key y) = true) ->
  hd_error (order_desc key (l ++ [x])) = hd_error (order_desc key l).
Proof.
  induction l as [|y l IH]; intros [w [Hw Hlt]]; [destruct Hw|].
  simpl. rewrite !hd_place.
  destruct (existsb (fun z => String.ltb (key x) (key z)) l) eqn:Ex.
  - apply existsb_exists in Ex. now rewrite IH.
  - assert (Hy : String.ltb (key x) (key y) = true).
    { destruct Hw as [-> | Hw]; [exact Hlt|].
      assert (T : existsb (fun z => String.ltb (key x) (key z)) l = true)
        by (apply existsb_exists; eauto).
      congruence. }
    assert (Below : forall z, In z l -> String.leb (key z) (key x) = true).
    { intros z Hz. apply ltb_false_leb.
      destruct (String.ltb (key x) (key z)) eqn:Z; [|reflexivity].
      assert (T : existsb (fun z => String.ltb (key x) (key z)) l = true)
        by (apply existsb_exists; eauto).
      congruence. }
    assert (Top : forall (m : list A) h, hd_error (order_desc key m) = Some h ->
                    (forall z, In z m -> String.leb (key z) (key x) = true) ->
                    String.ltb (key y) (key h) = false).
    { intros m h Hh Hm. apply ltb_false_leb.
      destruct (order_desc key m) as [|h' t] eqn:Em; [discriminate|].
      injection Hh as ->.
      apply order_desc_head in Em. destruct Em as [Hin _].
      apply leb_trans with (key x); [now apply Hm | now apply ltb_leb]. }
    destruct (hd_error (order_desc key (l ++ [x]))) as [h|] eqn:H1.
    + rewrite (Top (l ++ [x])%list h H1).
      2:{ intros z Hz. apply in_app_or in Hz. destruct Hz as [Hz | [<- | []]];
          [now apply Below | apply leb_refl]. }
      destruct (hd_error (order_desc key l)) as [h2|] eqn:H2; [|reflexivity].
      now rewrite (Top l h2 H2 Below).
    + destruct (order_desc key (l ++ [x])) as [|? ?] eqn:Em; [|discriminate].
      apply (f_equal (@List.length A)) in Em.
      rewrite (Permutation_length (order_desc_Permutation key (l ++ [x])%list)) in Em.
      rewrite length_app in Em. simpl in Em. lia.
Qed.

End OrderingFilter.

Lemma find_unique {A : Type} (p : A -> bool) (l : list A) (x : A) :
  In x l -> p x = true -> (forall y, In y l -> p y = true -> y = x) ->
  find p l = Some x.
Proof.
  intros Hin Px U. destruct (find p l) as [y|] eqn:F.
  - apply find_some in F. f_equal. now apply U.
  - rewrite (find_none _ _ F x Hin) in Px. discriminate.
Qed.

Lemma filter_both {A : Type} (p q : A -> bool) (l : list A) :
  filter p (filter q l) = filter (fun x => p x && q x) l.
Proof.
  induction l as [|x l IH]; simpl; [reflexivity|].
  destruct (q x); simpl; rewrite ?andb_true_r, ?andb_false_r;
    [destruct (p x); now rewrite IH | exact IH].
Qed.

Lemma getWithdrawals_eq (s : Store) :
  getWithdrawals s
  = (map withdrawal_of_row (order_desc WithdrawalRow.date (account_withdrawals s)), s).
Proof.
  unfold getWithdrawals, account_withdrawals, bind, getCurrentUser,
    Db.select_back_safe_withdrawals, ret.
  cbv beta iota. destruct (session s) as [u|] eqn:E; [|reflexivity].
  cbv beta iota. rewrite E.
  simpl. do 3 f_equal. apply filter_ext. intros r. apply allowed_own.
Qed.

(* ================================================================= *)
(** ** The list queries *)

(** X1.  Each of the four list queries returns the rows of the signed-in
    account and no others, each row once, by decreasing date (month for the
    archives). *)
Theorem queries_return_account_rows_latest_first (s : Store) :
  (Permutation (result getEntries s) (map entry_of_row (account_entries s))
   /\ StronglySorted (not_smaller DailyEntry.date) (result getEntries s))
  /\ (Permutation (result getWithdrawals s) (map withdrawal_of_row (account_withdrawals s))
      /\ StronglySorted (not_smaller BackSafeWithdrawal.date) (result getWithdrawals s))
  /\ (Permutation (result getBackSafeTransactions s)
                  (map transaction_of_row (account_ledger s))
      /\ StronglySorted (not_smaller BackSafeTransaction.date)
                        (result getBackSafeTransactions s))
  /\ (Permutation (result getArchives s) (map archive_of_row (account_archives s))
      /\ StronglySorted (not_smaller MonthlyArchive.month) (result getArchives s)).
Proof.
  unfold result.
  rewrite getEntries_eq, getWithdrawals_eq, getBackSafeTransactions_eq, getArchives_eq.
  simpl. repeat split;
    solve [ apply Permutation_map, order_desc_Permutation
          | eapply map_keeps_sorted; [reflexivity | apply order_desc_sorted] ].
Qed.

(** X2.  [getLastEntryForDate(date)] returns nothing exactly when the
    account has no entry of that date; what it returns is an entry of
    [getEntries] with that date. *)
Theorem getLastEntryForDate_found_iff (s : Store) (date : string) :
  (result (getLastEntryForDate date) s = None
   <-> forall r, In r (account_entries s) -> DailyEntryRow.date r <> date)
  /\ (forall e, result (getLastEntryForDate date) s = Some e ->
                DailyEntry.date e = date /\ In e (result getEntries s)).
Proof.
  assert (R : result (getLastEntryForDate date) s
              = find (fun e => String.eqb (DailyEntry.date e) date) (result getEntries s)).
  { unfold result, getLastEntryForDate, bind, ret. now destruct (getEntries s). }
  rewrite R. clear R. unfold result. rewrite getEntries_eq. simpl. split.
  - split.
    + intros F r Hr Hd.
      assert (N := find_none _ _ F (entry_of_row r)
                     (in_map _ _ _ (proj2 (order_desc_In _ _ _) Hr))).
      simpl in N. rewrite Hd, String.eqb_refl in N. discriminate.
    + intros H. destruct (find _ _) as [e|] eqn:F; [|reflexivity].
      apply find_some in F. destruct F as [Hin He].
      apply in_map_iff in Hin. destruct Hin as [r [<- Hr]].
      apply order_desc_In in Hr. simpl in He. apply String.eqb_eq in He.
      now destruct (H r Hr).
  - intros e F. apply find_some in F. destruct F as [Hin He].
    apply String.eqb_eq in He. now split.
Qed.

(* ================================================================= *)
(** ** Deleting and editing, as the lists show it *)

Lemma getEntries_after_delete (s : Store) (id : UUID) :
  result getEntries (after (deleteEntry id) s)
  = filter (fun e => negb (String.eqb (DailyEntry.id e) id)) (result getEntries s).
Proof.
  unfold result. rewrite !getEntries_eq. simpl.
  rewrite filter_map_swap, <- order_desc_filter. do 2 f_equal.
  unfold after, deleteEntry, bind, getCurrentUser, Db.delete_daily_entries, console_error, ret.
  cbv beta iota. unfold account_entries.
  destruct (session s) as [u|] eqn:E; [|simpl; now rewrite ?E].
  cbv beta iota. rewrite E. simpl.
  rewrite !filter_both. apply filter_ext. intros r. simpl.
  unfold Db.allowed. simpl.
  now destruct (String.eqb (DailyEntryRow.user_id r) u), (String.eqb (DailyEntryRow.id r) id).
Qed.

(** X3.  After [deleteEntry(id)] the entries of the account are those it
    had before without the ones of that identifier, in the same order; the
    history reloads exactly this list when the user confirms, and touches
    nothing when the user declines. *)
Theorem deleteEntry_removes_only_that_entry (s : Store) (id : UUID) :
  result getEntries (after (deleteEntry id) s)
  = filter (fun e => negb (String.eqb (DailyEntry.id e) id)) (result getEntries s)
  /\ result (ReconciliationHistory.handleDelete true id) s
     = Some (filter (fun e => negb (String.eqb (DailyEntry.id e) id)) (result getEntries s))
  /\ ReconciliationHistory.handleDelete false id s = (None, s).
Proof.
  split; [apply getEntries_after_delete|]. split; [|reflexivity].
  rewrite <- getEntries_after_delete.
  unfold result, after, ReconciliationHistory.handleDelete, bind, ret.
  destruct (deleteEntry id s) as [[] s1]. simpl.
  now destruct (getEntries s1).
Qed.

(** X4.  After [deleteWithdrawal(id)] the withdrawals of the account are
    those it had before without the ones of that identifier, in the same
    order. *)
Theorem deleteWithdrawal_removes_only_that_withdrawal (s : Store) (id : UUID) :
  result getWithdrawals (after (deleteWithdrawal id) s)
  = filter (fun w => negb (String.eqb (BackSafeWithdrawal.id w) id)) (result getWithdrawals s).
Proof.
  unfold result. rewrite !getWithdrawals_eq. simpl.
  rewrite filter_map_swap, <- order_desc_filter. do 2 f_equal.
  unfold after, deleteWithdrawal, bind, getCurrentUser, Db.delete_back_safe_withdrawals,
    Db.delete_back_safe_transactions, console_error, ret.
  cbv beta iota. unfold account_withdrawals.
  destruct (session s) as [u|] eqn:E; [|simpl; now rewrite ?E].
  cbv beta iota. rewrite E. simpl. rewrite ?E. simpl.
  rewrite !filter_both. apply filter_ext. intros r. simpl.
  unfold Db.allowed. simpl.
  now destruct (String.eqb (WithdrawalRow.user_id r) u), (String.eqb (WithdrawalRow.id r) id).
Qed.

(** X5.  After [updateWithdrawal(id, amount, reason)] the withdrawals of
    the account are those it had before, in the same order, with the amount
    and the reason replaced on the ones of that identifier; an identifier
    the account does not have changes nothing in the list. *)
Theorem updateWithdrawal_edits_only_that_withdrawal (s : Store) (id : UUID)
    (amount : Money) (reason now : string) :
  result getWithdrawals (after (updateWithdrawal id amount reason now) s)
  = map (edited id amount reason) (result getWithdrawals s)
  /\ ((forall w, In w (result getWithdrawals s) -> BackSafeWithdrawal.id w <> id) ->
      result getWithdrawals (after (updateWithdrawal id amount reason now) s)
      = result getWithdrawals s).
Proof.
  assert (M : result getWithdrawals (after (updateWithdrawal id amount reason now) s)
              = map (edited id amount reason) (result getWithdrawals s)).
  { unfold result. rewrite !getWithdrawals_eq. simpl.
    unfold after, updateWithdrawal, bind, getCurrentUser, Db.update_back_safe_withdrawals,
      console_error, ret.
    cbv beta iota. unfold account_withdrawals.
    destruct (session s) as [u|] eqn:E; [|simpl; now rewrite ?E].
    cbv beta iota. rewrite E. simpl. rewrite ?E.
    match goal with
    | |- context [map ?f (back_safe_withdrawals s)] => set (g := f)
    end.
    assert (G : forall r, WithdrawalRow.user_id (g r) = WithdrawalRow.user_id r
                          /\ WithdrawalRow.date (g r) = WithdrawalRow.date r).
    { intros r. unfold g. now destruct (_ && _). }
    rewrite filter_map_swap.
    rewrite (filter_ext (fun r => String.eqb (WithdrawalRow.user_id (g r)) u)
                        (fun r => String.eqb (WithdrawalRow.user_id r) u))
      by (intros r; now rewrite (proj1 (G r))).
    rewrite (order_desc_map WithdrawalRow.date WithdrawalRow.date g) by (intros r; apply G).
    rewrite !map_map. apply map_ext_in. intros r Hr.
    apply order_desc_In, filter_In in Hr. destruct Hr as [_ Hu].
    unfold g, edited, Db.allowed. simpl. rewrite Hu. simpl.
    now destruct (String.eqb (WithdrawalRow.id r) id). }
  split; [exact M|].
  intros H. rewrite M. rewrite <- (map_id (result getWithdrawals s)) at 2.
  apply map_ext_in. intros w Hw. unfold edited.
  destruct (String.eqb (BackSafeWithdrawal.id w) id) eqn:Q; [|reflexivity].
  apply String.eqb_eq in Q. now destruct (H w Hw).
Qed.

(* ================================================================= *)
(** ** Approval, as the history shows it *)

Lemma getEntries_after_approval (approved : bool) (note at_ : option string)
    (now id : string) (u : UUID) (s : Store) :
  session s = Some u ->
  result getEntries (snd (Db.update_daily_entries (set_approval approved note at_ now) id u s))
  = map (approval_set id approved note at_ now) (result getEntries s).
Proof.
  intros E. unfold result. rewrite !getEntries_eq. simpl.
  unfold Db.update_daily_entries, account_entries. rewrite E. simpl. rewrite ?E.
  match goal with
  | |- context [map ?f (daily_entries s)] => set (g := f)
  end.
  assert (G : forall r, DailyEntryRow.user_id (g r) = DailyEntryRow.user_id r
                        /\ DailyEntryRow.date (g r) = DailyEntryRow.date r).
  { intros r. unfold g. now destruct (_ && _). }
  rewrite filter_map_swap.
  rewrite (filter_ext (fun r => String.eqb (DailyEntryRow.user_id (g r)) u)
                      (fun r => String.eqb (DailyEntryRow.user_id r) u))
    by (intros r; now rewrite (proj1 (G r))).
  rewrite (order_desc_map DailyEntryRow.date DailyEntryRow.date g) by (intros r; apply G).
  rewrite !map_map. apply map_ext_in. intros r Hr.
  apply order_desc_In, filter_In in Hr. destruct Hr as [_ Hu].
  unfold g, approval_set, Db.allowed. simpl. rewrite Hu. simpl.
  now destruct (String.eqb (DailyEntryRow.id r) id).
Qed.

(** X6.  [approveEntry(id, note)] sets the approval, the note and the
    time on the entries of that identifier and changes no other field and
    no other entry; in the history such an entry counts as in order and
    offers no approve button. *)
Theorem approveEntry_marks_that_entry (s : Store) (id : UUID) (approvalNote now : string) :
  let entries := result getEntries (after (approveEntry id approvalNote now) s) in
  entries = map (approval_set id true (Some approvalNote) (Some now) now) (result getEntries s)
  /\ forall e, In e entries -> DailyEntry.id e = id ->
       approval e = (true, Some approvalNote, Some now)
       /\ ReconciliationHistory.isEntryOk e = true
       /\ ReconciliationHistory.canApprove e = false
       /\ ReconciliationHistory.badge e <> ReconciliationHistory.Off.
Proof.
  intros entries.
  assert (M : entries
              = map (approval_set id true (Some approvalNote) (Some now) now)
                    (result getEntries s)).
  { unfold entries, after, approveEntry, bind, getCurrentUser, console_error, ret.
    cbv beta iota. destruct (session s) as [u|] eqn:E.
    - pose proof (getEntries_after_approval true (Some approvalNote) (Some now) now id u s E) as K.
      destruct (Db.update_daily_entries _ id u s) as [err s']. exact K.
    - simpl. unfold result. rewrite getEntries_eq. unfold account_entries. now rewrite E. }
  split; [exact M|].
  intros e He Hid. rewrite M in He. apply in_map_iff in He. destruct He as [e0 [<- _]].
  unfold approval_set in *. destruct (String.eqb (DailyEntry.id e0) id) eqn:Q.
  - unfold approval, ReconciliationHistory.isEntryOk, ReconciliationHistory.canApprove,
      ReconciliationHistory.badge. simpl.
    rewrite orb_true_r, andb_false_r.
    repeat split. now destruct (DailyEntry.isBalanced e0).
  - apply String.eqb_neq in Q. contradiction.
Qed.

(** X7.  [removeApproval(id)] clears what [approveEntry(id, note)] set:
    the database after approving and then removing is the database after
    removing alone, and an entry of that identifier is then in order
    exactly when it is balanced. *)
Theorem removeApproval_undoes_approveEntry (s : Store) (id : UUID)
    (approvalNote now now' : string) :
  after (removeApproval id now') (after (approveEntry id approvalNote now) s)
  = after (removeApproval id now') s
  /\ forall e, In e (result getEntries (after (removeApproval id now') s)) ->
       DailyEntry.id e = id ->
       approval e = (false, None, None)
       /\ ReconciliationHistory.isEntryOk e = DailyEntry.isBalanced e.
Proof.
  split.
  - unfold after, removeApproval, approveEntry, bind, getCurrentUser,
      Db.update_daily_entries, console_error, ret.
    cbv beta iota. destruct (session s) as [u|] eqn:E; simpl; rewrite ?E; [|reflexivity].
    repeat (simpl; rewrite E). unfold with_daily_entries. simpl. f_equal.
    rewrite map_map. apply map_ext. intros r.
    match goal with
    | |- context [if ?c then set_approval true _ _ _ _ else _] => destruct c eqn:C
    end; simpl; now rewrite C.
  - intros e He Hid.
    assert (M : result getEntries (after (removeApproval id now') s)
                = map (approval_set id false None None now') (result getEntries s)).
    { unfold after, removeApproval, bind, getCurrentUser, console_error, ret.
      cbv beta iota. destruct (session s) as [u|] eqn:E.
      - pose proof (getEntries_after_approval false None None now' id u s E) as K.
        destruct (Db.update_daily_entries _ id u s) as [err s']. exact K.
      - simpl. unfold result. rewrite getEntries_eq. unfold account_entries. now rewrite E. }
    rewrite M in He. apply in_map_iff in He. destruct He as [e0 [<- _]].
    unfold approval_set in *. destruct (String.eqb (DailyEntry.id e0) id) eqn:Q.
    + unfold approval, ReconciliationHistory.isEntryOk. simpl. now rewrite orb_false_r.
    + apply String.eqb_neq in Q. contradiction.
Qed.

(* ================================================================= *)
(** ** Nobody signed in *)

(** X8.  Without a signed-in user no function of the store writes
    anything, the list queries return nothing, the balances are 0 and
    [closeMonth] returns [null]. *)
Theorem signed_out_store_is_inert (s : Store) (e : DailyEntry.t) (w : BackSafeWithdrawal.t)
    (t : BackSafeTransaction.t) (a : MonthlyArchive.t) (amount : Money)
    (id id' note reason month now : string) :
  session s = None ->
  (after (saveEntry e now) s = s /\ after (deleteEntry id) s = s
   /\ after (approveEntry id note now) s = s /\ after (removeApproval id now) s = s
   /\ after (saveWithdrawal w id' now) s = s /\ after (deleteWithdrawal id) s = s
   /\ after (updateWithdrawal id amount reason now) s = s
   /\ after (saveBackSafeTransaction t) s = s
   /\ after (saveArchive a id' now) s = s
   /\ closeMonth month id' now s = (None, s))
  /\ (result getEntries s = [] /\ result getWithdrawals s = []
      /\ result getBackSafeTransactions s = [] /\ result getArchives s = []
      /\ SafeBalances.frontSafe (result (getBalances now) s) = 0
      /\ SafeBalances.backSafe (result (getBalances now) s) = 0
      /\ result (getPreviousDayBalance now) s = 0
      /\ result (getMonthStartingBalances month) s = (0, 0)).
Proof.
  intros E. split.
  - unfold after, saveEntry, deleteEntry, approveEntry, removeApproval, saveWithdrawal,
      deleteWithdrawal, updateWithdrawal, saveBackSafeTransaction, saveArchive, closeMonth,
      bind, getCurrentUser, ret.
    cbv beta iota. rewrite E. repeat split.
  - unfold result at 1 2 3 4.
    rewrite getEntries_eq, getWithdrawals_eq, getBackSafeTransactions_eq, getArchives_eq.
    unfold account_entries, account_withdrawals, account_ledger, account_archives.
    rewrite E. simpl. repeat split.
    + unfold result. rewrite getBalances_eq. simpl. unfold result.
      rewrite getEntries_eq. unfold account_entries. now rewrite E.
    + rewrite backSafe_eq. unfold account_ledger. now rewrite E.
    + unfold result. rewrite getPreviousDayBalance_eq. unfold result.
      rewrite getEntries_eq. unfold account_entries. now rewrite E.
    + rewrite getMonthStartingBalances_eq. unfold previous_archive, result.
      rewrite getArchives_eq. unfold account_archives. now rewrite E.
Qed.

Lemma signed_out_store_is_inert_witness :
  session (signed_out Sample.after_withdrawal_100) = None
  /\ after (deleteWithdrawal "w-1") (signed_out Sample.after_withdrawal_100)
     = signed_out Sample.after_withdrawal_100
  /\ result getWithdrawals (signed_out Sample.after_withdrawal_100) = [].
Proof.
  pose proof (signed_out_store_is_inert (signed_out Sample.after_withdrawal_100)
                (Sample.entry "e" "2024-03-02" 0 0 0 0 0)
                {| BackSafeWithdrawal.id := "w"; BackSafeWithdrawal.date := "2024-03-02";
                   BackSafeWithdrawal.amount := 0; BackSafeWithdrawal.reason := "r";
                   BackSafeWithdrawal.createdAt := Sample.t0 |}
                (Sample.transfer "t" "2024-03-02" 0 None)
                (archive_of_row (Sample.archive_row "a" "2024-03" 0 0 true))
                0 "w-1" "t-2" "note" "reason" "2024-03" Sample.t0 eq_refl) as [W R].
  split; [reflexivity|].
  split; [apply W | apply R].
Defined.

(* ================================================================= *)
(** ** Saving a daily entry *)

Lemma existsb_none {A : Type} (f : A -> bool) (l : list A) :
  (forall x, In x l -> f x = false) -> existsb f l = false.
Proof.
  intros H. destruct (existsb f l) eqn:E; [|reflexivity].
  apply existsb_exists in E. destruct E as [x [Hx Fx]]. now rewrite (H x Hx) in Fx.
Qed.

Lemma find_nothing {A : Type} (f : A -> bool) (l : list A) :
  (forall x, In x l -> f x = false) -> find f l = None.
Proof.
  intros H. destruct (find f l) as [x|] eqn:E; [|reflexivity].
  apply find_some in E. destruct E as [Hx Fx]. now rewrite (H x Hx) in Fx.
Qed.

Lemma saveEntry_inserts (s : Store) (u : UUID) (entry : DailyEntry.t) (now : string) :
  session s = Some u ->
  (forall r, In r (daily_entries s) -> DailyEntryRow.id r <> DailyEntry.id entry) ->
  (forall r, In r (account_entries s) -> DailyEntryRow.date r <> DailyEntry.date entry) ->
  after (saveEntry entry now) s
  = with_daily_entries s (daily_entries s ++ [row_of_entry u entry now (clock s)]).
Proof.
  intros E Fresh Free.
  unfold after, saveEntry, bind, getCurrentUser, Db.upsert_daily_entries, console_error, ret.
  cbv beta iota zeta. rewrite E. cbv beta iota. rewrite E.
  fold (row_of_entry u entry now (clock s)).
  assert (A : Db.allowed (for_insert policy_daily_entries) u
                (DailyEntryRow.user_id (row_of_entry u entry now (clock s))) = true).
  { unfold Db.allowed. simpl. apply String.eqb_refl. }
  rewrite A. simpl negb. cbv iota.
  assert (T : Db.date_taken (row_of_entry u entry now (clock s)) (daily_entries s) = false).
  { apply existsb_none. intros o Ho. simpl.
    destruct (String.eqb (DailyEntryRow.user_id o) u) eqn:U;
      [|now rewrite andb_false_r].
    assert (Hacc : In o (account_entries s)).
    { unfold account_entries. rewrite E. apply filter_In. now split. }
    apply Free in Hacc. apply String.eqb_neq in Hacc. rewrite Hacc.
    now rewrite andb_false_r. }
  rewrite T.
  rewrite find_nothing; [reflexivity|].
  intros o Ho. simpl. apply String.eqb_neq. now apply Fresh.
Qed.

Lemma entry_of_row_of_entry (u : UUID) (entry : DailyEntry.t) (now created : string) :
  entry_of_row (row_of_entry u entry now created) = saved entry now created.
Proof. unfold entry_of_row, row_of_entry, saved. simpl. now rewrite orb_false_r. Qed.

Lemma account_entries_after_insert (s : Store) (u : UUID) (row : DailyEntryRow.row) :
  session s = Some u -> DailyEntryRow.user_id row = u ->
  account_entries (with_daily_entries s (daily_entries s ++ [row]))
  = (account_entries s ++ [row])%list.
Proof.
  intros E U. unfold account_entries. simpl. rewrite E, filter_app. simpl.
  now rewrite U, String.eqb_refl.
Qed.

(** X9.  A new entry (an identifier not in the table, a date the account
    does not have yet) whose date and amounts the columns store as they
    are is stored by [saveEntry] and found again: the entries of the account
    are the old ones and the new one, and [getLastEntryForDate] returns it
    for its date, with the figures that were saved and [isBalanced] computed
    from its difference. *)
Theorem saveEntry_then_getLastEntryForDate (s : Store) (u : UUID) (entry : DailyEntry.t)
    (now : string) :
  session s = Some u ->
  (forall r, In r (daily_entries s) -> DailyEntryRow.id r <> DailyEntry.id entry) ->
  (forall r, In r (account_entries s) -> DailyEntryRow.date r <> DailyEntry.date entry) ->
  storable entry ->
  let s' := after (saveEntry entry now) s in
  Permutation (map figures (result getEntries s'))
              (figures (saved entry now (clock s)) :: map figures (result getEntries s))
  /\ option_map figures (result (getLastEntryForDate (DailyEntry.date entry)) s')
     = Some (figures (saved entry now (clock s))).
Proof.
  intros E Fresh Free _ s'.
  cut (Permutation (result getEntries s') (saved entry now (clock s) :: result getEntries s)
       /\ result (getLastEntryForDate (DailyEntry.date entry)) s'
          = Some (saved entry now (clock s))).
  { intros [P F]. split; [|now rewrite F].
    change (figures (saved entry now (clock s)) :: map figures (result getEntries s))
      with (map figures (saved entry now (clock s) :: result getEntries s)).
    now apply Permutation_map. }
  unfold s'. rewrite (saveEntry_inserts s u entry now E Fresh Free).
  set (row := row_of_entry u entry now (clock s)).
  assert (L : result getEntries (with_daily_entries s (daily_entries s ++ [row]))
              = map entry_of_row (order_desc DailyEntryRow.date (account_entries s ++ [row]))).
  { unfold result. rewrite getEntries_eq. simpl.
    now rewrite (account_entries_after_insert s u row E eq_refl). }
  assert (P : Permutation (result getEntries (with_daily_entries s (daily_entries s ++ [row])))
                          (saved entry now (clock s) :: result getEntries s)).
  { rewrite L. unfold result at 1. rewrite getEntries_eq. simpl.
    rewrite <- entry_of_row_of_entry with (u := u). rewrite <- map_cons.
    apply Permutation_map.
    rewrite order_desc_Permutation.
    rewrite (order_desc_Permutation DailyEntryRow.date (account_entries s)).
    symmetry. apply Permutation_cons_append. }
  split; [exact P|].
  unfold result at 1, getLastEntryForDate, bind, ret.
  destruct (getEntries _) as [es s1] eqn:G. simpl.
  assert (Ges : es = result getEntries (with_daily_entries s (daily_entries s ++ [row])))
    by (unfold result; now rewrite G).
  rewrite Ges. apply find_unique.
  - apply (Permutation_in _ (Permutation_sym P)). now left.
  - simpl. apply String.eqb_refl.
  - intros y Hy Dy. apply (Permutation_in _ P) in Hy. destruct Hy as [<- | Hy]; [reflexivity|].
    exfalso. unfold result in Hy. rewrite getEntries_eq in Hy. simpl in Hy.
    apply in_map_iff in Hy. destruct Hy as [r [<- Hr]]. apply order_desc_In in Hr.
    simpl in Dy. apply String.eqb_eq in Dy. now apply (Free r Hr).
Qed.

Lemma Sample_entry_storable :
  storable (Sample.entry "e-0311" "2024-03-11" 300 200 100 0 400).
Proof.
  split; [reflexivity|].
  repeat split;
    [exists 20000%Z | exists 10000%Z | exists 0%Z | exists 40000%Z | exists 40000%Z
     | exists 0%Z]; (split; [reflexivity | reflexivity]).
Qed.

Lemma saveEntry_then_getLastEntryForDate_witness :
  let entry := Sample.entry "e-0311" "2024-03-11" 300 200 100 0 400 in
  storable entry
  /\ option_map figures
       (result (getLastEntryForDate "2024-03-11")
               (after (saveEntry entry Sample.t0) Sample.two_entries))
     = Some ("e-0311", "2024-03-11", 200, 100, 0, 400, 400, 0, true, None).
Proof.
  intros entry. split; [exact Sample_entry_storable|].
  refine (proj2 (saveEntry_then_getLastEntryForDate Sample.two_entries Sample.user entry
                   Sample.t0 eq_refl _ _ Sample_entry_storable)).
  - intros r [<- | [<- | []]]; discriminate.
  - intros r [<- | [<- | []]]; discriminate.
Defined.

(** X10.  [saveEntry] with a new identifier for a date the account
    already has writes nothing: the unique constraint on (user, date)
    rejects the row and the error is only logged. *)
Theorem saveEntry_duplicate_date_writes_nothing (s : Store) (u : UUID) (entry : DailyEntry.t)
    (now : string) (r : DailyEntryRow.row) :
  session s = Some u ->
  In r (daily_entries s) ->
  DailyEntryRow.user_id r = u ->
  DailyEntryRow.date r = DailyEntry.date entry ->
  DailyEntryRow.id r <> DailyEntry.id entry ->
  after (saveEntry entry now) s = s.
Proof.
  intros E Hr Hu Hd Hid.
  unfold after, saveEntry, bind, getCurrentUser, Db.upsert_daily_entries, console_error, ret.
  cbv beta iota zeta. rewrite E. cbv beta iota. rewrite E.
  fold (row_of_entry u entry now (clock s)).
  assert (A : Db.allowed (for_insert policy_daily_entries) u
                (DailyEntryRow.user_id (row_of_entry u entry now (clock s))) = true).
  { unfold Db.allowed. simpl. apply String.eqb_refl. }
  rewrite A. simpl negb. cbv iota.
  assert (T : Db.date_taken (row_of_entry u entry now (clock s)) (daily_entries s) = true).
  { apply existsb_exists. exists r. split; [exact Hr|]. simpl.
    rewrite Hu, Hd, !String.eqb_refl. apply String.eqb_neq in Hid. now rewrite Hid. }
  now rewrite T.
Qed.

Lemma saveEntry_duplicate_date_writes_nothing_witness :
  after (saveEntry (Sample.entry "e-other" "2024-03-10" 0 0 0 0 0) Sample.t0) Sample.two_entries
  = Sample.two_entries.
Proof.
  refine (saveEntry_duplicate_date_writes_nothing Sample.two_entries Sample.user
            (Sample.entry "e-other" "2024-03-10" 0 0 0 0 0) Sample.t0
            (row_of_entry Sample.user
               (Sample.entry "e-0310" "2024-03-10" 100 600 400 0 300) Sample.t0
               (clock Sample.empty))
            eq_refl _ eq_refl eq_refl _).
  - right. left. reflexivity.
  - intros H. vm_compute in H. discriminate H.
Defined.

Lemma frontSafe_eq (now : string) (s : Store) :
  SafeBalances.frontSafe (result (getBalances now) s)
  = match hd_error (order_desc DailyEntryRow.date (account_entries s)) with
    | Some r => DailyEntryRow.actual_left_in_front r
    | None => 0
    end.
Proof.
  unfold result. rewrite getBalances_eq. simpl. unfold result. rewrite getEntries_eq. simpl.
  now destruct (order_desc _ _).
Qed.

Lemma previous_is_frontSafe (now : string) (s : Store) :
  result (getPreviousDayBalance now) s = SafeBalances.frontSafe (result (getBalances now) s).
Proof. unfold result. now rewrite getPreviousDayBalance_eq, getBalances_eq. Qed.

(** X11.  Saving a new entry dated after every entry of the account, whose
    date and amounts the columns store as they are, makes it the first of
    [getEntries]: the front-safe balance and the previous balance of the
    next submission are then what this entry left in front. *)
Theorem saveEntry_latest_sets_frontSafe (s : Store) (u : UUID) (entry : DailyEntry.t)
    (now now' : string) :
  session s = Some u ->
  (forall r, In r (daily_entries s) -> DailyEntryRow.id r <> DailyEntry.id entry) ->
  (forall r, In r (account_entries s) ->
             String.ltb (DailyEntryRow.date r) (DailyEntry.date entry) = true) ->
  storable entry ->
  let s' := after (saveEntry entry now) s in
  map figures (result getEntries s')
  = figures (saved entry now (clock s)) :: map figures (result getEntries s)
  /\ SafeBalances.frontSafe (result (getBalances now') s') = DailyEntry.leftInFront entry
  /\ result (getPreviousDayBalance now') s' = DailyEntry.leftInFront entry.
Proof.
  intros E Fresh Later _ s'.
  assert (Free : forall r, In r (account_entries s) ->
                           DailyEntryRow.date r <> DailyEntry.date entry).
  { intros r Hr Hd. specialize (Later r Hr). rewrite Hd in Later.
    apply ltb_lt in Later. exact (StrictOrder_Irreflexive _ Later). }
  assert (G : result getEntries s' = saved entry now (clock s) :: result getEntries s).
  { unfold s'. rewrite (saveEntry_inserts s u entry now E Fresh Free).
    unfold result. rewrite !getEntries_eq. simpl.
    rewrite (account_entries_after_insert s u (row_of_entry u entry now (clock s)) E eq_refl).
    rewrite order_desc_newest by exact Later.
    simpl. now rewrite entry_of_row_of_entry. }
  split; [now rewrite G|].
  unfold result at 1 2. rewrite getBalances_eq, getPreviousDayBalance_eq. simpl.
  now rewrite G.
Qed.

Lemma saveEntry_latest_sets_frontSafe_witness :
  let entry := Sample.entry "e-0311" "2024-03-11" 300 200 100 0 400 in
  SafeBalances.frontSafe (result (getBalances Sample.t0) Sample.two_entries) = 300
  /\ SafeBalances.frontSafe
       (result (getBalances Sample.t0) (after (saveEntry entry Sample.t0) Sample.two_entries))
     = 400.
Proof.
  intros entry. split; [reflexivity|].
  refine (proj1 (proj2 (saveEntry_latest_sets_frontSafe Sample.two_entries Sample.user entry
                          Sample.t0 Sample.t0 eq_refl _ _ Sample_entry_storable))).
  - intros r [<- | [<- | []]]; discriminate.
  - intros r [<- | [<- | []]]; reflexivity.
Defined.

(** X12.  Saving a new entry dated before some entry of the account
    leaves the front-safe balance, and the previous balance of the next
    submission, as they were. *)
Theorem saveEntry_backdated_keeps_frontSafe (s : Store) (u : UUID) (entry : DailyEntry.t)
    (now now' : string) (later : DailyEntryRow.row) :
  session s = Some u ->
  (forall r, In r (daily_entries s) -> DailyEntryRow.id r <> DailyEntry.id entry) ->
  (forall r, In r (account_entries s) -> DailyEntryRow.date r <> DailyEntry.date entry) ->
  In later (account_entries s) ->
  String.ltb (DailyEntry.date entry) (DailyEntryRow.date later) = true ->
  let s' := after (saveEntry entry now) s in
  SafeBalances.frontSafe (result (getBalances now') s')
  = SafeBalances.frontSafe (result (getBalances now') s)
  /\ result (getPreviousDayBalance now') s' = result (getPreviousDayBalance now') s.
Proof.
  intros E Fresh Free Hin Hlt s'.
  assert (F : SafeBalances.frontSafe (result (getBalances now') s')
              = SafeBalances.frontSafe (result (getBalances now') s)).
  { rewrite !frontSafe_eq. unfold s'.
    rewrite (saveEntry_inserts s u entry now E Fresh Free).
    rewrite (account_entries_after_insert s u (row_of_entry u entry now (clock s)) E eq_refl).
    rewrite order_desc_older; [reflexivity|].
    exists later. split; [exact Hin | exact Hlt]. }
  split; [exact F|].
  now rewrite !previous_is_frontSafe.
Qed.

Lemma saveEntry_backdated_keeps_frontSafe_witness :
  let entry := Sample.entry "e-0305" "2024-03-05" 100 200 100 0 200 in
  SafeBalances.frontSafe
    (result (getBalances Sample.t0) (after (saveEntry entry Sample.t0) Sample.two_entries))
  = SafeBalances.frontSafe (result (getBalances Sample.t0) Sample.two_entries)
  /\ SafeBalances.frontSafe (result (getBalances Sample.t0) Sample.two_entries) = 300.
Proof.
  intros entry. split; [|reflexivity].
  refine (proj1 (saveEntry_backdated_keeps_frontSafe Sample.two_entries Sample.user entry
                   Sample.t0 Sample.t0
                   (row_of_entry Sample.user
                      (Sample.entry "e-0310" "2024-03-10" 100 600 400 0 300) Sample.t0
                      (clock Sample.empty))
                   eq_refl _ _ _ eq_refl)).
  - intros r [<- | [<- | []]]; discriminate.
  - intros r [<- | [<- | []]]; discriminate.
  - right. left. reflexivity.
Defined.

(* ================================================================= *)
(** ** Recording a withdrawal *)

(** After the upsert of [saveWithdrawal] a withdrawal row of that
    identifier exists, and no other table has changed. *)
Lemma upsert_withdrawal_present (s : Store) (u : UUID) (payload : string -> WithdrawalRow.row) :
  session s = Some u -> (forall created, WithdrawalRow.user_id (payload created) = u) ->
  let s1 := snd (Db.upsert_back_safe_withdrawals payload s) in
  In (WithdrawalRow.id (payload (clock s))) (map WithdrawalRow.id (back_safe_withdrawals s1))
  /\ session s1 = Some u
  /\ clock s1 = clock s
  /\ daily_entries s1 = daily_entries s
  /\ back_safe_transactions s1 = back_safe_transactions s.
Proof.
  intros E U. unfold Db.upsert_back_safe_withdrawals. cbv zeta. rewrite E.
  set (r := payload (clock s)).
  assert (A : Db.allowed (for_insert policy_back_safe_withdrawals) u (WithdrawalRow.user_id r)
              = true) by (unfold Db.allowed, r; simpl; rewrite U; apply String.eqb_refl).
  rewrite A. simpl negb. cbv iota.
  destruct (find _ (back_safe_withdrawals s)) as [old|] eqn:F.
  - apply find_some in F. destruct F as [Hold Hid]. apply String.eqb_eq in Hid.
    destruct (Db.allowed _ u (WithdrawalRow.user_id old)); simpl.
    + repeat split; try assumption.
      rewrite map_map. apply in_map_iff. exists old. split; [|exact Hold].
      apply String.eqb_eq in Hid. now rewrite Hid.
    + repeat split; try assumption.
      apply in_map_iff. exists old. now split.
  - simpl. repeat split; try assumption.
    rewrite map_app. apply in_or_app. right. now left.
Qed.

(** With an identifier the table does not have, the upsert inserts. *)
Lemma upsert_withdrawal_inserts (s : Store) (u : UUID) (payload : string -> WithdrawalRow.row) :
  session s = Some u -> (forall created, WithdrawalRow.user_id (payload created) = u) ->
  (forall r, In r (back_safe_withdrawals s) ->
             WithdrawalRow.id r <> WithdrawalRow.id (payload (clock s))) ->
  back_safe_withdrawals (snd (Db.upsert_back_safe_withdrawals payload s))
  = (back_safe_withdrawals s ++ [payload (clock s)])%list.
Proof.
  intros E U Fresh. unfold Db.upsert_back_safe_withdrawals. cbv zeta. rewrite E.
  set (r := payload (clock s)) in *.
  assert (A : Db.allowed (for_insert policy_back_safe_withdrawals) u (WithdrawalRow.user_id r)
              = true) by (unfold Db.allowed, r; simpl; rewrite U; apply String.eqb_refl).
  rewrite A. simpl negb. cbv iota.
  rewrite find_nothing; [reflexivity|].
  intros o Ho. simpl. apply String.eqb_neq. now apply Fresh.
Qed.

Lemma saveWithdrawal_appends (s : Store) (u : UUID) (w : BackSafeWithdrawal.t)
    (txId now : string) :
  session s = Some u ->
  ~ In txId (map TransactionRow.id (back_safe_transactions s)) ->
  let s' := after (saveWithdrawal w txId now) s in
  session s' = Some u
  /\ back_safe_transactions s'
     = (back_safe_transactions s ++ [withdrawal_transaction u w txId (clock s)])%list
  /\ back_safe_withdrawals s'
     = back_safe_withdrawals
         (snd (Db.upsert_back_safe_withdrawals
                 (fun created_at =>
                    {| WithdrawalRow.id := BackSafeWithdrawal.id w;
                       WithdrawalRow.user_id := u;
                       WithdrawalRow.date := BackSafeWithdrawal.date w;
                       WithdrawalRow.amount := BackSafeWithdrawal.amount w;
                       WithdrawalRow.reason := BackSafeWithdrawal.reason w;
                       WithdrawalRow.created_at := created_at;
                       WithdrawalRow.updated_at := now |}) s)).
Proof.
  intros E Fresh s'.
  set (payload := fun created_at =>
                    {| WithdrawalRow.id := BackSafeWithdrawal.id w;
                       WithdrawalRow.user_id := u;
                       WithdrawalRow.date := BackSafeWithdrawal.date w;
                       WithdrawalRow.amount := BackSafeWithdrawal.amount w;
                       WithdrawalRow.reason := BackSafeWithdrawal.reason w;
                       WithdrawalRow.created_at := created_at;
                       WithdrawalRow.updated_at := now |}).
  pose proof (upsert_withdrawal_present s u payload E (fun _ => eq_refl)) as P.
  assert (S : s' = with_back_safe_transactions
                     (snd (Db.upsert_back_safe_withdrawals payload s))
                     (back_safe_transactions (snd (Db.upsert_back_safe_withdrawals payload s))
                      ++ [withdrawal_transaction u w txId (clock s)])).
  { unfold s', after, saveWithdrawal, bind at 1, getCurrentUser.
    rewrite E. unfold bind at 1. fold payload.
    destruct (Db.upsert_back_safe_withdrawals payload s) as [err s1].
    simpl in P. destruct P as [Hin [E1 [C1 [_ T1]]]]. simpl snd.
    unfold bind at 1, console_error, ret.
    unfold saveBackSafeTransaction, bind, getCurrentUser, Db.insert_back_safe_transactions,
      console_error, ret.
    cbv beta iota zeta. rewrite E1. cbv beta iota. rewrite E1, C1.
    cbn [BackSafeTransaction.id BackSafeTransaction.date BackSafeTransaction.type
         BackSafeTransaction.amount BackSafeTransaction.reason BackSafeTransaction.fromEntryId
         BackSafeTransaction.withdrawalId BackSafeTransaction.createdAt].
    fold (withdrawal_transaction u w txId (clock s)).
    assert (A : Db.allowed (for_insert policy_back_safe_transactions) u
                  (TransactionRow.user_id (withdrawal_transaction u w txId (clock s))) = true)
      by (unfold Db.allowed; simpl; apply String.eqb_refl).
    rewrite A. cbn [negb].
    assert (K : Db.mem (TransactionRow.id (withdrawal_transaction u w txId (clock s)))
                       (map TransactionRow.id (back_safe_transactions s1)) = false).
    { rewrite T1. apply existsb_none. intros x Hx. simpl. apply String.eqb_neq.
      intros ->. now apply Fresh. }
    rewrite K.
    assert (L : Db.link_ok (TransactionRow.entry_id (withdrawal_transaction u w txId (clock s)))
                           (map DailyEntryRow.id (daily_entries s1))
                && Db.link_ok (TransactionRow.withdrawal_id
                                 (withdrawal_transaction u w txId (clock s)))
                              (map WithdrawalRow.id (back_safe_withdrawals s1)) = true).
    { simpl. apply existsb_exists. exists (BackSafeWithdrawal.id w).
      split; [exact Hin | apply String.eqb_refl]. }
    rewrite L. reflexivity. }
  simpl in P. destruct P as [_ [E1 [_ [_ T1]]]].
  rewrite S. simpl. now rewrite T1.
Qed.

(** X13.  When the account is signed in, the two identifiers are new and
    the amount, of two decimals, does not exceed the balance the form
    holds, [handleSubmit] saves: the account gains one withdrawal of that
    amount and reason, dated by the day of [now], and the ledger gains one
    withdrawal transaction of the same amount, date and reason, linked to
    it. *)
Theorem handleSubmit_records_the_withdrawal (s : Store) (u : UUID)
    (currentBackSafe amountNum : Money) (reason id txId now : string) :
  session s = Some u ->
  (forall r, In r (back_safe_withdrawals s) -> WithdrawalRow.id r <> id) ->
  ~ In txId (map TransactionRow.id (back_safe_transactions s)) ->
  greater amountNum currentBackSafe = false ->
  DECIMAL_10_2 amountNum ->
  let attempt :=
    BackSafeWithdrawalSection.handleSubmit currentBackSafe amountNum reason id txId now in
  let saved_withdrawal :=
    {| BackSafeWithdrawal.id := id; BackSafeWithdrawal.date := split_T_0 now;
       BackSafeWithdrawal.amount := amountNum; BackSafeWithdrawal.reason := reason;
       BackSafeWithdrawal.createdAt := now |} in
  result attempt s = BackSafeWithdrawalSection.onWithdrawal
  /\ map withdrawal_figures (back_safe_withdrawals (after attempt s))
     = (map withdrawal_figures (back_safe_withdrawals s)
        ++ [(id, u, split_T_0 now, amountNum, reason)])%list
  /\ map transaction_figures (back_safe_transactions (after attempt s))
     = (map transaction_figures (back_safe_transactions s)
        ++ [(txId, u, split_T_0 now, TransactionType.withdrawal, amountNum, Some reason,
             None, Some id)])%list.
Proof.
  intros E FreshW Fresh N _ attempt.
  set (w := {| BackSafeWithdrawal.id := id; BackSafeWithdrawal.date := split_T_0 now;
               BackSafeWithdrawal.amount := amountNum; BackSafeWithdrawal.reason := reason;
               BackSafeWithdrawal.createdAt := now |}).
  assert (R : attempt s = (BackSafeWithdrawalSection.onWithdrawal,
                           after (saveWithdrawal w txId now) s)).
  { unfold attempt, BackSafeWithdrawalSection.handleSubmit. rewrite N.
    fold w. unfold bind, ret, after. now destruct (saveWithdrawal w txId now s) as [[] s1]. }
  destruct (saveWithdrawal_appends s u w txId now E Fresh) as [E' [T' W']].
  unfold result at 1, after at 1 2. rewrite R. simpl fst. simpl snd.
  split; [reflexivity|]. split; [|rewrite T', map_app; reflexivity].
  rewrite W'.
  match goal with
  | |- context [Db.upsert_back_safe_withdrawals ?payload s] =>
      rewrite (upsert_withdrawal_inserts s u payload E (fun _ => eq_refl) FreshW)
  end.
  rewrite map_app. reflexivity.
Qed.

Lemma handleSubmit_records_the_withdrawal_witness :
  let s := Sample.back_safe_200 in
  let attempt :=
    BackSafeWithdrawalSection.handleSubmit
      (result (BackSafeWithdrawalSection.loadCurrentBackSafe Sample.t0) s)
      200 "bank drop" "w-9" "t-w-9" Sample.t0 in
  greater 200 (result (BackSafeWithdrawalSection.loadCurrentBackSafe Sample.t0) s) = false
  /\ DECIMAL_10_2 200
  /\ map transaction_figures (back_safe_transactions (after attempt s))
     = [("t-0305", Sample.user, "2024-03-05", TransactionType.deposit, 200,
         Some "Transfer from front safe", None, None);
        ("t-w-9", Sample.user, "2024-03-12", TransactionType.withdrawal, 200,
         Some "bank drop", None, Some "w-9")]
  /\ backSafe_now (after attempt s) = 0.
Proof.
  intros s attempt.
  assert (D : DECIMAL_10_2 200) by (exists 20000%Z; split; reflexivity).
  split; [reflexivity|]. split; [exact D|]. split; [|reflexivity].
  refine (proj2 (proj2 (handleSubmit_records_the_withdrawal s Sample.user
                          (result (BackSafeWithdrawalSection.loadCurrentBackSafe Sample.t0) s)
                          200 "bank drop" "w-9" "t-w-9" Sample.t0 eq_refl _ _ eq_refl D))).
  - intros r [].
  - intros [H | []]. vm_compute in H. discriminate H.
Defined.

(* ================================================================= *)
(** ** Month close, continued *)

Lemma getEntriesForMonth_eq (month : string) (s : Store) :
  getEntriesForMonth month s
  = (filter (fun e => startsWith (DailyEntry.date e) month) (result getEntries s), s).
Proof.
  unfold getEntriesForMonth, bind, ret, result. now rewrite getEntries_eq.
Qed.

Lemma getWithdrawalsForMonth_eq (month : string) (s : Store) :
  getWithdrawalsForMonth month s
  = (filter (fun w => startsWith (BackSafeWithdrawal.date w) month) (result getWithdrawals s), s).
Proof.
  unfold getWithdrawalsForMonth, bind, ret, result. now rewrite getWithdrawals_eq.
Qed.

Lemma getEntriesForMonth_result (month : string) (s : Store) :
  result (getEntriesForMonth month) s
  = filter (fun e => startsWith (DailyEntry.date e) month) (result getEntries s).
Proof. unfold result at 1. now rewrite getEntriesForMonth_eq. Qed.

Lemma getWithdrawalsForMonth_result (month : string) (s : Store) :
  result (getWithdrawalsForMonth month) s
  = filter (fun w => startsWith (BackSafeWithdrawal.date w) month) (result getWithdrawals s).
Proof. unfold result at 1. now rewrite getWithdrawalsForMonth_eq. Qed.

Lemma getBalances_result (now : string) (s : Store) :
  result (getBalances now) s
  = {| SafeBalances.frontSafe :=
         match result getEntries s with
         | e :: _ => DailyEntry.leftInFront e
         | [] => 0
         end;
       SafeBalances.backSafe := fold_left backSafe_step (result getBackSafeTransactions s) 0;
       SafeBalances.lastUpdated := now |}.
Proof. unfold result at 1. now rewrite getBalances_eq. Qed.

Lemma getArchives_reads (s : Store) : getArchives s = (result getArchives s, s).
Proof. unfold result. now rewrite getArchives_eq. Qed.

Lemma closeMonth_eq (month generatedId now : string) (s : Store) :
  closeMonth month generatedId now s
  = match session s, result (getEntriesForMonth month) s with
    | Some _, _ :: _ =>
        (Some (closing_archive month now s),
         after (saveArchive (closing_archive month now s) generatedId now) s)
    | _, _ => (None, s)
    end.
Proof.
  unfold closing_archive, previous_archive.
  rewrite getBalances_result, getEntriesForMonth_result, getWithdrawalsForMonth_result.
  unfold closeMonth, bind at 1, getCurrentUser.
  destruct (session s) as [u|] eqn:E; [|reflexivity].
  unfold bind at 1. rewrite getBalances_eq.
  unfold bind at 1. rewrite getEntriesForMonth_eq.
  unfold bind at 1. rewrite getWithdrawalsForMonth_eq.
  unfold bind at 1. rewrite getArchives_reads.
  destruct (filter _ (result getEntries s)) as [|e es] eqn:F; [reflexivity|].
  unfold bind, ret, after. simpl SafeBalances.frontSafe. simpl SafeBalances.backSafe.
  match goal with
  | |- context [saveArchive ?a generatedId now s] =>
      destruct (saveArchive a generatedId now s) as [[] s2] eqn:S
  end.
  simpl. reflexivity.
Qed.

(** X14.  [closeMonth(month)] returns [null] exactly when nobody is
    signed in or the account has no entry whose date starts with the month.
    Otherwise it returns an archive closed at [now] whose ending balances
    are the balances of the whole account at the moment of the call, and
    whose entries and withdrawals are those of the month. *)
Theorem closeMonth_returns_current_balances (s : Store) (month generatedId now : string) :
  (result (closeMonth month generatedId now) s = None
   <-> session s = None
       \/ filter (fun e => startsWith (DailyEntry.date e) month) (result getEntries s) = [])
  /\ forall archive, result (closeMonth month generatedId now) s = Some archive ->
       MonthlyArchive.month archive = month
       /\ MonthlyArchive.isClosed archive = true
       /\ MonthlyArchive.closedAt archive = Some now
       /\ MonthlyArchive.endingFrontSafe archive
          = SafeBalances.frontSafe (result (getBalances now) s)
       /\ MonthlyArchive.endingBackSafe archive
          = SafeBalances.backSafe (result (getBalances now) s)
       /\ MonthlyArchive.entries archive
          = filter (fun e => startsWith (DailyEntry.date e) month) (result getEntries s)
       /\ MonthlyArchive.withdrawals archive
          = filter (fun w => startsWith (BackSafeWithdrawal.date w) month)
                   (result getWithdrawals s).
Proof.
  unfold result at 1 3. rewrite closeMonth_eq, getEntriesForMonth_result.
  destruct (session s) as [u|]; simpl.
  - destruct (filter _ (result getEntries s)) as [|e es] eqn:F; simpl.
    + split; [split; auto | discriminate].
    + split; [split; [discriminate | intros [H | H]; discriminate]|].
      intros archive [= <-]. unfold closing_archive. simpl.
      rewrite getEntriesForMonth_result, getWithdrawalsForMonth_result.
      now rewrite F.
  - split; [split; auto | discriminate].
Qed.

Lemma saveArchive_eq (s : Store) (u : UUID) (archive : MonthlyArchive.t)
    (generatedId now : string) :
  session s = Some u ->
  after (saveArchive archive generatedId now) s
  = if existsb (fun o => String.eqb (ArchiveRow.id o) generatedId
                         || (String.eqb (ArchiveRow.user_id o) u
                             && String.eqb (ArchiveRow.month o) (MonthlyArchive.month archive)))
               (monthly_archives s)
    then s
    else with_monthly_archives s
           (monthly_archives s ++ [row_of_archive u archive generatedId now (clock s)]).
Proof.
  intros E.
  unfold after, saveArchive, bind, getCurrentUser, Db.upsert_monthly_archives,
    console_error, ret.
  cbv beta iota zeta. rewrite E. cbv beta iota. rewrite E.
  fold (row_of_archive u archive generatedId now (clock s)).
  assert (A : Db.allowed (for_insert policy_monthly_archives) u
                (ArchiveRow.user_id (row_of_archive u archive generatedId now (clock s))) = true)
    by (unfold Db.allowed; simpl; apply String.eqb_refl).
  rewrite A. cbn [negb]. simpl ArchiveRow.id. simpl ArchiveRow.user_id. simpl ArchiveRow.month.
  now destruct (existsb _ (monthly_archives s)).
Qed.

(** X15.  Closing a month that already has an archive row of the account
    writes nothing: the row of the first close stays as it is, whatever the
    call returns. *)
Theorem closeMonth_again_writes_nothing (s : Store) (u : UUID)
    (month generatedId now : string) (o : ArchiveRow.row) :
  session s = Some u ->
  In o (monthly_archives s) ->
  ArchiveRow.user_id o = u ->
  ArchiveRow.month o = month ->
  after (closeMonth month generatedId now) s = s.
Proof.
  intros E Ho Hu Hm. unfold after at 1. rewrite closeMonth_eq, E.
  destruct (result (getEntriesForMonth month) s) as [|e es]; [reflexivity|].
  simpl snd. rewrite (saveArchive_eq s u _ generatedId now E).
  assert (X : existsb (fun o0 => String.eqb (ArchiveRow.id o0) generatedId
                         || (String.eqb (ArchiveRow.user_id o0) u
                             && String.eqb (ArchiveRow.month o0)
                                  (MonthlyArchive.month (closing_archive month now s))))
                      (monthly_archives s) = true).
  { apply existsb_exists. exists o. split; [exact Ho|].
    simpl. rewrite Hu, Hm, !String.eqb_refl. apply orb_true_r. }
  now rewrite X.
Qed.

Lemma closeMonth_again_writes_nothing_witness :
  let closed := after (closeMonth "2024-03" "a-03" Sample.t0) Sample.with_archives in
  let again := closeMonth "2024-03" "a-03-again" "2024-04-02T08:00:00.000Z" in
  List.length (result (getEntriesForMonth "2024-03") closed) = 2%nat
  /\ map MonthlyArchive.month (result getArchives closed)
     = ["2024-04"; "2024-03"; "2024-02"; "2024-01"; "2023-12"]
  /\ option_map MonthlyArchive.month (result again closed) = Some "2024-03"
  /\ after again closed = closed.
Proof.
  intros closed again.
  split; [reflexivity|]. split; [reflexivity|]. split; [reflexivity|].
  refine (closeMonth_again_writes_nothing closed Sample.user "2024-03" "a-03-again"
            "2024-04-02T08:00:00.000Z"
            (row_of_archive Sample.user
               (closing_archive "2024-03" Sample.t0 Sample.with_archives) "a-03" Sample.t0
               (clock Sample.with_archives))
            eq_refl _ eq_refl eq_refl).
  do 4 right. left. reflexivity.
Defined.

(** X16.  The first close of a month is stored, and a later month starts
    from it: when no archive row of the account has the month yet, the
    generated identifier is new, the amounts of the archive are of two
    decimals and no closed archive of the account lies between the two
    months, the table gains one closed row of the account and the month with
    the starting and ending balances of the archive returned, and
    [getMonthStartingBalances] of the later month returns its ending
    balances. *)
Theorem closeMonth_then_getMonthStartingBalances (s : Store) (u : UUID)
    (month month' generatedId now : string) (archive : MonthlyArchive.t) :
  session s = Some u ->
  result (closeMonth month generatedId now) s = Some archive ->
  (forall o, In o (monthly_archives s) ->
     ArchiveRow.id o <> generatedId
     /\ ~ (ArchiveRow.user_id o = u /\ ArchiveRow.month o = month)) ->
  String.ltb month month' = true ->
  (forall q, In q (account_archives s) -> ArchiveRow.is_closed q = true ->
     String.ltb (ArchiveRow.month q) month' = true ->
     String.leb (ArchiveRow.month q) month = true) ->
  archive_amounts_fit archive ->
  map archive_row_balances (monthly_archives (after (closeMonth month generatedId now) s))
  = (map archive_row_balances (monthly_archives s)
     ++ [(u, month, MonthlyArchive.startingFrontSafe archive,
          MonthlyArchive.startingBackSafe archive, MonthlyArchive.endingFrontSafe archive,
          MonthlyArchive.endingBackSafe archive, true)])%list
  /\ result (getMonthStartingBalances month')
            (after (closeMonth month generatedId now) s)
     = (MonthlyArchive.endingFrontSafe archive, MonthlyArchive.endingBackSafe archive).
Proof.
  intros E R New Hlt Between _.
  unfold result in R. unfold after. rewrite closeMonth_eq, E in *.
  destruct (result (getEntriesForMonth month) s) as [|e es]; [discriminate|].
  simpl in R. injection R as <-. simpl snd.
  rewrite (saveArchive_eq s u _ generatedId now E).
  set (a := closing_archive month now s).
  set (row := row_of_archive u a generatedId now (clock s)).
  assert (X : existsb (fun o => String.eqb (ArchiveRow.id o) generatedId
                         || (String.eqb (ArchiveRow.user_id o) u
                             && String.eqb (ArchiveRow.month o) (MonthlyArchive.month a)))
                      (monthly_archives s) = false).
  { apply existsb_none. intros o Ho. destruct (New o Ho) as [Hid Hum].
    apply String.eqb_neq in Hid. rewrite Hid. simpl.
    destruct (String.eqb (ArchiveRow.user_id o) u) eqn:U; [|reflexivity].
    destruct (String.eqb (ArchiveRow.month o) month) eqn:M; [|reflexivity].
    apply String.eqb_eq in U, M. now destruct Hum. }
  rewrite X. split; [simpl; rewrite map_app; reflexivity|].
  set (s' := with_monthly_archives s (monthly_archives s ++ [row])).
  assert (Acc : account_archives s' = (account_archives s ++ [row])%list).
  { unfold account_archives, archives_of, s'. simpl. rewrite E, filter_app. simpl.
    now rewrite String.eqb_refl. }
  rewrite getMonthStartingBalances_eq.
  pose proof (previous_archive_row month' s') as P.
  destruct (previous_archive month' s') as [p|].
  - destruct P as [r [-> [Hin [Hc [Hr Hmax]]]]].
    rewrite Acc in Hin, Hmax. apply in_app_or in Hin.
    destruct Hin as [Hin | [<- | []]]; [exfalso | reflexivity].
    assert (Up : String.leb month (ArchiveRow.month r) = true).
    { apply (Hmax row); [apply in_or_app; right; now left | reflexivity | exact Hlt]. }
    assert (Eq : ArchiveRow.month r = month).
    { apply String.leb_antisym; [now apply Between | exact Up]. }
    unfold account_archives, archives_of in Hin. rewrite E in Hin.
    apply filter_In in Hin. destruct Hin as [Hin Hu]. apply String.eqb_eq in Hu.
    destruct (New r Hin) as [_ N]. now apply N.
  - exfalso. apply (P row).
    + rewrite Acc. apply in_or_app. right. now left.
    + split; [reflexivity | exact Hlt].
Qed.

Lemma closeMonth_then_getMonthStartingBalances_witness :
  let s := Sample.with_archives in
  let archive := closing_archive "2024-03" Sample.t0 s in
  archive_balances archive = ("2024-03", 300, 400, 300, 0)
  /\ archive_amounts_fit archive
  /\ result (getMonthStartingBalances "2024-04") s = (300, 400)
  /\ result (getMonthStartingBalances "2024-04") (after (closeMonth "2024-03" "a-03" Sample.t0) s)
     = (300, 0).
Proof.
  intros s archive.
  assert (F : archive_amounts_fit archive).
  { repeat split; [exists 30000%Z | exists 40000%Z | exists 30000%Z | exists 0%Z];
      (split; reflexivity). }
  split; [reflexivity|]. split; [exact F|]. split; [reflexivity|].
  refine (proj2 (closeMonth_then_getMonthStartingBalances s Sample.user
                   "2024-03" "2024-04" "a-03" Sample.t0 archive
                   eq_refl eq_refl _ eq_refl _ F)).
  - intros o [<- | [<- | [<- | [<- | []]]]]; split;
      try (intros H; vm_compute in H; discriminate H);
      intros [_ H]; vm_compute in H; discriminate H.
  - intros q [<- | [<- | [<- | [<- | []]]]]; intros C L; try reflexivity; discriminate.
Defined.

(* ================================================================= *)
(** ** The list of months *)

Lemma mem_In (x : string) (l : list string) : Db.mem x l = true <-> In x l.
Proof.
  unfold Db.mem. rewrite existsb_exists. split.
  - intros [y [Hy Q]]. apply String.eqb_eq in Q. now subst.
  - intros H. exists x. split; [exact H | apply String.eqb_refl].
Qed.

Lemma Set_add_In (months : list string) (m x : string) :
  In x (Set_add months m) <-> In x months \/ x = m.
Proof.
  unfold Set_add. destruct (Db.mem m months) eqn:M.
  - apply mem_In in M. split; [auto | intros [H | ->]; assumption].
  - rewrite in_app_iff. simpl. intuition.
Qed.

Lemma Set_add_NoDup (months : list string) (m : string) :
  NoDup months -> NoDup (Set_add months m).
Proof.
  intros N. unfold Set_add. destruct (Db.mem m months) eqn:M; [exact N|].
  apply NoDup_app; [exact N | repeat constructor; intros [] |].
  intros x Hx [<- | []]. apply mem_In in Hx. congruence.
Qed.

Section SetFold.
Context {A : Type} (f : A -> string).

Lemma fold_Set_add_In (l : list A) (init : list string) (x : string) :
  In x (fold_left (fun ms a => Set_add ms (f a)) l init)
  <-> In x init \/ exists a, In a l /\ f a = x.
Proof.
  revert init. induction l as [|a l IH]; intros init; simpl.
  - split; [auto | intros [H | [a [[] _]]]; exact H].
  - rewrite IH, Set_add_In. split.
    + intros [[H | ->] | [b [Hb Q]]]; eauto.
    + intros [H | [b [[<- | Hb] Q]]]; eauto.
Qed.

Lemma fold_Set_add_NoDup (l : list A) (init : list string) :
  NoDup init -> NoDup (fold_left (fun ms a => Set_add ms (f a)) l init).
Proof.
  revert init. induction l as [|a l IH]; intros init N; simpl; [exact N|].
  apply IH. now apply Set_add_NoDup.
Qed.

End SetFold.

Lemma sorted_NoDup_strict (l : list string) :
  StronglySorted (not_smaller (fun m => m)) l -> NoDup l ->
  StronglySorted (fun a b => String.ltb b a = true) l.
Proof.
  induction 1 as [|x l Hl IH Hx]; intros N; constructor.
  - apply IH. now inversion N.
  - inversion N as [|? ? Hnot _]; subst.
    rewrite Forall_forall in *. intros y Hy.
    specialize (Hx y Hy). unfold not_smaller in Hx.
    apply leb_le in Hx. destruct Hx as [-> | Hx]; [contradiction | now apply ltb_lt].
Qed.

Lemma getAvailableMonths_eq (now : string) (s : Store) :
  result (getAvailableMonths now) s
  = order_desc (fun m => m)
      (fold_left (fun ms a => Set_add ms (MonthlyArchive.month a)) (result getArchives s)
         (fold_left (fun ms e => Set_add ms (slice_0_7 (DailyEntry.date e)))
            (result getEntries s) (Set_add [] (getCurrentMonth now)))).
Proof.
  unfold result, getAvailableMonths, bind, ret.
  rewrite getEntries_eq. now rewrite getArchives_eq.
Qed.

(** X17.  [getAvailableMonths()] lists exactly the current month, the
    months of the entries of the account and the months of its archives,
    each once, in strictly decreasing order. *)
Theorem getAvailableMonths_lists_each_month_once (s : Store) (now : string) :
  let months := result (getAvailableMonths now) s in
  (forall m, In m months
     <-> m = getCurrentMonth now
         \/ (exists e, In e (result getEntries s) /\ slice_0_7 (DailyEntry.date e) = m)
         \/ (exists a, In a (result getArchives s) /\ MonthlyArchive.month a = m))
  /\ NoDup months
  /\ StronglySorted (fun a b => String.ltb b a = true) months.
Proof.
  intros months. unfold months. rewrite getAvailableMonths_eq.
  assert (N : NoDup
                (fold_left (fun ms a => Set_add ms (MonthlyArchive.month a)) (result getArchives s)
                   (fold_left (fun ms e => Set_add ms (slice_0_7 (DailyEntry.date e)))
                      (result getEntries s) (Set_add [] (getCurrentMonth now))))).
  { apply fold_Set_add_NoDup, fold_Set_add_NoDup, Set_add_NoDup. constructor. }
  assert (N' : NoDup (order_desc (fun m : string => m)
                (fold_left (fun ms a => Set_add ms (MonthlyArchive.month a)) (result getArchives s)
                   (fold_left (fun ms e => Set_add ms (slice_0_7 (DailyEntry.date e)))
                      (result getEntries s) (Set_add [] (getCurrentMonth now)))))).
  { eapply Permutation_NoDup; [symmetry; apply order_desc_Permutation | exact N]. }
  split; [|split; [exact N' | apply sorted_NoDup_strict; [apply order_desc_sorted | exact N']]].
  intros m. rewrite order_desc_In, fold_Set_add_In, fold_Set_add_In, Set_add_In. simpl.
  split.
  - intros [[[[] | ->] | H] | H]; auto.
  - intros [-> | [H | H]]; auto.
Qed.

Lemma prefix_substring (s : string) (n : nat) : String.prefix (String.substring 0 n s) s = true.
Proof.
  revert n. induction s as [|c s IH]; intros [|n]; simpl; try reflexivity.
  destruct (ascii_dec c c) as [_ | N]; [apply IH | now destruct N].
Qed.

(** X18.  Every entry of the account is reachable through the months:
    the month of its date, [date.slice(0, 7)], is in
    [getAvailableMonths()], and [getEntriesForMonth] of that month
    returns the entry. *)
Theorem every_entry_is_listed_under_its_month (s : Store) (now : string) (e : DailyEntry.t) :
  In e (result getEntries s) ->
  In (slice_0_7 (DailyEntry.date e)) (result (getAvailableMonths now) s)
  /\ In e (result (getEntriesForMonth (slice_0_7 (DailyEntry.date e))) s).
Proof.
  intros He. split.
  - rewrite getAvailableMonths_eq, order_desc_In, fold_Set_add_In, fold_Set_add_In.
    left. right. now exists e.
  - rewrite getEntriesForMonth_result. apply filter_In. split; [exact He|].
    apply prefix_substring.
Qed.

Lemma every_entry_is_listed_under_its_month_witness :
  In "2024-03" (result (getAvailableMonths "2024-05-02T08:00:00.000Z") Sample.two_entries)
  /\ List.length (result (getEntriesForMonth "2024-03") Sample.two_entries) = 2%nat.
Proof.
  split; [|reflexivity].
  refine (proj1 (every_entry_is_listed_under_its_month Sample.two_entries
                   "2024-05-02T08:00:00.000Z"
                   (saved (Sample.entry "e-0310" "2024-03-10" 100 600 400 0 300)
                          Sample.t0 (clock Sample.empty)) _)).
  left. reflexivity.
Defined.

(* ================================================================= *)
(** ** The tabs of the ledger view *)



(* ================================================================= *)
(** ** One account cannot write into another *)

Lemma filter_map_untouched {A : Type} (p : A -> bool) (g : A -> A) (l : list A) :
  (forall r, In r l -> p (g r) = p r /\ (p r = true -> g r = r)) ->
  filter p (map g l) = filter p l.
Proof.
  induction l as [|x l IH]; intros H; simpl; [reflexivity|].
  destruct (H x (or_introl eq_refl)) as [H1 H2]. rewrite H1.
  rewrite IH by (intros r Hr; apply H; now right).
  destruct (p x) eqn:Px; [now rewrite H2 | reflexivity].
Qed.

Lemma filter_untouched {A : Type} (p q : A -> bool) (l : list A) :
  (forall r, In r l -> p r = true -> q r = true) ->
  filter p (filter q l) = filter p l.
Proof.
  induction l as [|x l IH]; intros H; simpl; [reflexivity|].
  destruct (q x) eqn:Qx; simpl.
  - rewrite IH by (intros r Hr; apply H; now right). reflexivity.
  - destruct (p x) eqn:Px.
    + rewrite (H x (or_introl eq_refl) Px) in Qx. discriminate.
    + apply IH. intros r Hr; apply H; now right.
Qed.

Lemma filter_snoc_other {A : Type} (p : A -> bool) (l : list A) (x : A) :
  p x = false -> filter p (l ++ [x]) = filter p l.
Proof. intros H. rewrite filter_app. simpl. rewrite H. apply app_nil_r. Qed.

Lemma NoDup_same_key {A : Type} (f : A -> string) (l : list A) (a b : A) :
  NoDup (map f l) -> In a l -> In b l -> f a = f b -> a = b.
Proof.
  induction l as [|x l IH]; simpl; intros N Ha Hb Q; [destruct Ha|].
  inversion N as [|? ? Hnot N']; subst.
  destruct Ha as [-> | Ha], Hb as [-> | Hb]; auto.
  - exfalso. apply Hnot. rewrite Q. now apply in_map.
  - exfalso. apply Hnot. rewrite <- Q. now apply in_map.
Qed.

Lemma other_user (u v owner : UUID) :
  u <> v -> String.eqb owner v = true -> String.eqb owner u = false.
Proof.
  intros N H. apply String.eqb_eq in H. subst owner.
  apply String.eqb_neq. congruence.
Qed.

Lemma same_for_refl (v : UUID) (s : Store) : same_for v s s.
Proof. repeat split. Qed.

Lemma same_for_trans (v : UUID) (s1 s2 s3 : Store) :
  same_for v s1 s2 -> same_for v s2 s3 -> same_for v s1 s3.
Proof.
  intros [A1 [B1 [C1 D1]]] [A2 [B2 [C2 D2]]].
  repeat split; congruence.
Qed.

Lemma getBalances_canonical (now : string) (s : Store) :
  result (getBalances now) s
  = {| SafeBalances.frontSafe :=
         match result getEntries s with
         | e :: _ => DailyEntry.leftInFront e
         | [] => 0
         end;
       SafeBalances.backSafe :=
         fold_left add_movement
                   (order_desc movement_date (map movement (account_ledger s))) 0;
       SafeBalances.lastUpdated := now |}.
Proof.
  pose proof (backSafe_movements now s) as B.
  rewrite getBalances_result in *. simpl in B. now rewrite B.
Qed.

Lemma same_for_reads (now : string) (v : UUID) (s s' : Store) :
  same_for v s s' -> reads now (as_user v s') = reads now (as_user v s).
Proof.
  intros [A [B [C D]]].
  assert (Es : result getEntries (as_user v s') = result getEntries (as_user v s)).
  { unfold result. rewrite !getEntries_eq. unfold account_entries. simpl. now rewrite A. }
  assert (Ew : result getWithdrawals (as_user v s') = result getWithdrawals (as_user v s)).
  { unfold result. rewrite !getWithdrawals_eq. unfold account_withdrawals. simpl.
    now rewrite B. }
  assert (Ea : result getArchives (as_user v s') = result getArchives (as_user v s)).
  { unfold result. rewrite !getArchives_eq. unfold account_archives. simpl.
    unfold archives_of in *. simpl. now rewrite C. }
  assert (El : map movement (account_ledger (as_user v s'))
               = map movement (account_ledger (as_user v s))) by exact D.
  unfold reads. now rewrite !getBalances_canonical, Es, Ew, Ea, El.
Qed.

Section Isolation.
Variables (u v : UUID) (s : Store).
Hypothesis signed_in : session s = Some u.
Hypothesis other : u <> v.

Lemma upsert_daily_entries_same_for (payload : string -> DailyEntryRow.row) :
  (forall created, DailyEntryRow.user_id (payload created) = u) ->
  NoDup (map DailyEntryRow.id (daily_entries s)) ->
  same_for v s (snd (Db.upsert_daily_entries payload s)).
Proof.
  intros U' N. unfold Db.upsert_daily_entries. cbv zeta. rewrite signed_in.
  pose proof (U' (clock s)) as U. set (r := payload (clock s)) in *.
  destruct (negb _); [apply same_for_refl|].
  destruct (Db.date_taken r (daily_entries s)); [apply same_for_refl|].
  assert (Rv : String.eqb (DailyEntryRow.user_id r) v = false)
    by (rewrite U; apply String.eqb_neq; exact other).
  destruct (find _ (daily_entries s)) as [old|] eqn:F.
  - destruct (Db.allowed _ u (DailyEntryRow.user_id old)) eqn:A; [|apply same_for_refl].
    apply find_some in F. destruct F as [Hold Hid]. apply String.eqb_eq in Hid.
    unfold Db.allowed in A. simpl in A. 
    repeat split. simpl.
    apply filter_map_untouched. intros o Ho.
    destruct (String.eqb (DailyEntryRow.id o) (DailyEntryRow.id r)) eqn:Q.
    + apply String.eqb_eq in Q.
      assert (o = old)
        by (apply (NoDup_same_key DailyEntryRow.id (daily_entries s));
            [exact N | exact Ho | exact Hold | congruence]).
      subst o. apply String.eqb_eq in A.
      assert (Ov : String.eqb (DailyEntryRow.user_id old) v = false)
        by (rewrite A; apply String.eqb_neq; exact other).
      simpl. rewrite Rv, Ov. split; [reflexivity | discriminate].
    + split; [reflexivity | reflexivity].
  - repeat split. simpl. now apply filter_snoc_other.
Qed.

Lemma upsert_back_safe_withdrawals_same_for (payload : string -> WithdrawalRow.row) :
  (forall created, WithdrawalRow.user_id (payload created) = u) ->
  NoDup (map WithdrawalRow.id (back_safe_withdrawals s)) ->
  same_for v s (snd (Db.upsert_back_safe_withdrawals payload s)).
Proof.
  intros U' N. unfold Db.upsert_back_safe_withdrawals. cbv zeta. rewrite signed_in.
  pose proof (U' (clock s)) as U. set (r := payload (clock s)) in *.
  destruct (negb _); [apply same_for_refl|].
  assert (Rv : String.eqb (WithdrawalRow.user_id r) v = false)
    by (rewrite U; apply String.eqb_neq; exact other).
  destruct (find _ (back_safe_withdrawals s)) as [old|] eqn:F.
  - destruct (Db.allowed _ u (WithdrawalRow.user_id old)) eqn:A; [|apply same_for_refl].
    apply find_some in F. destruct F as [Hold Hid]. apply String.eqb_eq in Hid.
    unfold Db.allowed in A. simpl in A.
    repeat split. simpl.
    apply filter_map_untouched. intros o Ho.
    destruct (String.eqb (WithdrawalRow.id o) (WithdrawalRow.id r)) eqn:Q.
    + apply String.eqb_eq in Q.
      assert (o = old)
        by (apply (NoDup_same_key WithdrawalRow.id (back_safe_withdrawals s));
            [exact N | exact Ho | exact Hold | congruence]).
      subst o. apply String.eqb_eq in A.
      assert (Ov : String.eqb (WithdrawalRow.user_id old) v = false)
        by (rewrite A; apply String.eqb_neq; exact other).
      simpl. rewrite Rv, Ov. split; [reflexivity | discriminate].
    + split; reflexivity.
  - repeat split. simpl. now apply filter_snoc_other.
Qed.

Lemma update_daily_entries_same_for (f : DailyEntryRow.row -> DailyEntryRow.row) (id : UUID) :
  (forall r, DailyEntryRow.user_id (f r) = DailyEntryRow.user_id r) ->
  same_for v s (snd (Db.update_daily_entries f id u s)).
Proof.
  intros K. unfold Db.update_daily_entries. rewrite signed_in.
  repeat split. simpl. apply filter_map_untouched. intros r _.
  unfold Db.allowed. simpl.
  destruct (String.eqb (DailyEntryRow.user_id r) u) eqn:Q; simpl.
  - apply String.eqb_eq in Q.
    assert (String.eqb (DailyEntryRow.user_id r) v = false)
      by (rewrite Q; apply String.eqb_neq; exact other).
    destruct (String.eqb (DailyEntryRow.id r) id); simpl; rewrite ?K; split; congruence.
  - split; reflexivity.
Qed.

Lemma update_back_safe_withdrawals_same_for (f : WithdrawalRow.row -> WithdrawalRow.row)
    (id : UUID) :
  (forall r, WithdrawalRow.user_id (f r) = WithdrawalRow.user_id r) ->
  same_for v s (snd (Db.update_back_safe_withdrawals f id u s)).
Proof.
  intros K. unfold Db.update_back_safe_withdrawals. rewrite signed_in.
  repeat split. simpl. apply filter_map_untouched. intros r _.
  unfold Db.allowed. simpl.
  destruct (String.eqb (WithdrawalRow.user_id r) u) eqn:Q; simpl.
  - apply String.eqb_eq in Q.
    assert (String.eqb (WithdrawalRow.user_id r) v = false)
      by (rewrite Q; apply String.eqb_neq; exact other).
    destruct (String.eqb (WithdrawalRow.id r) id); simpl; rewrite ?K; split; congruence.
  - split; reflexivity.
Qed.

Lemma delete_daily_entries_same_for (id : UUID) :
  same_for v s (snd (Db.delete_daily_entries id u s)).
Proof.
  unfold Db.delete_daily_entries. rewrite signed_in.
  repeat split; simpl.
  - apply filter_untouched. intros r _ Hv.
    unfold Db.allowed. simpl. rewrite (other_user u v _ other Hv). reflexivity.
  - unfold ledger. simpl. apply relinked_movements. intros r. apply entry_id_set_null_keeps.
Qed.

Lemma delete_back_safe_withdrawals_same_for (id : UUID) :
  same_for v s (snd (Db.delete_back_safe_withdrawals id u s)).
Proof.
  unfold Db.delete_back_safe_withdrawals. rewrite signed_in.
  repeat split; simpl.
  - apply filter_untouched. intros r _ Hv.
    unfold Db.allowed. simpl. rewrite (other_user u v _ other Hv). reflexivity.
  - unfold ledger. simpl. apply relinked_movements. intros r.
    apply withdrawal_id_set_null_keeps.
Qed.

Lemma delete_back_safe_transactions_same_for (id : UUID) :
  same_for v s (snd (Db.delete_back_safe_transactions id s)).
Proof.
  unfold Db.delete_back_safe_transactions. rewrite signed_in.
  repeat split. unfold ledger. simpl.
  now rewrite (filter_all (fun _ => true)) by reflexivity.
Qed.

Lemma insert_back_safe_transactions_same_for (payload : string -> TransactionRow.row) :
  (forall created, TransactionRow.user_id (payload created) = u) ->
  same_for v s (snd (Db.insert_back_safe_transactions payload s)).
Proof.
  intros U'. unfold Db.insert_back_safe_transactions. cbv zeta. rewrite signed_in.
  pose proof (U' (clock s)) as U. set (r := payload (clock s)) in *.
  destruct (negb _); [apply same_for_refl|].
  destruct (Db.mem _ _); [apply same_for_refl|].
  destruct (negb _); [apply same_for_refl|].
  repeat split. unfold ledger. simpl. rewrite filter_snoc_other; [reflexivity|].
  rewrite U. apply String.eqb_neq. exact other.
Qed.

Lemma upsert_monthly_archives_same_for (payload : string -> ArchiveRow.row) :
  (forall created, ArchiveRow.user_id (payload created) = u) ->
  same_for v s (snd (Db.upsert_monthly_archives payload s)).
Proof.
  intros U'. unfold Db.upsert_monthly_archives. cbv zeta. rewrite signed_in.
  pose proof (U' (clock s)) as U. set (r := payload (clock s)) in *.
  destruct (negb _); [apply same_for_refl|].
  destruct (existsb _ _); [apply same_for_refl|].
  repeat split. unfold archives_of. simpl. apply filter_snoc_other.
  rewrite U. apply String.eqb_neq. exact other.
Qed.

End Isolation.

Lemma perform_same_for (s : Store) (u v : UUID) (w : Write) :
  session s = Some u -> u <> v -> keyed s ->
  same_for v s (after (perform w) s).
Proof.
  intros E N [Ke Kw]. destruct w; unfold perform.
  - unfold saveEntry. enter_api E.
    now apply (upsert_daily_entries_same_for u v s E N).
  - unfold deleteEntry. enter_api E.
    now apply (delete_daily_entries_same_for u v s E N).
  - unfold approveEntry. enter_api E.
    now apply (update_daily_entries_same_for u v s E N).
  - unfold removeApproval. enter_api E.
    now apply (update_daily_entries_same_for u v s E N).
  - unfold after, saveWithdrawal, bind at 1, getCurrentUser. rewrite E. unfold bind at 1.
    match goal with
    | |- context [Db.upsert_back_safe_withdrawals ?r s] =>
        pose proof (upsert_withdrawal_present s u r E (fun _ => eq_refl)) as P;
        pose proof (upsert_back_safe_withdrawals_same_for u v s E N r (fun _ => eq_refl) Kw) as Q;
        destruct (Db.upsert_back_safe_withdrawals r s) as [err s1]
    end.
    simpl in P, Q. destruct P as [_ [E1 _]].
    apply (same_for_trans v s s1); [exact Q|].
    unfold bind at 1, console_error, ret. unfold saveBackSafeTransaction.
    enter_api E1.
    now apply (insert_back_safe_transactions_same_for u v s1 E1 N).
  - unfold after, deleteWithdrawal, bind at 1, getCurrentUser. rewrite E. unfold bind at 1.
    pose proof (delete_back_safe_withdrawals_same_for u v s E N id) as Q.
    assert (E1 : session (snd (Db.delete_back_safe_withdrawals id u s)) = Some u)
      by (unfold Db.delete_back_safe_withdrawals; now rewrite E).
    destruct (Db.delete_back_safe_withdrawals id u s) as [err s1]. simpl in Q, E1.
    apply (same_for_trans v s s1); [exact Q|].
    unfold bind, console_error, ret.
    pose proof (delete_back_safe_transactions_same_for u v s1 E1 id) as Q'.
    destruct (Db.delete_back_safe_transactions id s1) as [err' s2]. exact Q'.
  - unfold updateWithdrawal. enter_api E.
    now apply (update_back_safe_withdrawals_same_for u v s E N).
  - unfold saveBackSafeTransaction. enter_api E.
    now apply (insert_back_safe_transactions_same_for u v s E N).
  - unfold saveArchive. enter_api E.
    now apply (upsert_monthly_archives_same_for u v s E N).
  - unfold after, bind, ret. rewrite closeMonth_eq, E.
    destruct (result (getEntriesForMonth month) s); [apply same_for_refl|].
    simpl. unfold saveArchive. enter_api E.
    now apply (upsert_monthly_archives_same_for u v s E N).
Qed.

(** X20.  Whatever an account writes through the store, another account
    reads the same entries, withdrawals, archives and balances as before
    (the two tables written by upsert having their primary key). *)
Theorem writes_stay_within_the_account (s : Store) (u v : UUID) (w : Write) (now : string) :
  session s = Some u -> u <> v -> keyed s ->
  reads now (as_user v (after (perform w) s)) = reads now (as_user v s).
Proof.
  intros E N K. apply same_for_reads. now apply perform_same_for with u.
Qed.

Lemma writes_stay_within_the_account_witness :
  reads Sample.t0 (as_user TwoAccounts.other_user
                     (after (perform (DeleteWithdrawal "w-1")) TwoAccounts.store))
  = reads Sample.t0 (as_user TwoAccounts.other_user TwoAccounts.store)
  /\ SafeBalances.backSafe
       (result (getBalances Sample.t0) (as_user TwoAccounts.other_user TwoAccounts.store))
     = 70.
Proof.
  split; [|reflexivity].
  refine (writes_stay_within_the_account TwoAccounts.store Sample.user TwoAccounts.other_user
            (DeleteWithdrawal "w-1") Sample.t0 eq_refl _ _).
  - intros H. vm_compute in H. discriminate H.
  - split; repeat constructor; simpl; tauto.
Defined.

(* ================================================================= *)
(** ** The constraints of the schema hold in every reachable database *)

Lemma NoDup_map_filter {A : Type} (f : A -> string) (p : A -> bool) (l : list A) :
  NoDup (map f l) -> NoDup (map f (filter p l)).
Proof.
  induction l as [|x l IH]; simpl; intros N; [constructor|].
  inversion N as [|? ? Hnot N']; subst.
  destruct (p x); simpl; [|now apply IH].
  constructor; [|now apply IH].
  intros H. apply Hnot. apply in_map_iff in H. destruct H as [y [Q Hy]].
  apply filter_In in Hy. rewrite <- Q. now apply in_map.
Qed.

Lemma NoDup_snoc {A : Type} (l : list A) (x : A) : NoDup l -> ~ In x l -> NoDup (l ++ [x]).
Proof.
  intros N H. apply NoDup_app; [exact N | repeat constructor; intros [] |].
  intros y Hy [<- | []]. now apply H.
Qed.

Lemma map_key_kept {A : Type} (f : A -> string) (g : A -> A) (l : list A) :
  (forall x, f (g x) = f x) -> map f (map g l) = map f l.
Proof. intros H. rewrite map_map. now apply map_ext. Qed.

Lemma find_id_none {A : Type} (f : A -> string) (i : UUID) (l : list A) :
  find (fun o => String.eqb (f o) i) l = None -> ~ In i (map f l).
Proof.
  intros F H. apply in_map_iff in H. destruct H as [x [Q Hx]].
  pose proof (find_none _ _ F x Hx) as K. simpl in K.
  rewrite Q, String.eqb_refl in K. discriminate.
Qed.

Lemma date_taken_false (r : DailyEntryRow.row) (rows : list DailyEntryRow.row)
    (o : DailyEntryRow.row) :
  Db.date_taken r rows = false -> In o rows ->
  DailyEntryRow.user_id o = DailyEntryRow.user_id r ->
  DailyEntryRow.date o = DailyEntryRow.date r ->
  DailyEntryRow.id o = DailyEntryRow.id r.
Proof.
  intros T Ho U D.
  destruct (String.eqb (DailyEntryRow.id o) (DailyEntryRow.id r)) eqn:Q;
    [now apply String.eqb_eq|].
  exfalso.
  assert (X : Db.date_taken r rows = true).
  { apply existsb_exists. exists o. split; [exact Ho|].
    now rewrite Q, U, D, !String.eqb_refl. }
  congruence.
Qed.

Section Constraints.
Variable s : Store.
Hypothesis C : constraints s.

Lemma upsert_daily_entries_constraints (payload : string -> DailyEntryRow.row) :
  constraints (snd (Db.upsert_daily_entries payload s)).
Proof.
  unfold Db.upsert_daily_entries. cbv zeta. set (r := payload (clock s)).
  destruct (session s) as [uid|]; [|exact C].
  destruct (negb _); [exact C|].
  destruct (Db.date_taken r (daily_entries s)) eqn:T; [exact C|].
  destruct C as [c1 c2 c3 c4 c5 c6 c7 c8].
  destruct (find _ (daily_entries s)) as [old|] eqn:F.
  - destruct (Db.allowed _ uid (DailyEntryRow.user_id old)); [|now constructor].
    match goal with
    | |- constraints (snd (_, with_daily_entries s (map ?g0 _))) => set (g := g0)
    end.
    assert (G : forall o, (g o = o /\ String.eqb (DailyEntryRow.id o) (DailyEntryRow.id r) = false)
                          \/ (DailyEntryRow.id o = DailyEntryRow.id r
                              /\ DailyEntryRow.id (g o) = DailyEntryRow.id r
                              /\ DailyEntryRow.user_id (g o) = DailyEntryRow.user_id r
                              /\ DailyEntryRow.date (g o) = DailyEntryRow.date r)).
    { intros o. unfold g.
      destruct (String.eqb (DailyEntryRow.id o) (DailyEntryRow.id r)) eqn:Q; [right | left; auto].
      apply String.eqb_eq in Q. simpl. auto. }
    assert (Gid : forall o, DailyEntryRow.id (g o) = DailyEntryRow.id o).
    { intros o. destruct (G o) as [[-> _] | [Q [Q' _]]]; congruence. }
    constructor; simpl; try assumption.
    + now rewrite (map_key_kept DailyEntryRow.id g _ Gid).
    + intros a' b' Ha Hb U D.
      apply in_map_iff in Ha, Hb. destruct Ha as [a [<- Ha]], Hb as [b [<- Hb]].
      rewrite !Gid.
      destruct (G a) as [[Ea _] | [Qa [_ [Ua Da]]]], (G b) as [[Eb _] | [Qb [_ [Ub Db]]]].
      * rewrite Ea, Eb in *. now apply c5.
      * rewrite Ea in *. rewrite Qb.
        apply (date_taken_false r (daily_entries s)); congruence.
      * rewrite Eb in *. rewrite Qa. symmetry.
        apply (date_taken_false r (daily_entries s)); congruence.
      * congruence.
    + now rewrite (map_key_kept DailyEntryRow.id g _ Gid).
  - constructor; simpl; try assumption.
    + rewrite map_app. apply NoDup_snoc; [exact c1|]. now apply find_id_none.
    + intros a b Ha Hb U D. apply in_app_or in Ha, Hb.
      destruct Ha as [Ha | [<- | []]], Hb as [Hb | [<- | []]].
      * now apply c5.
      * now apply (date_taken_false r (daily_entries s)).
      * symmetry. apply (date_taken_false r (daily_entries s)); congruence.
      * reflexivity.
    + intros t i Ht Hi. rewrite map_app. apply in_or_app. left. now apply (c7 t).
Qed.

Lemma update_daily_entries_constraints (f : DailyEntryRow.row -> DailyEntryRow.row)
    (id u : UUID) :
  (forall r, DailyEntryRow.id (f r) = DailyEntryRow.id r
             /\ DailyEntryRow.user_id (f r) = DailyEntryRow.user_id r
             /\ DailyEntryRow.date (f r) = DailyEntryRow.date r) ->
  constraints (snd (Db.update_daily_entries f id u s)).
Proof.
  intros K. unfold Db.update_daily_entries.
  destruct (session s) as [uid|]; [|exact C].
  destruct C as [c1 c2 c3 c4 c5 c6 c7 c8].
  match goal with
  | |- constraints (snd (_, with_daily_entries s (map ?g0 _))) => set (g := g0)
  end.
  assert (G : forall r, DailyEntryRow.id (g r) = DailyEntryRow.id r
                        /\ DailyEntryRow.user_id (g r) = DailyEntryRow.user_id r
                        /\ DailyEntryRow.date (g r) = DailyEntryRow.date r).
  { intros r. unfold g. destruct (_ && _); [apply K | auto]. }
  constructor; simpl; try assumption.
  - now rewrite (map_key_kept DailyEntryRow.id g _ (fun r => proj1 (G r))).
  - intros a' b' Ha Hb U D.
    apply in_map_iff in Ha, Hb. destruct Ha as [a [<- Ha]], Hb as [b [<- Hb]].
    destruct (G a) as [Ia [Ua Da]], (G b) as [Ib [Ub Db]].
    rewrite Ia, Ib. apply c5; congruence.
  - now rewrite (map_key_kept DailyEntryRow.id g _ (fun r => proj1 (G r))).
Qed.

Lemma delete_daily_entries_constraints (id u : UUID) :
  constraints (snd (Db.delete_daily_entries id u s)).
Proof.
  unfold Db.delete_daily_entries.
  destruct (session s) as [uid|]; [|exact C].
  destruct C as [c1 c2 c3 c4 c5 c6 c7 c8].
  cbv zeta.
  constructor; simpl; try assumption.
  - now apply NoDup_map_filter.
  - rewrite (map_key_kept TransactionRow.id); [exact c3|].
    intros t. unfold Db.entry_id_set_null. now destruct (Db.refers _ _).
  - intros a b Ha Hb. apply filter_In in Ha, Hb. now apply c5.
  - intros t' i Ht Hi. apply in_map_iff in Ht. destruct Ht as [t [<- Ht]].
    unfold Db.entry_id_set_null in Hi.
    destruct (Db.refers (TransactionRow.entry_id t) _) eqn:R; [discriminate|].
    pose proof (c7 t i Ht Hi) as Hin. apply in_map_iff in Hin. destruct Hin as [x [Q Hx]].
    apply in_map_iff. exists x. split; [exact Q|]. apply filter_In. split; [exact Hx|].
    match goal with
    | |- negb ?h = true => destruct h eqn:H; [|reflexivity]
    end.
    exfalso. rewrite Hi in R. unfold Db.refers in R.
    match type of R with
    | Db.mem i ?gone = false => assert (M : Db.mem i gone = true)
    end.
    { apply mem_In. rewrite <- Q. apply in_map. apply filter_In. split; [exact Hx | exact H]. }
    congruence.
  - intros t' i Ht Hi. apply in_map_iff in Ht. destruct Ht as [t [<- Ht]].
    apply (c8 t); [exact Ht|].
    unfold Db.entry_id_set_null in Hi. now destruct (Db.refers _ _).
Qed.

Lemma upsert_back_safe_withdrawals_constraints (payload : string -> WithdrawalRow.row) :
  constraints (snd (Db.upsert_back_safe_withdrawals payload s)).
Proof.
  unfold Db.upsert_back_safe_withdrawals. cbv zeta. set (r := payload (clock s)).
  destruct (session s) as [uid|]; [|exact C].
  destruct (negb _); [exact C|].
  destruct C as [c1 c2 c3 c4 c5 c6 c7 c8].
  destruct (find _ (back_safe_withdrawals s)) as [old|] eqn:F.
  - destruct (Db.allowed _ uid (WithdrawalRow.user_id old)); [|now constructor].
    match goal with
    | |- constraints (snd (_, with_back_safe_withdrawals s (map ?g0 _))) => set (g := g0)
    end.
    assert (Gid : forall o, WithdrawalRow.id (g o) = WithdrawalRow.id o).
    { intros o. unfold g.
      destruct (String.eqb (WithdrawalRow.id o) (WithdrawalRow.id r)) eqn:Q; [|reflexivity].
      apply String.eqb_eq in Q. now rewrite Q. }
    constructor; simpl; try assumption;
      now rewrite (map_key_kept WithdrawalRow.id g _ Gid).
  - constructor; simpl; try assumption.
    + rewrite map_app. apply NoDup_snoc; [exact c2|]. now apply find_id_none.
    + intros t i Ht Hi. rewrite map_app. apply in_or_app. left. now apply (c8 t).
Qed.

Lemma update_back_safe_withdrawals_constraints (f : WithdrawalRow.row -> WithdrawalRow.row)
    (id u : UUID) :
  (forall r, WithdrawalRow.id (f r) = WithdrawalRow.id r) ->
  constraints (snd (Db.update_back_safe_withdrawals f id u s)).
Proof.
  intros K. unfold Db.update_back_safe_withdrawals.
  destruct (session s) as [uid|]; [|exact C].
  destruct C as [c1 c2 c3 c4 c5 c6 c7 c8].
  match goal with
  | |- constraints (snd (_, with_back_safe_withdrawals s (map ?g0 _))) => set (g := g0)
  end.
  assert (G : forall r, WithdrawalRow.id (g r) = WithdrawalRow.id r).
  { intros r. unfold g. destruct (_ && _); [apply K | reflexivity]. }
  constructor; simpl; try assumption;
    now rewrite (map_key_kept WithdrawalRow.id g _ G).
Qed.

Lemma delete_back_safe_withdrawals_constraints (id u : UUID) :
  constraints (snd (Db.delete_back_safe_withdrawals id u s)).
Proof.
  unfold Db.delete_back_safe_withdrawals.
  destruct (session s) as [uid|]; [|exact C].
  destruct C as [c1 c2 c3 c4 c5 c6 c7 c8].
  cbv zeta.
  constructor; simpl; try assumption.
  - now apply NoDup_map_filter.
  - rewrite (map_key_kept TransactionRow.id); [exact c3|].
    intros t. unfold Db.withdrawal_id_set_null. now destruct (Db.refers _ _).
  - intros t' i Ht Hi. apply in_map_iff in Ht. destruct Ht as [t [<- Ht]].
    apply (c7 t); [exact Ht|].
    unfold Db.withdrawal_id_set_null in Hi. now destruct (Db.refers _ _).
  - intros t' i Ht Hi. apply in_map_iff in Ht. destruct Ht as [t [<- Ht]].
    unfold Db.withdrawal_id_set_null in Hi.
    destruct (Db.refers (TransactionRow.withdrawal_id t) _) eqn:R; [discriminate|].
    pose proof (c8 t i Ht Hi) as Hin. apply in_map_iff in Hin. destruct Hin as [x [Q Hx]].
    apply in_map_iff. exists x. split; [exact Q|]. apply filter_In. split; [exact Hx|].
    match goal with
    | |- negb ?h = true => destruct h eqn:H; [|reflexivity]
    end.
    exfalso. rewrite Hi in R. unfold Db.refers in R.
    match type of R with
    | Db.mem i ?gone = false => assert (M : Db.mem i gone = true)
    end.
    { apply mem_In. rewrite <- Q. apply in_map. apply filter_In. split; [exact Hx | exact H]. }
    congruence.
Qed.

Lemma insert_back_safe_transactions_constraints (payload : string -> TransactionRow.row) :
  constraints (snd (Db.insert_back_safe_transactions payload s)).
Proof.
  unfold Db.insert_back_safe_transactions. cbv zeta. set (r := payload (clock s)).
  destruct (session s) as [uid|]; [|exact C].
  destruct (negb _); [exact C|].
  destruct (Db.mem _ _) eqn:M; [exact C|].
  destruct (Db.link_ok _ _ && Db.link_ok _ _) eqn:L; simpl; [|exact C].
  apply andb_true_iff in L. destruct L as [L1 L2].
  destruct C as [c1 c2 c3 c4 c5 c6 c7 c8].
  constructor; simpl; try assumption.
  - rewrite map_app. apply NoDup_snoc; [exact c3|].
    intros H. apply mem_In in H. congruence.
  - intros t i Ht Hi. apply in_app_or in Ht. destruct Ht as [Ht | [<- | []]].
    + now apply (c7 t).
    + rewrite Hi in L1. now apply mem_In.
  - intros t i Ht Hi. apply in_app_or in Ht. destruct Ht as [Ht | [<- | []]].
    + now apply (c8 t).
    + rewrite Hi in L2. now apply mem_In.
Qed.

Lemma delete_back_safe_transactions_constraints (id : UUID) :
  constraints (snd (Db.delete_back_safe_transactions id s)).
Proof.
  unfold Db.delete_back_safe_transactions.
  destruct (session s) as [uid|]; [|exact C].
  destruct C as [c1 c2 c3 c4 c5 c6 c7 c8].
  constructor; simpl; try assumption.
  - now apply NoDup_map_filter.
  - intros t i Ht. apply filter_In in Ht. now apply c7.
  - intros t i Ht. apply filter_In in Ht. now apply c8.
Qed.

Lemma upsert_monthly_archives_constraints (payload : string -> ArchiveRow.row) :
  constraints (snd (Db.upsert_monthly_archives payload s)).
Proof.
  unfold Db.upsert_monthly_archives. cbv zeta. set (r := payload (clock s)).
  destruct (session s) as [uid|]; [|exact C].
  destruct (negb _); [exact C|].
  destruct (existsb _ (monthly_archives s)) eqn:X; [exact C|].
  assert (N : forall o, In o (monthly_archives s) ->
                ArchiveRow.id o <> ArchiveRow.id r
                /\ ~ (ArchiveRow.user_id o = ArchiveRow.user_id r
                      /\ ArchiveRow.month o = ArchiveRow.month r)).
  { intros o Ho.
    destruct (String.eqb (ArchiveRow.id o) (ArchiveRow.id r)
              || String.eqb (ArchiveRow.user_id o) (ArchiveRow.user_id r)
                 && String.eqb (ArchiveRow.month o) (ArchiveRow.month r)) eqn:Q.
    - assert (existsb (fun o0 => String.eqb (ArchiveRow.id o0) (ArchiveRow.id r)
                         || String.eqb (ArchiveRow.user_id o0) (ArchiveRow.user_id r)
                            && String.eqb (ArchiveRow.month o0) (ArchiveRow.month r))
                      (monthly_archives s) = true)
        by (apply existsb_exists; eauto).
      congruence.
    - apply orb_false_iff in Q. destruct Q as [Q1 Q2]. split.
      + now apply String.eqb_neq.
      + intros [U M]. now rewrite U, M, !String.eqb_refl in Q2. }
  destruct C as [c1 c2 c3 c4 c5 c6 c7 c8].
  constructor; simpl; try assumption.
  - rewrite map_app. apply NoDup_snoc; [exact c4|].
    intros H. apply in_map_iff in H. destruct H as [o [Q Ho]].
    now apply (proj1 (N o Ho)).
  - intros a b Ha Hb U M. apply in_app_or in Ha, Hb.
    destruct Ha as [Ha | [<- | []]], Hb as [Hb | [<- | []]].
    + now apply c6.
    + exfalso. apply (proj2 (N a Ha)). now split.
    + exfalso. apply (proj2 (N b Hb)). now split.
    + reflexivity.
Qed.

End Constraints.

Lemma set_approval_keeps_keys (approved : bool) (note at_ : option string) (now : string)
    (r : DailyEntryRow.row) :
  DailyEntryRow.id (set_approval approved note at_ now r) = DailyEntryRow.id r
  /\ DailyEntryRow.user_id (set_approval approved note at_ now r) = DailyEntryRow.user_id r
  /\ DailyEntryRow.date (set_approval approved note at_ now r) = DailyEntryRow.date r.
Proof. repeat split. Qed.

Lemma perform_constraints (s : Store) (w : Write) :
  constraints s -> constraints (after (perform w) s).
Proof.
  intros C. destruct (session s) as [u|] eqn:E.
  - destruct w; unfold perform.
    + unfold saveEntry. enter_api E. now apply upsert_daily_entries_constraints.
    + unfold deleteEntry. enter_api E. now apply delete_daily_entries_constraints.
    + unfold approveEntry. enter_api E.
      apply update_daily_entries_constraints; [exact C|]. apply set_approval_keeps_keys.
    + unfold removeApproval. enter_api E.
      apply update_daily_entries_constraints; [exact C|]. apply set_approval_keeps_keys.
    + unfold after, saveWithdrawal, bind at 1, getCurrentUser. rewrite E. unfold bind at 1.
      match goal with
      | |- context [Db.upsert_back_safe_withdrawals ?r s] =>
          pose proof (upsert_back_safe_withdrawals_constraints s C r) as C1;
          destruct (Db.upsert_back_safe_withdrawals r s) as [err s1]
      end.
      simpl in C1. unfold bind at 1, console_error, ret. unfold saveBackSafeTransaction.
      destruct (session s1) as [u1|] eqn:E1.
      * enter_api E1. now apply insert_back_safe_transactions_constraints.
      * leave_api E1. exact C1.
    + unfold after, deleteWithdrawal, bind at 1, getCurrentUser. rewrite E. unfold bind at 1.
      pose proof (delete_back_safe_withdrawals_constraints s C id u) as C1.
      destruct (Db.delete_back_safe_withdrawals id u s) as [err s1]. simpl in C1.
      unfold bind, console_error, ret.
      pose proof (delete_back_safe_transactions_constraints s1 C1 id) as C2.
      now destruct (Db.delete_back_safe_transactions id s1) as [err' s2].
    + unfold updateWithdrawal. enter_api E.
      apply update_back_safe_withdrawals_constraints; [exact C | reflexivity].
    + unfold saveBackSafeTransaction. enter_api E.
      now apply insert_back_safe_transactions_constraints.
    + unfold saveArchive. enter_api E. now apply upsert_monthly_archives_constraints.
    + unfold after, bind, ret. rewrite closeMonth_eq, E.
      destruct (result (getEntriesForMonth month) s); [exact C|].
      simpl. unfold saveArchive. enter_api E.
      now apply upsert_monthly_archives_constraints.
  - assert (Q : after (perform w) s = s); [|now rewrite Q].
    destruct w; unfold perform;
      try (unfold saveEntry, deleteEntry, approveEntry, removeApproval, saveWithdrawal,
             deleteWithdrawal, updateWithdrawal, saveBackSafeTransaction, saveArchive;
           leave_api E; reflexivity).
    unfold after, bind, ret. now rewrite closeMonth_eq, E.
Qed.

Lemma constraints_session (s : Store) (user : option UUID) (time : string) :
  constraints s ->
  constraints {| session := user; clock := time; daily_entries := daily_entries s;
                 back_safe_withdrawals := back_safe_withdrawals s;
                 back_safe_transactions := back_safe_transactions s;
                 monthly_archives := monthly_archives s |}.
Proof. intros [c1 c2 c3 c4 c5 c6 c7 c8]. now constructor. Qed.

(** X21.  Every database the store can reach from empty tables, through
    sign-ins, sign-outs and writes, satisfies the constraints of the
    schema: identifiers are unique in each table, an account has at most
    one entry per date and one archive per month, and every link of a
    ledger row points to an existing entry or withdrawal. *)
Theorem reachable_stores_satisfy_the_schema (s : Store) :
  reachable s -> constraints s.
Proof.
  induction 1 as [user time | s u _ IH | s _ IH | s time _ IH | s w _ IH].
  - constructor; simpl; try constructor; intros ? ? [].
  - now apply constraints_session.
  - now apply constraints_session.
  - now apply constraints_session.
  - now apply perform_constraints.
Qed.

Lemma reachable_stores_satisfy_the_schema_witness :
  reachable Sample.two_entries /\ constraints Sample.two_entries.
Proof.
  assert (R : reachable Sample.two_entries).
  { exact (reachable_write _
             (SaveEntry (Sample.entry "e-0310" "2024-03-10" 100 600 400 0 300) Sample.t0)
             (reachable_write _
                (SaveEntry (Sample.entry "e-0301" "2024-03-01" 0 500 400 0 100) Sample.t0)
                (reachable_empty (Some Sample.user) (clock Sample.empty)))). }
  split; [exact R | exact (reachable_stores_satisfy_the_schema _ R)].
Defined.

(* ================================================================= *)
(** ** The ledger only grows *)

Lemma movements_kept (g : TransactionRow.row -> TransactionRow.row)
    (rows : list TransactionRow.row) :
  (forall r, movement (g r) = movement r) ->
  map movement (map g rows) = map movement rows.
Proof. intros H. rewrite map_map. now apply map_ext. Qed.

Lemma delete_daily_entries_movements (id u : UUID) (s : Store) :
  map movement (back_safe_transactions (snd (Db.delete_daily_entries id u s)))
  = map movement (back_safe_transactions s).
Proof.
  unfold Db.delete_daily_entries. destruct (session s); [|reflexivity].
  simpl. apply movements_kept. intros r. unfold Db.entry_id_set_null.
  now destruct (Db.refers _ _).
Qed.

Lemma delete_back_safe_withdrawals_movements (id u : UUID) (s : Store) :
  map movement (back_safe_transactions (snd (Db.delete_back_safe_withdrawals id u s)))
  = map movement (back_safe_transactions s).
Proof.
  unfold Db.delete_back_safe_withdrawals. destruct (session s); [|reflexivity].
  simpl. apply movements_kept. intros r. unfold Db.withdrawal_id_set_null.
  now destruct (Db.refers _ _).
Qed.

Lemma delete_back_safe_transactions_nothing (id : UUID) (s : Store) :
  snd (Db.delete_back_safe_transactions id s) = s.
Proof.
  unfold Db.delete_back_safe_transactions. destruct (session s); [|reflexivity].
  simpl. rewrite (filter_all (fun _ => true)) by reflexivity. destruct s; reflexivity.
Qed.

Lemma insert_back_safe_transactions_movements (payload : string -> TransactionRow.row)
    (s : Store) :
  exists added,
    map movement (back_safe_transactions (snd (Db.insert_back_safe_transactions payload s)))
    = (map movement (back_safe_transactions s) ++ added)%list
    /\ (List.length added <= 1)%nat.
Proof.
  unfold Db.insert_back_safe_transactions. cbv zeta. set (r := payload (clock s)).
  assert (Nothing : exists added : list (UUID * UUID * string * TransactionType.t * Money
                                             * option string * string),
             map movement (back_safe_transactions s)
             = (map movement (back_safe_transactions s) ++ added)%list
             /\ (List.length added <= 1)%nat).
  { exists []. rewrite app_nil_r. split; [reflexivity | simpl; lia]. }
  destruct (session s); [|exact Nothing].
  destruct (negb _); [exact Nothing|].
  destruct (Db.mem _ _); [exact Nothing|].
  destruct (negb _); [exact Nothing|].
  exists [movement r]. simpl. rewrite map_app. split; [reflexivity | lia].
Qed.

(** X22.  No write of the store removes a row of the ledger or changes
    the account, date, type, amount, reason or creation time of one: the
    movements recorded after a write are those recorded before, in the same
    order, followed by at most one new movement, and only [saveWithdrawal]
    and [saveBackSafeTransaction] add one. *)
Theorem ledger_is_append_only (s : Store) (w : Write) :
  exists added,
    map movement (back_safe_transactions (after (perform w) s))
    = (map movement (back_safe_transactions s) ++ added)%list
    /\ match w with
       | SaveWithdrawal _ _ _ | SaveBackSafeTransaction _ => (List.length added <= 1)%nat
       | _ => added = []
       end.
Proof.
  destruct (session s) as [u|] eqn:E.
  - destruct w; unfold perform.
    + exists []. rewrite app_nil_r. split; [|reflexivity].
      unfold saveEntry. enter_api E. unfold Db.upsert_daily_entries. rewrite E.
      split_cases; reflexivity.
    + exists []. rewrite app_nil_r. split; [|reflexivity].
      unfold deleteEntry. enter_api E. apply delete_daily_entries_movements.
    + exists []. rewrite app_nil_r. split; [|reflexivity].
      unfold approveEntry. enter_api E. unfold Db.update_daily_entries. now rewrite E.
    + exists []. rewrite app_nil_r. split; [|reflexivity].
      unfold removeApproval. enter_api E. unfold Db.update_daily_entries. now rewrite E.
    + unfold after, saveWithdrawal, bind at 1, getCurrentUser. rewrite E. unfold bind at 1.
      match goal with
      | |- context [Db.upsert_back_safe_withdrawals ?r s] =>
          pose proof (upsert_withdrawal_present s u r E (fun _ => eq_refl)) as P;
          destruct (Db.upsert_back_safe_withdrawals r s) as [err s1]
      end.
      simpl in P. destruct P as [_ [E1 [_ [_ T1]]]]. rewrite <- T1.
      unfold bind at 1, console_error, ret. unfold saveBackSafeTransaction.
      enter_api E1. apply insert_back_safe_transactions_movements.
    + exists []. rewrite app_nil_r. split; [|reflexivity].
      unfold after, deleteWithdrawal, bind at 1, getCurrentUser. rewrite E. unfold bind at 1.
      pose proof (delete_back_safe_withdrawals_movements id u s) as M.
      destruct (Db.delete_back_safe_withdrawals id u s) as [err s1]. simpl in M.
      unfold bind, console_error, ret.
      pose proof (delete_back_safe_transactions_nothing id s1) as K.
      destruct (Db.delete_back_safe_transactions id s1) as [err' s2]. simpl in K.
      simpl. now rewrite K.
    + exists []. rewrite app_nil_r. split; [|reflexivity].
      unfold updateWithdrawal. enter_api E. unfold Db.update_back_safe_withdrawals.
      now rewrite E.
    + unfold saveBackSafeTransaction. enter_api E. apply insert_back_safe_transactions_movements.
    + exists []. rewrite app_nil_r. split; [|reflexivity].
      unfold saveArchive. enter_api E. unfold Db.upsert_monthly_archives. rewrite E.
      split_cases; reflexivity.
    + exists []. rewrite app_nil_r. split; [|reflexivity].
      unfold after, bind, ret. rewrite closeMonth_eq, E.
      destruct (result (getEntriesForMonth month) s); [reflexivity|].
      simpl. unfold saveArchive. enter_api E. unfold Db.upsert_monthly_archives. rewrite E.
      split_cases; reflexivity.
  - assert (Q : after (perform w) s = s).
    { destruct w; unfold perform;
        try (unfold saveEntry, deleteEntry, approveEntry, removeApproval, saveWithdrawal,
               deleteWithdrawal, updateWithdrawal, saveBackSafeTransaction, saveArchive;
             leave_api E; reflexivity).
      unfold after, bind, ret. now rewrite closeMonth_eq, E. }
    rewrite Q. exists []. rewrite app_nil_r. split; [reflexivity|].
    destruct w; auto.
Qed.
